(** * Hotel identity resolution: a shallow embedding of [main.py] and
      [match_EXCEL.py]

    The repository holds two copies of the same engine.  [match_EXCEL.py] is
    the fuller one (robust address parser, country variants, alphabetic check
    on state codes, per-location error handling, conflict-free insert);
    [main.py] is the shorter one.  Both are embedded, function by function,
    in the modules [MatchExcel] and [Main]; what the two files share (the
    state table, the threshold, the scoring loop) is defined once.

    Conventions.
    - Python [str] values are Rocq [string]s.  The embedding covers ASCII
      text: a character of code 128 or more is carried through unchanged and
      is neither a letter, a digit nor white space.  Python's own classes are
      Unicode-aware, so a statement that fixes what a function returns on
      such characters carries the hypothesis [isascii].
    - A Python value that may be [None], a pandas missing value (the float
      [nan]) or a string is a [pyval].
    - [fuzz.token_set_ratio] belongs to the rapidfuzz library, not to the
      repository: it is a parameter of the development.  Its results are
      Python floats; finite floats are rationals, so scores are in [Q]. *)

From Stdlib Require Import Ascii String List Bool Arith NArith Lia QArith Lqa.
From stdpp Require Import base strings gmap.

Local Open Scope string_scope.
Local Open Scope list_scope.

(** ** Python string primitives *)

Module Py.

Definition code (c : ascii) : N := N_of_ascii c.

Definition in_range (lo hi : N) (c : ascii) : bool :=
  ((lo <=? code c) && (code c <=? hi))%N.

(** [str.isspace] on one ASCII character: TAB, LF, VT, FF, CR, the four
    separators FS, GS, RS, US, and the space.  This is also the class [\s]
    of [re] on [str] patterns.  (Python counts more characters as white
    space, all of them outside ASCII: the no-break space is one.) *)
Definition is_space (c : ascii) : bool :=
  in_range 9 13 c || in_range 28 32 c.

Definition is_lower (c : ascii) : bool := in_range 97 122 c.
Definition is_upper (c : ascii) : bool := in_range 65 90 c.
Definition is_digit (c : ascii) : bool := in_range 48 57 c.
Definition is_alpha (c : ascii) : bool := is_lower c || is_upper c.

(** The class [\w] of [re], on ASCII.  (Python's class also holds the
    letters and digits outside ASCII, and so does its word boundary.) *)
Definition is_word (c : ascii) : bool :=
  is_alpha c || is_digit c || (code c =? 95)%N.

Definition lower_char (c : ascii) : ascii :=
  if is_upper c then ascii_of_N (code c + 32) else c.

Definition upper_char (c : ascii) : ascii :=
  if is_lower c then ascii_of_N (code c - 32) else c.

Fixpoint map_str (f : ascii -> ascii) (s : string) : string :=
  match s with
  | EmptyString => EmptyString
  | String c s' => String (f c) (map_str f s')
  end.

Fixpoint filter_str (p : ascii -> bool) (s : string) : string :=
  match s with
  | EmptyString => EmptyString
  | String c s' => if p c then String c (filter_str p s') else filter_str p s'
  end.

Fixpoint all_str (p : ascii -> bool) (s : string) : bool :=
  match s with
  | EmptyString => true
  | String c s' => p c && all_str p s'
  end.

(** [s.lower()], [s.upper()] on ASCII text: the letters a-z and A-Z are
    mapped, every other character is kept, and the length with it.
    (Python also maps the letters outside ASCII, some of them to two
    characters.) *)
Definition lower (s : string) : string := map_str lower_char s.
Definition upper (s : string) : string := map_str upper_char s.

(** [s.lstrip()], [s.rstrip()], [s.strip()] *)
Fixpoint lstrip (s : string) : string :=
  match s with
  | EmptyString => EmptyString
  | String c s' => if is_space c then lstrip s' else s
  end.

Fixpoint rstrip (s : string) : string :=
  match s with
  | EmptyString => EmptyString
  | String c s' =>
      match rstrip s' with
      | EmptyString => if is_space c then EmptyString else String c EmptyString
      | r => String c r
      end
  end.

Definition strip (s : string) : string := rstrip (lstrip s).

(** [s.split(sep)] for a one-character separator: never the empty list. *)
Fixpoint split (sep : ascii) (s : string) : list string :=
  match s with
  | EmptyString => [EmptyString]
  | String c s' =>
      if Ascii.eqb c sep then EmptyString :: split sep s'
      else match split sep s' with
           | h :: t => String c h :: t
           | [] => [String c EmptyString]
           end
  end.

(** [s.isalpha()]: at least one character, and all of them letters. *)
Definition isalpha (s : string) : bool :=
  negb (String.eqb s "") && all_str is_alpha s.

(** [len(s)] *)
Definition len (s : string) : nat := String.length s.

(** [s.isascii()]: every character has a code below 128.  On such a string
    the primitives above are Python's: [str.isspace], [str.isalpha],
    [str.upper], [str.lower] and the classes [\s], [\w] of [re] agree with
    their ASCII tables. *)
Definition isascii (s : string) : bool :=
  all_str (fun c => (code c <? 128)%N) s.

(** [l[-k]] for [k >= 1]: [None] stands for [IndexError]. *)
Definition from_end {A} (l : list A) (k : nat) : option A :=
  if (k <=? length l)%nat then nth_error l (length l - k) else None.

(** A value that reaches the normalizers: [None], the float [nan] that
    pandas puts in an empty cell, or a string. *)
Inductive pyval : Type :=
  | PyNone
  | PyNaN
  | PyStr (s : string).

(** [str(v)] *)
Definition str (v : pyval) : string :=
  match v with
  | PyNone => "None"
  | PyNaN => "nan"
  | PyStr s => s
  end.

(** Truth value of [v] in [if not v]: [None] and the empty string are
    false, [nan] is a non-zero float and is true. *)
Definition truthy (v : pyval) : bool :=
  match v with
  | PyNone => false
  | PyNaN => true
  | PyStr s => negb (String.eqb s "")
  end.

End Py.

Import Py.

(** ** Constants shared by the two files *)

Definition FUZZY_THRESHOLD : Q := 85.

Definition STATE_CODE_ITEMS : list (string * string) :=
  [ ("alabama", "AL"); ("alaska", "AK"); ("arizona", "AZ"); ("arkansas", "AR");
    ("california", "CA"); ("colorado", "CO"); ("connecticut", "CT");
    ("delaware", "DE"); ("florida", "FL"); ("georgia", "GA");
    ("hawaii", "HI"); ("idaho", "ID"); ("illinois", "IL");
    ("indiana", "IN"); ("iowa", "IA"); ("kansas", "KS");
    ("kentucky", "KY"); ("louisiana", "LA"); ("maine", "ME");
    ("maryland", "MD"); ("massachusetts", "MA"); ("michigan", "MI");
    ("minnesota", "MN"); ("mississippi", "MS"); ("missouri", "MO");
    ("montana", "MT"); ("nebraska", "NE"); ("nevada", "NV");
    ("new hampshire", "NH"); ("new jersey", "NJ");
    ("new mexico", "NM"); ("new york", "NY");
    ("north carolina", "NC"); ("north dakota", "ND");
    ("ohio", "OH"); ("oklahoma", "OK"); ("oregon", "OR");
    ("pennsylvania", "PA"); ("rhode island", "RI");
    ("south carolina", "SC"); ("south dakota", "SD");
    ("tennessee", "TN"); ("texas", "TX"); ("utah", "UT");
    ("vermont", "VT"); ("virginia", "VA"); ("washington", "WA");
    ("west virginia", "WV"); ("wisconsin", "WI"); ("wyoming", "WY") ].

(** The dict [STATE_CODE_MAP]; [STATE_CODE_MAP.get(k)] is [STATE_CODE_MAP !! k]. *)
Definition STATE_CODE_MAP : gmap string string := list_to_map STATE_CODE_ITEMS.

(** A value of the table: two capital letters. *)
Definition is_state_code (code : string) : bool :=
  (String.length code =? 2)%nat && all_str is_upper code.

(** ** The master registry

    One row of the DataFrame [df_master]: the columns of the Excel file that
    the engine reads, and the four columns that [load_csl_hotels] adds. *)

(** A numeric cell: a float, or the [nan] of an empty cell. *)
Inductive num : Type :=
  | NumNaN
  | Num (q : Q).

Module Raw.
Record row : Type := mk {
  Global_Property_ID : string;
  Global_Property_Name : pyval;
  Property_City_Name : pyval;
  Property_State_Province : pyval;
  Property_Country_Code : pyval;
  Property_Latitude : num;
  Property_Longitude : num
}.
End Raw.

Module Master.
Record row : Type := mk {
  raw : Raw.row;
  hotel_norm : string;
  city_norm : string;
  state_code : string;
  country_code : string
}.
End Master.

(** ** The scoring loop, shared by the two files

    [main.py] lines 228-235 and [match_EXCEL.py] lines 317-324:
<<
    best_score = 0
    best_row = None
    for _, row in candidates.iterrows():
        score = fuzz.token_set_ratio(item_hotel, row["hotel_norm"])
        if score > best_score:
            best_score = score
            best_row = row
>>
*)

Section Scan.

Variable token_set_ratio : string -> string -> Q.

Definition scan_step (item_hotel : string)
    (acc : Q * option Master.row) (row : Master.row) : Q * option Master.row :=
  let score := token_set_ratio item_hotel (Master.hotel_norm row) in
  if Qlt_le_dec (fst acc) score then (score, Some row) else acc.

Definition scan (item_hotel : string) (candidates : list Master.row)
  : Q * option Master.row :=
  fold_left (scan_step item_hotel) candidates (0%Q, None).

(** Score of a candidate against the discovered name. *)
Definition score_of (item_hotel : string) (row : Master.row) : Q :=
  token_set_ratio item_hotel (Master.hotel_norm row).

(** [best_score >= FUZZY_THRESHOLD] *)
Definition reaches_threshold (best_score : Q) : bool :=
  if Qlt_le_dec best_score FUZZY_THRESHOLD then false else true.

End Scan.

(** ** The normalizers of [match_EXCEL.py] *)

Module MatchExcel.

(** [normalize_text], lines 97-105. *)
Definition normalize_text (val : pyval) : string :=
  match val with
  | PyNone => ""
  | _ =>
      let val := str val in
      if String.eqb (lower val) "nan" then ""
      else
        let val := lower val in
        let val := filter_str (fun c => is_lower c || is_digit c || is_space c) val in
        strip val
  end.

(** [state_to_code], lines 107-113. *)
Definition state_to_code (state : pyval) : option string :=
  if negb (truthy state) then None
  else
    let s := strip (str state) in
    if (len s =? 2)%nat && isalpha s then Some (upper s)
    else STATE_CODE_MAP !! lower s.

(** The tuple of accepted spellings in [country_to_code]. *)
Definition US_VARIANTS : list string :=
  ["USA"; "UNITED STATES"; "US"; "U.S."; "U.S.A."].

Definition mem (s : string) (l : list string) : bool :=
  existsb (String.eqb s) l.

(** [country_to_code], lines 115-125. *)
Definition country_to_code (country : pyval) : option string :=
  if negb (truthy country) then None
  else
    let c := strip (str country) in
    if String.eqb c "" then None
    else
      let c_up := upper c in
      if mem c_up US_VARIANTS then Some "US" else Some c_up.

(** [re.match(r"([A-Za-z]{2})\b", s)], returning group 1: two letters at the
    start of [s], followed by a word boundary, that is by the end of the
    string or by a character outside [\w].  The boundary is that of
    [is_word]: it is Python's when the character after the two letters is
    ASCII. *)
Definition state_match (s : string) : option string :=
  match s with
  | String a (String b rest) =>
      if is_alpha a && is_alpha b
         && match rest with
            | EmptyString => true
            | String c _ => negb (is_word c)
            end
      then Some (String a (String b EmptyString))
      else None
  | _ => None
  end.

(** The list comprehension of line 136:
    [[p.strip() for p in address.split(",") if p.strip()]]. *)
Definition address_parts (address : string) : list string :=
  List.filter (fun p => negb (String.eqb p ""))
         (map strip (split "," address)).

Definition get_or_empty (o : option string) : string :=
  match o with Some s => s | None => "" end.

(** [parse_address_components], lines 127-161. *)
Definition parse_address_components (address : string)
  : string * string * string :=
  if String.eqb address "" then ("", "", "")
  else
    let parts := address_parts address in
    let country :=
      if (1 <=? length parts)%nat then get_or_empty (from_end parts 1) else "" in
    let '(city, state) :=
      if (3 <=? length parts)%nat then
        let possible_state := get_or_empty (from_end parts 2) in
        let possible_city := get_or_empty (from_end parts 3) in
        match state_match possible_state with
        | Some st => (possible_city, st)
        | None => (possible_state, "")
        end
      else ("", "") in
    let city :=
      if String.eqb city "" && (2 <=? length parts)%nat
      then get_or_empty (from_end parts 2) else city in
    (strip city, strip state, strip country).

End MatchExcel.

(** ** The normalizers of [main.py] *)

Module Main.

(** [normalize_text], lines 56-61. *)
Definition normalize_text (val : pyval) : string :=
  if negb (truthy val) || String.eqb (lower (str val)) "nan" then ""
  else
    let val := lower (str val) in
    let val := filter_str (fun c => is_lower c || is_digit c || is_space c) val in
    strip val.

(** [state_to_code], lines 63-69. *)
Definition state_to_code (state : pyval) : option string :=
  if negb (truthy state) then None
  else
    let state := strip (str state) in
    if (len state =? 2)%nat then Some (upper state)
    else STATE_CODE_MAP !! lower state.

(** [country_to_code], lines 71-75. *)
Definition country_to_code (country : pyval) : option string :=
  if negb (truthy country) then None
  else
    let c := strip (upper (str country)) in
    if MatchExcel.mem c ["USA"; "UNITED STATES"] then Some "US" else Some c.

(** [parse_address_components], lines 77-82.  [parts] is never empty, as
    [split] always returns at least one string. *)
Definition parse_address_components (address : string)
  : string * string * string :=
  let parts := map strip (split "," address) in
  let city :=
    if (4 <=? length parts)%nat then MatchExcel.get_or_empty (from_end parts 4) else "" in
  let state :=
    if (3 <=? length parts)%nat then MatchExcel.get_or_empty (from_end parts 3) else "" in
  let country :=
    match parts with [] => "" | _ => MatchExcel.get_or_empty (from_end parts 1) end in
  (city, state, country).

End Main.

(** ** Matching in [match_EXCEL.py] *)

Module MatchExcelEngine.
Import MatchExcel.

(** The dict that [scrape_single_hotel] returns, lines 278-289. *)
Module Item.
Record t : Type := mk {
  scraped_name : string;
  hotel_norm : string;
  address : string;
  city : string;
  city_norm : string;
  state : string;
  state_code : option string;
  country : string;
  country_code : option string;
  url : string
}.
End Item.

(** The dict that [match_hotels] appends, lines 327-357. *)
Module Out.
Record t : Type := mk {
  hotel_code : option string;
  scraped_hotel_name : string;
  global_property_name : option pyval;
  city : string;
  state : string;
  state_code : option string;
  country : string;
  country_code : option string;
  url : string;
  address : string;
  latitude : option num;
  longitude : option num;
  match_confidence : Q
}.
End Out.

(** [load_csl_hotels], lines 195-213: the city, state and country columns
    are first turned into strings, then the keys are computed. *)
Definition load_row (r : Raw.row) : Master.row :=
  let city := PyStr (str (Raw.Property_City_Name r)) in
  let state := str (Raw.Property_State_Province r) in
  let country := str (Raw.Property_Country_Code r) in
  {| Master.raw := r;
     Master.hotel_norm := normalize_text (Raw.Global_Property_Name r);
     Master.city_norm := normalize_text city;
     Master.state_code := strip (upper state);
     Master.country_code := strip (upper country) |}.

Definition load_csl_hotels (excel : list Raw.row) : list Master.row :=
  map load_row excel.

(** The pure part of [scrape_single_hotel], lines 261-293: [name] is the text
    of the page's [h1] (empty on a timeout), [address] what
    [fetch_property_details] returned. *)
Definition scrape_single_hotel (name address href : string) : Item.t :=
  let '(city, state, country) := parse_address_components address in
  {| Item.scraped_name := name;
     Item.hotel_norm := normalize_text (PyStr name);
     Item.address := address;
     Item.city := city;
     Item.city_norm := normalize_text (PyStr city);
     Item.state := state;
     Item.state_code := state_to_code (PyStr state);
     Item.country := country;
     Item.country_code := country_to_code (PyStr country);
     Item.url := href |}.

(** Truth value of a string or [None]. *)
Definition some_text (o : option string) : bool :=
  match o with
  | Some s => negb (String.eqb s "")
  | None => false
  end.

Definition eq_code (cell : string) (o : option string) : bool :=
  match o with
  | Some s => String.eqb cell s
  | None => false
  end.

(** Candidate filter, lines 309-315. *)
Definition candidates_for (item : Item.t) (df_master : list Master.row)
  : list Master.row :=
  let candidates :=
    List.filter (fun row =>
              String.eqb (Master.city_norm row) (Item.city_norm item)
              && eq_code (Master.country_code row) (Item.country_code item))
           df_master in
  if some_text (Item.state_code item)
  then List.filter (fun row => eq_code (Master.state_code row) (Item.state_code item))
              candidates
  else candidates.

Definition matched_outcome (item : Item.t) (best_row : Master.row) (best_score : Q)
  : Out.t :=
  {| Out.hotel_code := Some (Raw.Global_Property_ID (Master.raw best_row));
     Out.scraped_hotel_name := Item.scraped_name item;
     Out.global_property_name := Some (Raw.Global_Property_Name (Master.raw best_row));
     Out.city := Item.city item;
     Out.state := Item.state item;
     Out.state_code := Item.state_code item;
     Out.country := Item.country item;
     Out.country_code := Item.country_code item;
     Out.url := Item.url item;
     Out.address := Item.address item;
     Out.latitude := Some (Raw.Property_Latitude (Master.raw best_row));
     Out.longitude := Some (Raw.Property_Longitude (Master.raw best_row));
     Out.match_confidence := best_score |}.

Definition no_match_outcome (item : Item.t) : Out.t :=
  {| Out.hotel_code := None;
     Out.scraped_hotel_name := Item.scraped_name item;
     Out.global_property_name := None;
     Out.city := Item.city item;
     Out.state := Item.state item;
     Out.state_code := Item.state_code item;
     Out.country := Item.country item;
     Out.country_code := Item.country_code item;
     Out.url := Item.url item;
     Out.address := Item.address item;
     Out.latitude := None;
     Out.longitude := None;
     Out.match_confidence := 0%Q |}.

Section Matching.

Variable token_set_ratio : string -> string -> Q.

(** Lines 317-357: scoring loop and decision for one record that passed the
    guard of line 306. *)
Definition decide_match (item : Item.t) (candidates : list Master.row) : Out.t :=
  match scan token_set_ratio (Item.hotel_norm item) candidates with
  | (best_score, Some best_row) =>
      if reaches_threshold best_score
      then matched_outcome item best_row best_score
      else no_match_outcome item
  | (_, None) => no_match_outcome item
  end.

(** The guard of line 306: [not item["city_norm"] or not item["country_code"]]. *)
Definition unresolvable (item : Item.t) : bool :=
  String.eqb (Item.city_norm item) "" || negb (some_text (Item.country_code item)).

(** One iteration of the loop of [match_hotels]: what it appends to
    [matched]. *)
Definition match_item (df_master : list Master.row) (it : option Item.t)
  : list Out.t :=
  match it with
  | None => []
  | Some item =>
      if unresolvable item then []
      else [decide_match item (candidates_for item df_master)]
  end.

(** [match_hotels], lines 299-359. *)
Definition match_hotels (scraped_hotels : list (option Item.t))
    (df_master : list Master.row) : list Out.t :=
  flat_map (match_item df_master) scraped_hotels.

End Matching.

End MatchExcelEngine.

(** ** Matching in [main.py] *)

Module MainEngine.

(** The dict that [scrape_single_hotel] returns, lines 176-183. *)
Module Item.
Record t : Type := mk {
  scraped_name : string;
  city : string;
  state : string;
  country : string;
  address : string;
  url : string
}.
End Item.

(** The dict that [match_hotels] appends, lines 238-264. *)
Module Out.
Record t : Type := mk {
  hotel_code : option string;
  scraped_hotel_name : string;
  global_property_name : option pyval;
  city : string;
  state : string;
  country : string;
  url : string;
  address : string;
  latitude : option num;
  longitude : option num;
  match_confidence : Q
}.
End Out.

(** [load_csl_hotels], lines 138-146. *)
Definition load_row (r : Raw.row) : Master.row :=
  {| Master.raw := r;
     Master.hotel_norm := Main.normalize_text (Raw.Global_Property_Name r);
     Master.city_norm := Main.normalize_text (Raw.Property_City_Name r);
     Master.state_code := strip (upper (str (Raw.Property_State_Province r)));
     Master.country_code := strip (upper (str (Raw.Property_Country_Code r))) |}.

Definition load_csl_hotels (excel : list Raw.row) : list Master.row :=
  map load_row excel.

(** The pure part of [scrape_single_hotel], lines 162-185. *)
Definition scrape_single_hotel (name address url : string) : Item.t :=
  let '(city, state, country) := Main.parse_address_components address in
  {| Item.scraped_name := name;
     Item.city := city;
     Item.state := state;
     Item.country := country;
     Item.address := address;
     Item.url := url |}.

Definition matched_outcome (item : Item.t) (best_match : Master.row) (best_score : Q)
  : Out.t :=
  {| Out.hotel_code := Some (Raw.Global_Property_ID (Master.raw best_match));
     Out.scraped_hotel_name := Item.scraped_name item;
     Out.global_property_name := Some (Raw.Global_Property_Name (Master.raw best_match));
     Out.city := Item.city item;
     Out.state := Item.state item;
     Out.country := Item.country item;
     Out.url := Item.url item;
     Out.address := Item.address item;
     Out.latitude := Some (Raw.Property_Latitude (Master.raw best_match));
     Out.longitude := Some (Raw.Property_Longitude (Master.raw best_match));
     Out.match_confidence := best_score |}.

Definition no_match_outcome (item : Item.t) : Out.t :=
  {| Out.hotel_code := None;
     Out.scraped_hotel_name := Item.scraped_name item;
     Out.global_property_name := None;
     Out.city := Item.city item;
     Out.state := Item.state item;
     Out.country := Item.country item;
     Out.url := Item.url item;
     Out.address := Item.address item;
     Out.latitude := None;
     Out.longitude := None;
     Out.match_confidence := 0%Q |}.

Section Matching.

Variable token_set_ratio : string -> string -> Q.

(** Candidate filter, lines 220-226, on the keys computed at lines 212-215. *)
Definition candidates_for (item_city : string) (item_state item_country : option string)
    (df_master : list Master.row) : list Master.row :=
  let candidates :=
    List.filter (fun row =>
              String.eqb (Master.city_norm row) item_city
              && MatchExcelEngine.eq_code (Master.country_code row) item_country)
           df_master in
  if MatchExcelEngine.some_text item_state
  then List.filter (fun row => MatchExcelEngine.eq_code (Master.state_code row) item_state)
              candidates
  else candidates.

(** Lines 228-264. *)
Definition decide_match (item : Item.t) (item_hotel : string)
    (candidates : list Master.row) : Out.t :=
  match scan token_set_ratio item_hotel candidates with
  | (best_score, Some best_match) =>
      if reaches_threshold best_score
      then matched_outcome item best_match best_score
      else no_match_outcome item
  | (_, None) => no_match_outcome item
  end.

(** One iteration of the loop of [match_hotels], lines 211-264. *)
Definition match_item (df_master : list Master.row) (item : Item.t) : list Out.t :=
  let item_city := Main.normalize_text (PyStr (Item.city item)) in
  let item_hotel := Main.normalize_text (PyStr (Item.scraped_name item)) in
  let item_state := Main.state_to_code (PyStr (Item.state item)) in
  let item_country := Main.country_to_code (PyStr (Item.country item)) in
  if String.eqb item_city "" || negb (MatchExcelEngine.some_text item_country) then []
  else [decide_match item item_hotel
          (candidates_for item_city item_state item_country df_master)].

(** [match_hotels], lines 208-266. *)
Definition match_hotels (scraped_hotels : list Item.t) (df_master : list Master.row)
  : list Out.t :=
  flat_map (match_item df_master) scraped_hotels.

End Matching.

End MainEngine.

(** ** Runs: crawler, persistence, coordinator

    The browser is outside the repository.  What it does at one location is
    given as data: the result that [retry_action(scrape_single_hotel)] gave
    for each hotel link, in order, and the exception, if any, that a call to
    the driver raised after these links were handled ([driver.get],
    [wait.until], [find_elements] and [get_attribute] can all raise). *)

Module Crawl.
Record visit (item : Type) : Type := mk {
  links : list (option item);
  failure : option string
}.
Arguments mk {item}.
Arguments links {item}.
Arguments failure {item}.

(** The [results] list after the loop [for href in hotel_links]: a link whose
    scrape gave [None] adds nothing. *)
Definition collected {item} (v : visit item) : list item :=
  flat_map (fun o => match o with Some d => [d] | None => [] end) (links v).
End Crawl.

(** Result of a call that may raise. *)
Inductive result (A : Type) : Type :=
  | Ok (a : A)
  | Raise (e : string).
Arguments Ok {A}.
Arguments Raise {A}.

(** Lines printed by the coordinator that matter here. *)
Inductive log_line : Type :=
  | FailedScrapingLocation (url e : string)
  | FatalError (e : string).

(** Computations that read and change a state and may raise: a raise keeps
    the state reached so far, as Python's mutations do. *)
Definition M (S A : Type) : Type := S -> result A * S.

Definition ret {S A} (a : A) : M S A := fun s => (Ok a, s).

Definition bind {S A B} (m : M S A) (k : A -> M S B) : M S B :=
  fun s => match m s with
           | (Ok a, s') => k a s'
           | (Raise e, s') => (Raise e, s')
           end.

Definition raise {S A} (e : string) : M S A := fun s => (Raise e, s).

(** [try: m except Exception as e: h(e)] *)
Definition try_except {S A} (m : M S A) (h : string -> M S A) : M S A :=
  fun s => match m s with
           | (Ok a, s') => (Ok a, s')
           | (Raise e, s') => h e s'
           end.

Notation "x <- m ;; k" := (bind m (fun x => k))
  (at level 100, m at next level, right associativity).

(** *** [match_EXCEL.py] *)

Module MatchExcelRun.
Import MatchExcelEngine.

(** State of a run: the table [hotel_mapped_url], the console, the list
    [all_results], and the snapshot file once written. *)
Record state : Type := mk {
  table : list Out.t;
  console : list log_line;
  all_results : list Out.t;
  snapshot : option (list Out.t)
}.

Definition print (l : log_line) : M state unit :=
  fun s => (Ok tt, {| table := table s; console := console s ++ [l];
                      all_results := all_results s; snapshot := snapshot s |}).

(** [scrape_hotels_from_location], lines 230-251: the body is inside
    [try], so the links handled before a failure are still returned. *)
Definition scrape_hotels_from_location (url : string) (v : Crawl.visit Item.t)
  : M state (list Item.t) :=
  let results := Crawl.collected v in
  _ <- try_except
         (match Crawl.failure v with
          | Some e => raise e
          | None => ret tt
          end)
         (fun e => print (FailedScrapingLocation url e)) ;;
  ret results.

Section Gateway.

(** The statement of lines 372-403 ends in
    [ON CONFLICT (hotel_code, url) DO NOTHING], which relies on a unique
    index over these two columns.  The repository does not declare that
    index ([CREATE TABLE], lines 169-185, has none), so the one thing the
    statement leaves to it is a parameter: whether two rows with a NULL
    [hotel_code] are distinct for the index (PostgreSQL's default,
    [NULLS DISTINCT]) or equal ([NULLS NOT DISTINCT]).

    This section is about a table that takes the statement: one prepared
    outside the repository with the columns that the statement names and
    that index.  On such a table the statement does not raise, and the
    records are stored as they are given.  The table as the repository
    makes it, the exception that the statement raises there, and the
    passage of the batch through a DataFrame are in [Table] and
    [MatchExcelStore] below. *)
Variable nulls_distinct : bool.

Definition same_key (a b : Out.t) : bool :=
  String.eqb (Out.url a) (Out.url b)
  && match Out.hotel_code a, Out.hotel_code b with
     | Some x, Some y => String.eqb x y
     | None, None => negb nulls_distinct
     | _, _ => false
     end.

(** One [INSERT ... ON CONFLICT (hotel_code, url) DO NOTHING]. *)
Definition insert_row (table : list Out.t) (r : Out.t) : list Out.t :=
  if existsb (same_key r) table then table else table ++ [r].

(** A record conflicts with itself when it has a [hotel_code], or when the
    index does not tell NULLs apart. *)
Definition keyed (r : Out.t) : Prop :=
  Out.hotel_code r <> None \/ nulls_distinct = false.

(** What [save_to_db], lines 365-408, does to the table: the statement is
    run once per record, in order. *)
Definition insert_rows (table : list Out.t) (records : list Out.t) : list Out.t :=
  match records with
  | [] => table
  | _ => fold_left insert_row records table
  end.

Definition save_to_db (records : list Out.t) : M state unit :=
  fun s => (Ok tt, {| table := insert_rows (table s) records; console := console s;
                      all_results := all_results s; snapshot := snapshot s |}).

Definition extend_results (matched : list Out.t) : M state unit :=
  fun s => (Ok tt, {| table := table s; console := console s;
                      all_results := all_results s ++ matched;
                      snapshot := snapshot s |}).

Definition write_snapshot : M state unit :=
  fun s => (Ok tt, {| table := table s; console := console s;
                      all_results := all_results s;
                      snapshot := Some (all_results s) |}).

Variable token_set_ratio : string -> string -> Q.
Variable df_master : list Master.row.

(** The loop of lines 420-424. *)
Fixpoint for_each_location (locations : list (string * Crawl.visit Item.t)) : M state unit :=
  match locations with
  | [] => ret tt
  | (url, v) :: rest =>
      hotels <- scrape_hotels_from_location url v ;;
      let matched := match_hotels token_set_ratio (map Some hotels) df_master in
      _ <- save_to_db matched ;;
      _ <- extend_results matched ;;
      for_each_location rest
  end.

(** [main_scrape_and_map], lines 413-432, after the table and the registry
    are set up. *)
Definition main_scrape_and_map (locations : list (string * Crawl.visit Item.t))
  : M state (list Out.t) :=
  _ <- try_except (for_each_location locations)
                  (fun e => print (FatalError e)) ;;
  _ <- write_snapshot ;;
  fun s => (Ok (all_results s), s).

(** What one location contributes, and what a list of locations leaves in
    [all_results], on the console and in the table: the terms in which the
    runs are described below. *)
Definition location_outcomes (loc : string * Crawl.visit Item.t) : list Out.t :=
  match_hotels token_set_ratio (map Some (Crawl.collected (snd loc))) df_master.

Definition run_outcomes (locations : list (string * Crawl.visit Item.t)) : list Out.t :=
  flat_map location_outcomes locations.

Definition run_failures (locations : list (string * Crawl.visit Item.t)) : list log_line :=
  flat_map (fun loc => match Crawl.failure (snd loc) with
                       | Some e => [FailedScrapingLocation (fst loc) e]
                       | None => []
                       end) locations.

Definition run_table (table : list Out.t) (locations : list (string * Crawl.visit Item.t))
  : list Out.t :=
  fold_left (fun t loc => insert_rows t (location_outcomes loc)) locations table.

End Gateway.

Definition initial (table : list Out.t) : state :=
  {| table := table; console := []; all_results := []; snapshot := None |}.

End MatchExcelRun.

(** *** [main.py] *)

Module MainRun.
Import MainEngine.

Record state : Type := mk {
  table : list Out.t;
  all_results : list Out.t;
  snapshot : option (list Out.t)
}.

(** [scrape_hotels_from_location], lines 187-203: no handler, a failure of
    the driver leaves the function as an exception. *)
Definition scrape_hotels_from_location (v : Crawl.visit Item.t) : M state (list Item.t) :=
  match Crawl.failure v with
  | Some e => raise e
  | None => ret (Crawl.collected v)
  end.

(** [save_to_db], lines 271-274: [to_sql(..., if_exists="append")]. *)
Definition save_to_db (records : list Out.t) : M state unit :=
  fun s => (Ok tt, {| table := match records with
                               | [] => table s
                               | _ => table s ++ records
                               end;
                      all_results := all_results s; snapshot := snapshot s |}).

Definition extend_results (matched : list Out.t) : M state unit :=
  fun s => (Ok tt, {| table := table s; all_results := all_results s ++ matched;
                      snapshot := snapshot s |}).

Definition write_snapshot : M state unit :=
  fun s => (Ok tt, {| table := table s; all_results := all_results s;
                      snapshot := Some (all_results s) |}).

Section Coordinator.

Variable token_set_ratio : string -> string -> Q.
Variable df_master : list Master.row.

(** The loop of lines 284-288. *)
Fixpoint for_each_location (locations : list (Crawl.visit Item.t)) : M state unit :=
  match locations with
  | [] => ret tt
  | v :: rest =>
      hotels <- scrape_hotels_from_location v ;;
      let matched := match_hotels token_set_ratio hotels df_master in
      _ <- save_to_db matched ;;
      _ <- extend_results matched ;;
      for_each_location rest
  end.

(** [main_scrape_and_map], lines 279-293. *)
Definition main_scrape_and_map (locations : list (Crawl.visit Item.t))
  : M state (list Out.t) :=
  _ <- for_each_location locations ;;
  _ <- write_snapshot ;;
  fun s => (Ok (all_results s), s).

Definition run_outcomes (locations : list (Crawl.visit Item.t)) : list Out.t :=
  flat_map (fun v => match_hotels token_set_ratio (Crawl.collected v) df_master) locations.

End Coordinator.

Definition initial (table : list Out.t) : state :=
  {| table := table; all_results := []; snapshot := None |}.

End MainRun.

(** ** Further functions of [match_EXCEL.py] *)

Module MatchExcelMore.

(** [re.sub(cls+, " ", s)] for a character class [cls]: every maximal run
    of characters of the class becomes one space.  [in_run] tells that the
    previous character was of the class. *)
Fixpoint sub_runs (cls : ascii -> bool) (in_run : bool) (s : string) : string :=
  match s with
  | EmptyString => EmptyString
  | String c s' =>
      if cls c
      then if in_run then sub_runs cls true s'
           else String " " (sub_runs cls true s')
      else String c (sub_runs cls false s')
  end.

(** The class [[a-z0-9 ]] of line 93. *)
Definition name_char (c : ascii) : bool :=
  is_lower c || is_digit c || Ascii.eqb c " ".

(** [normalize_name], lines 89-95. *)
Definition normalize_name (name : pyval) : string :=
  if negb (truthy name) then ""
  else
    let name := lower (str name) in
    let name := sub_runs (fun c => negb (name_char c)) false name in
    let name := sub_runs is_space false name in
    strip name.

End MatchExcelMore.

(** The characters that [normalize_text] keeps: the class [[a-z0-9\s]]. *)
Definition key_char (c : ascii) : bool :=
  is_lower c || is_digit c || is_space c.

(** No two white-space characters in a row. *)
Fixpoint single_spaced (s : string) : bool :=
  match s with
  | EmptyString => true
  | String c s' =>
      match s' with
      | EmptyString => true
      | String d _ => negb (is_space c && is_space d) && single_spaced s'
      end
  end.

(** The string does not start with white space. *)
Definition head_not_space (s : string) : Prop :=
  match s with
  | EmptyString => True
  | String d _ => is_space d = false
  end.

(** Any character but the comma. *)
Definition not_comma (c : ascii) : bool := negb (Ascii.eqb c ",").

(** ** What an outcome keeps of its record

    The fields that [match_hotels] copies from the discovered record into
    the outcome, matched or not: url, name, address, city, state, country. *)

Definition excel_item_fields (item : MatchExcelEngine.Item.t)
  : string * string * string * string * string * string :=
  (MatchExcelEngine.Item.url item, MatchExcelEngine.Item.scraped_name item,
   MatchExcelEngine.Item.address item, MatchExcelEngine.Item.city item,
   MatchExcelEngine.Item.state item, MatchExcelEngine.Item.country item).

Definition excel_outcome_fields (o : MatchExcelEngine.Out.t)
  : string * string * string * string * string * string :=
  (MatchExcelEngine.Out.url o, MatchExcelEngine.Out.scraped_hotel_name o,
   MatchExcelEngine.Out.address o, MatchExcelEngine.Out.city o,
   MatchExcelEngine.Out.state o, MatchExcelEngine.Out.country o).

Definition main_item_fields (item : MainEngine.Item.t)
  : string * string * string * string * string * string :=
  (MainEngine.Item.url item, MainEngine.Item.scraped_name item,
   MainEngine.Item.address item, MainEngine.Item.city item,
   MainEngine.Item.state item, MainEngine.Item.country item).

Definition main_outcome_fields (o : MainEngine.Out.t)
  : string * string * string * string * string * string :=
  (MainEngine.Out.url o, MainEngine.Out.scraped_hotel_name o,
   MainEngine.Out.address o, MainEngine.Out.city o,
   MainEngine.Out.state o, MainEngine.Out.country o).

(** The records of a list that pass the guard of [match_hotels]. *)
Definition excel_resolvable (items : list (option MatchExcelEngine.Item.t))
  : list MatchExcelEngine.Item.t :=
  flat_map (fun it => match it with
                      | Some item => if MatchExcelEngine.unresolvable item then [] else [item]
                      | None => []
                      end) items.

Definition main_resolvable (items : list MainEngine.Item.t) : list MainEngine.Item.t :=
  List.filter
    (fun item =>
       negb (String.eqb (Main.normalize_text (PyStr (MainEngine.Item.city item))) "")
       && MatchExcelEngine.some_text
            (Main.country_to_code (PyStr (MainEngine.Item.country item))))
    items.

(** ** The crawler's own code: retries and page scraping

    The calls to Selenium are outside the repository: each is a function on
    a browser session of some type [B], which may raise.  An exception is
    named by its class; [except TimeoutException] catches that name only.
    The progress lines ("Scraping location", "Found n hotel links") are left
    out of the console. *)

Module Scraper.

Inductive line : Type :=
  | RetryFailed (attempt retries : nat) (e : string)
  | MaxRetriesReached
  | FailedHotel (href e : string)
  | FailedLocation (url e : string).

(** The browser session, the console, the seconds spent in [time.sleep],
    and the local list [results] of [scrape_hotels_from_location]. *)
Record world (B I : Type) : Type := mk {
  browser : B;
  console : list line;
  slept : nat;
  results : list I
}.
Arguments mk {B I}.
Arguments browser {B I}.
Arguments console {B I}.
Arguments slept {B I}.
Arguments results {B I}.

Definition RETRY_LIMIT : nat := 3.

(** [try: m except cls: h] *)
Definition try_except_only {S A} (cls : string) (m : M S A) (h : M S A) : M S A :=
  fun s => match m s with
           | (Ok a, s') => (Ok a, s')
           | (Raise e, s') => if String.eqb e cls then h s' else (Raise e, s')
           end.

Section WithBrowser.

Variables B I : Type.

Definition print (l : line) : M (world B I) unit :=
  fun w => (Ok tt, {| browser := browser w; console := console w ++ [l];
                      slept := slept w; results := results w |}).

Definition sleep (seconds : nat) : M (world B I) unit :=
  fun w => (Ok tt, {| browser := browser w; console := console w;
                      slept := slept w + seconds; results := results w |}).

(** A call to the driver: it acts on the browser only. *)
Definition driver {A} (call : B -> result A * B) : M (world B I) A :=
  fun w => match call (browser w) with
           | (r, b) => (r, {| browser := b; console := console w;
                              slept := slept w; results := results w |})
           end.

Definition results_append (data : I) : M (world B I) unit :=
  fun w => (Ok tt, {| browser := browser w; console := console w;
                      slept := slept w; results := results w ++ [data] |}).

Definition results_clear : M (world B I) unit :=
  fun w => (Ok tt, {| browser := browser w; console := console w;
                      slept := slept w; results := [] |}).

Definition results_get : M (world B I) (list I) :=
  fun w => (Ok (results w), w).

(** [retry_action], [main.py] lines 99-106 and [match_EXCEL.py] lines 79-87:
    [remaining] attempts are left, [i] have been made.  [announce] is the
    print of line 86, which only [match_EXCEL.py] has.  [Some a] is the
    value that [action()] returned, [None] the [None] of the last line. *)
Fixpoint retry_attempts {A} (announce : bool) (action : M (world B I) A)
    (retries delay i remaining : nat) : M (world B I) (option A) :=
  match remaining with
  | O => if announce then (_ <- print MaxRetriesReached ;; ret None) else ret None
  | S k =>
      try_except
        (a <- action ;; ret (Some a))
        (fun e =>
           _ <- print (RetryFailed (S i) retries e) ;;
           _ <- sleep delay ;;
           retry_attempts announce action retries delay (S i) k)
  end.

Definition retry_action {A} (announce : bool) (action : M (world B I) A)
    (retries delay : nat) : M (world B I) (option A) :=
  retry_attempts announce action retries delay 0 retries.

(** The driver calls that the scraper makes. *)
Variable get : string -> B -> result unit * B.
Variable wait_ready : B -> result unit * B.
Variable h1_text : B -> result string * B.
Variable address_text : B -> result string * B.
Variable hotel_links : B -> result (list string) * B.

(** [fetch_property_details], [main.py] lines 151-160 and [match_EXCEL.py]
    lines 218-228. *)
Definition fetch_property_details : M (world B I) string :=
  try_except_only "TimeoutException"
    (t <- driver address_text ;; ret (strip t))
    (ret "").

(** The body of [scrape_single_hotel] inside [try], up to the record, which
    [build] makes from the name, the address and the link. *)
Definition scrape_page (build : string -> string -> string -> I) (href : string)
  : M (world B I) (option I) :=
  _ <- driver (get href) ;;
  _ <- driver wait_ready ;;
  _ <- sleep 1 ;;
  name <- try_except_only "TimeoutException"
            (t <- driver h1_text ;; ret (strip t))
            (ret "") ;;
  address <- fetch_property_details ;;
  ret (Some (build name address href)).

(** [scrape_single_hotel], [match_EXCEL.py] lines 261-293 ([announce], with
    the print of line 292) and [main.py] lines 162-185 (without). *)
Definition scrape_single_hotel (announce : bool)
    (build : string -> string -> string -> I) (href : string)
  : M (world B I) (option I) :=
  try_except (scrape_page build href)
    (fun e => if announce then (_ <- print (FailedHotel href e) ;; ret None)
              else ret None).

(** The loop [for href in hotel_links] of [scrape_hotels_from_location]:
    [if hotel_data: results.append(hotel_data)]. *)
Fixpoint for_each_link (announce : bool) (build : string -> string -> string -> I)
    (links : list string) : M (world B I) unit :=
  match links with
  | [] => ret tt
  | href :: rest =>
      hotel_data <- retry_action announce (scrape_single_hotel announce build href)
                      RETRY_LIMIT 2 ;;
      _ <- match hotel_data with
           | Some (Some data) => results_append data
           | _ => ret tt
           end ;;
      for_each_link announce build rest
  end.

(** The visit of a location page and of its links. *)
Definition visit_location (announce : bool) (build : string -> string -> string -> I)
    (url : string) : M (world B I) unit :=
  _ <- driver (get url) ;;
  _ <- driver wait_ready ;;
  _ <- sleep 2 ;;
  links <- driver hotel_links ;;
  for_each_link announce build links.

(** [scrape_hotels_from_location] of [match_EXCEL.py], lines 230-251. *)
Definition excel_scrape_hotels_from_location
    (build : string -> string -> string -> I) (url : string) : M (world B I) (list I) :=
  _ <- results_clear ;;
  _ <- try_except (visit_location true build url)
                  (fun e => print (FailedLocation url e)) ;;
  results_get.

(** [scrape_hotels_from_location] of [main.py], lines 187-203. *)
Definition main_scrape_hotels_from_location
    (build : string -> string -> string -> I) (url : string) : M (world B I) (list I) :=
  _ <- results_clear ;;
  _ <- visit_location false build url ;;
  results_get.

End WithBrowser.

End Scraper.

(** A computation that leaves the list [results] as it found it. *)
Definition keeps_results {B I A} (m : M (Scraper.world B I) A) : Prop :=
  forall w r w', m w = (r, w') -> Scraper.results w' = Scraper.results w.

(** ** The table of [match_EXCEL.py] in the database

    [MatchExcelRun] above describes [save_to_db] on a table that takes the
    statement of lines 372-403: it has the columns that the statement
    names, wide enough, and a unique index on [(hotel_code, url)].  Nothing
    in the repository makes such a table.  Here the table's definition is
    part of the state, [create_table_if_not_exists] is the function that
    sets it, and [save_to_db] raises when the table does not take the
    statement. *)

Module Table.
Import MatchExcelEngine.

(** A column: its name and, for a [VARCHAR(n)] column, the width [n]. *)
Record column : Type := mk_column {
  column_name : string;
  varchar : option nat
}.

(** What the statements of the file depend on: the columns of the table, and
    whether a unique index or constraint covers [(hotel_code, url)], with
    its treatment of NULLs ([Some true] for PostgreSQL's default, NULLS
    DISTINCT; [Some false] for NULLS NOT DISTINCT; [None] for no such
    index).  The table is taken to have no other constraint than the
    primary key on [id], which the database fills in, as in [CREATE
    TABLE]. *)
Record schema : Type := mk_schema {
  columns : list column;
  unique_hotel_code_url : option bool
}.

Definition unlimited (name : string) : column := mk_column name None.

(** [CREATE TABLE], lines 170-184: the primary key is on [id], and no other
    index is declared. *)
Definition CREATE_TABLE : schema :=
  {| columns :=
       map unlimited
         [ "id"; "hotel_code"; "scraped_name"; "global_property_name"; "city";
           "state"; "country"; "url"; "address"; "latitude"; "longitude";
           "match_confidence"; "created_at" ];
     unique_hotel_code_url := None |}.

Definition has_column (sch : schema) (name : string) : bool :=
  existsb (fun c => String.eqb (column_name c) name) (columns sch).

(** [create_table_if_not_exists], lines 166-190, on a database where the
    table is [db] ([None]: there is no such table).  [CREATE TABLE IF NOT
    EXISTS] leaves an existing table as it is; [ADD COLUMN IF NOT EXISTS]
    adds [country_code VARCHAR(5)] when the table has no such column. *)
Definition create_table_if_not_exists (db : option schema) : schema :=
  let sch := match db with Some sch => sch | None => CREATE_TABLE end in
  if has_column sch "country_code" then sch
  else {| columns := columns sch ++ [mk_column "country_code" (Some 5)];
          unique_hotel_code_url := unique_hotel_code_url sch |}.

(** The columns that the [INSERT] names, lines 373-387. *)
Definition INSERT_COLUMNS : list string :=
  [ "hotel_code"; "scraped_hotel_name"; "global_property_name"; "city"; "state";
    "state_code"; "country"; "country_code"; "url"; "address"; "latitude";
    "longitude"; "match_confidence" ].

(** The text that a record binds to each text column of the statement;
    [None] is NULL.  A registry name that is the float [nan] reaches the
    column as the text of that float. *)
Definition text_cells (r : Out.t) : list (string * option string) :=
  [ ("hotel_code", Out.hotel_code r);
    ("scraped_hotel_name", Some (Out.scraped_hotel_name r));
    ("global_property_name",
       match Out.global_property_name r with
       | Some (PyStr s) => Some s
       | Some PyNaN => Some "NaN"
       | Some PyNone | None => None
       end);
    ("city", Some (Out.city r));
    ("state", Some (Out.state r));
    ("state_code", Out.state_code r);
    ("country", Some (Out.country r));
    ("country_code", Out.country_code r);
    ("url", Some (Out.url r));
    ("address", Some (Out.address r)) ].

Definition width_of (sch : schema) (name : string) : option nat :=
  match find (fun c => String.eqb (column_name c) name) (columns sch) with
  | Some c => varchar c
  | None => None
  end.

(** No text of the record is longer, in characters, than its column:
    PostgreSQL raises "value too long for type character varying(n)"
    otherwise. *)
Definition fits (sch : schema) (r : Out.t) : bool :=
  forallb (fun cell =>
             match snd cell, width_of sch (fst cell) with
             | Some text, Some n => (String.length text <=? n)%nat
             | _, _ => true
             end)
          (text_cells r).

(** The table takes the statement for these rows. *)
Definition accepts (sch : schema) (rows : list Out.t) : bool :=
  forallb (has_column sch) INSERT_COLUMNS
  && match unique_hotel_code_url sch with Some _ => true | None => false end
  && forallb (fits sch) rows.

(** The transaction of lines 405-406: the statement is run for every row, in
    order, and either all of them go through or the exception leaves the
    block and nothing is stored.  A column that the table lacks and a
    conflict target that no unique index matches are PostgreSQL errors that
    SQLAlchemy raises as [ProgrammingError]; a text that is too long is a
    [DataError].  Columns other than [VARCHAR(n)] ones are taken to be
    [TEXT] or [NUMERIC], as in [CREATE TABLE], and to hold any value. *)
Definition insert_batch (db : option schema) (table rows : list Out.t)
  : result (list Out.t) :=
  match db with
  | None => Raise "ProgrammingError"
  | Some sch =>
      if negb (forallb (has_column sch) INSERT_COLUMNS) then Raise "ProgrammingError"
      else
        match unique_hotel_code_url sch with
        | None => Raise "ProgrammingError"
        | Some nulls_distinct =>
            if forallb (fits sch) rows
            then Ok (fold_left (MatchExcelRun.insert_row nulls_distinct) rows table)
            else Raise "DataError"
        end
  end.

End Table.

Module MatchExcelStore.
Import MatchExcelEngine.

(** A column of the DataFrame that holds a number in some row is a float
    column. *)
Definition holds_number (column : list (option num)) : bool :=
  existsb (fun v => match v with Some _ => true | None => false end) column.

(** A cell read back from a column: in a float column a missing value is
    [nan]. *)
Definition float_cell (float_column : bool) (v : option num) : option num :=
  match v with
  | None => if float_column then Some NumNaN else None
  | Some x => Some x
  end.

(** [pd.DataFrame(records)], line 370, read back by
    [df.to_dict(orient="records")], line 406.  The [None] that a no-match
    outcome has for latitude and longitude comes back as [nan] when the
    batch also holds a match; a batch of no-match outcomes keeps its
    [None]s.  Text columns are returned as they are, [None] included: this
    is what pandas does with a column of Python objects.  (Where pandas
    infers a string column instead, a [None] beside a text is read back as
    [nan] too; [stored_as] below asks nothing of a value that the record
    lacks.) *)
Definition through_dataframe (records : list Out.t) : list Out.t :=
  let float_latitude := holds_number (map Out.latitude records) in
  let float_longitude := holds_number (map Out.longitude records) in
  map (fun r =>
         {| Out.hotel_code := Out.hotel_code r;
            Out.scraped_hotel_name := Out.scraped_hotel_name r;
            Out.global_property_name := Out.global_property_name r;
            Out.city := Out.city r;
            Out.state := Out.state r;
            Out.state_code := Out.state_code r;
            Out.country := Out.country r;
            Out.country_code := Out.country_code r;
            Out.url := Out.url r;
            Out.address := Out.address r;
            Out.latitude := float_cell float_latitude (Out.latitude r);
            Out.longitude := float_cell float_longitude (Out.longitude r);
            Out.match_confidence := Out.match_confidence r |})
      records.

(** A stored row [row] comes from the record [r]: the text and the score are
    the record's, every value that the record has is stored as it is, and a
    missing latitude or longitude is stored as NULL or as [nan]. *)
Definition present_kept {A} (given stored : option A) : Prop :=
  forall x, given = Some x -> stored = Some x.

Definition float_kept (given stored : option num) : Prop :=
  stored = given \/ (given = None /\ stored = Some NumNaN).

Definition stored_as (r row : Out.t) : Prop :=
  Out.url row = Out.url r
  /\ Out.scraped_hotel_name row = Out.scraped_hotel_name r
  /\ Out.city row = Out.city r
  /\ Out.state row = Out.state r
  /\ Out.country row = Out.country r
  /\ Out.address row = Out.address r
  /\ Out.match_confidence row = Out.match_confidence r
  /\ present_kept (Out.hotel_code r) (Out.hotel_code row)
  /\ present_kept (Out.global_property_name r) (Out.global_property_name row)
  /\ present_kept (Out.state_code r) (Out.state_code row)
  /\ present_kept (Out.country_code r) (Out.country_code row)
  /\ float_kept (Out.latitude r) (Out.latitude row)
  /\ float_kept (Out.longitude r) (Out.longitude row).

(** State of a run: that of [MatchExcelRun] (the rows of the table, the
    console, [all_results], the snapshot) and the definition of the table
    in the database, [None] when there is no table. *)
Record state : Type := mk {
  run : MatchExcelRun.state;
  schema : option Table.schema
}.

Definition lift {A} (m : M MatchExcelRun.state A) : M state A :=
  fun s => (fst (m (run s)), {| run := snd (m (run s)); schema := schema s |}).

Definition set_table (table : list Out.t) (s : state) : state :=
  {| run := {| MatchExcelRun.table := table;
               MatchExcelRun.console := MatchExcelRun.console (run s);
               MatchExcelRun.all_results := MatchExcelRun.all_results (run s);
               MatchExcelRun.snapshot := MatchExcelRun.snapshot (run s) |};
     schema := schema s |}.

(** [save_to_db], lines 365-408. *)
Definition save_to_db (records : list Out.t) : M state unit :=
  fun s =>
    match records with
    | [] => (Ok tt, s)
    | _ =>
        match Table.insert_batch (schema s) (MatchExcelRun.table (run s))
                (through_dataframe records) with
        | Ok table => (Ok tt, set_table table s)
        | Raise e => (Raise e, s)
        end
    end.

(** The rows of the table once a batch that the table takes is stored. *)
Definition store_batch (sch : Table.schema) (table records : list Out.t) : list Out.t :=
  match Table.unique_hotel_code_url sch with
  | Some nulls_distinct =>
      fold_left (MatchExcelRun.insert_row nulls_distinct) (through_dataframe records) table
  | None => table
  end.

(** [all_results = []], line 416. *)
Definition new_results : M MatchExcelRun.state unit :=
  fun s => (Ok tt, {| MatchExcelRun.table := MatchExcelRun.table s;
                      MatchExcelRun.console := MatchExcelRun.console s;
                      MatchExcelRun.all_results := [];
                      MatchExcelRun.snapshot := MatchExcelRun.snapshot s |}).

Section Run.

(** What a run meets outside the repository.  [ddl]: whether the two
    statements of [create_table_if_not_exists] go through (the database is
    reached and SQLAlchemy runs them); once they have, the database is
    taken to stay within reach.  [read_excel]: the rows of the Excel file.
    [locations_file]: the locations of [hilton_locations.json] with what
    the browser meets at each.  [dump]: whether the snapshot file can be
    written. *)
Variable ddl : result unit.
Variable read_excel : result (list Raw.row).
Variable locations_file : result (list (string * Crawl.visit Item.t)).
Variable dump : result unit.
Variable token_set_ratio : string -> string -> Q.

Definition create_table_if_not_exists : M state unit :=
  match ddl with
  | Raise e => raise e
  | Ok _ =>
      fun s => (Ok tt, {| run := run s;
                          schema := Some (Table.create_table_if_not_exists (schema s)) |})
  end.

Definition load_csl_hotels : M state (list Master.row) :=
  match read_excel with
  | Raise e => raise e
  | Ok excel => ret (MatchExcelEngine.load_csl_hotels excel)
  end.

Definition load_locations : M state (list (string * Crawl.visit Item.t)) :=
  match locations_file with
  | Raise e => raise e
  | Ok locations => ret locations
  end.

(** The loop of lines 420-424. *)
Fixpoint for_each_location (df_master : list Master.row)
    (locations : list (string * Crawl.visit Item.t)) : M state unit :=
  match locations with
  | [] => ret tt
  | (url, v) :: rest =>
      hotels <- lift (MatchExcelRun.scrape_hotels_from_location url v) ;;
      let matched := match_hotels token_set_ratio (map Some hotels) df_master in
      _ <- save_to_db matched ;;
      _ <- lift (MatchExcelRun.extend_results matched) ;;
      for_each_location df_master rest
  end.

(** Lines 429-430.  What is left in the file when the writing fails is not
    described. *)
Definition write_snapshot : M state unit :=
  match dump with
  | Raise e => raise e
  | Ok _ => lift MatchExcelRun.write_snapshot
  end.

(** [main_scrape_and_map], lines 413-432. *)
Definition main_scrape_and_map : M state (list Out.t) :=
  _ <- create_table_if_not_exists ;;
  df_master <- load_csl_hotels ;;
  _ <- lift new_results ;;
  _ <- try_except
         (locations <- load_locations ;;
          for_each_location df_master locations)
         (fun e => lift (MatchExcelRun.print (FatalError e))) ;;
  _ <- write_snapshot ;;
  fun s => (Ok (MatchExcelRun.all_results (run s)), s).

(** The locations whose outcomes a run stores and returns: the loop ends at
    the first location whose batch is not empty and is not taken by the
    table. *)
Definition batch_accepted (sch : Table.schema) (records : list Out.t) : bool :=
  match records with
  | [] => true
  | _ => Table.accepts sch (through_dataframe records)
  end.

Fixpoint stored_locations (sch : Table.schema) (df_master : list Master.row)
    (locations : list (string * Crawl.visit Item.t))
  : list (string * Crawl.visit Item.t) :=
  match locations with
  | [] => []
  | loc :: rest =>
      if batch_accepted sch (MatchExcelRun.location_outcomes token_set_ratio df_master loc)
      then loc :: stored_locations sch df_master rest
      else []
  end.

(** The rows of the table once the batches of these locations are stored. *)
Definition stored_table (sch : Table.schema) (df_master : list Master.row)
    (table : list Out.t) (locations : list (string * Crawl.visit Item.t))
  : list Out.t :=
  fold_left (fun t loc =>
               store_batch sch t
                 (MatchExcelRun.location_outcomes token_set_ratio df_master loc))
            locations table.

(** The locations that a run stores: none when the file of locations
    cannot be read. *)
Definition run_stored (sch : Table.schema) (df_master : list Master.row)
  : list (string * Crawl.visit Item.t) :=
  match locations_file with
  | Ok locations => stored_locations sch df_master locations
  | Raise _ => []
  end.

End Run.

End MatchExcelStore.

(** ** The HTTP trigger

    The handlers start once the browser is open; [driver_quit] records the
    call of [driver.quit()].  For [main.py] two things that a run reads are
    given as data: the Excel file and the database
    ([create_table_if_not_exists] then [load_csl_hotels]: [setup] is the
    rows read, or the exception of whichever failed), and the file of
    locations ([load_locations]: [locations_file]). *)

Module Server.

Record response : Type := mk_response {
  status : string;
  count : option nat;
  message : option string;
  http_status : nat
}.

Definition success_message : string := "Scraping and mapping completed successfully".

(** *** [match_EXCEL.py] *)

Record excel_server : Type := mk_excel {
  excel_store : MatchExcelStore.state;
  excel_driver_quit : bool
}.

Section Excel.

Variable ddl : result unit.
Variable read_excel : result (list Raw.row).
Variable locations_file : result (list (string * Crawl.visit MatchExcelEngine.Item.t)).
Variable dump : result unit.
Variable token_set_ratio : string -> string -> Q.

(** [run_scrape_and_map], lines 439-459. *)
Definition excel_run_scrape_and_map (s : excel_server) : response * excel_server :=
  match MatchExcelStore.main_scrape_and_map ddl read_excel locations_file dump
          token_set_ratio (excel_store s) with
  | (Ok results, st) =>
      ({| status := "success"; count := Some (length results);
          message := Some success_message; http_status := 200 |},
       {| excel_store := st; excel_driver_quit := true |})
  | (Raise e, st) =>
      ({| status := "error"; count := None; message := Some e; http_status := 500 |},
       {| excel_store := snd (MatchExcelStore.lift (MatchExcelRun.print (FatalError e)) st);
          excel_driver_quit := true |})
  end.

End Excel.

(** *** [main.py] *)

Record main_server : Type := mk_main {
  main_run : MainRun.state;
  main_driver_quit : bool
}.

(** [all_results = []], line 282. *)
Definition main_new_results : M MainRun.state unit :=
  fun s => (Ok tt, {| MainRun.table := MainRun.table s;
                      MainRun.all_results := [];
                      MainRun.snapshot := MainRun.snapshot s |}).

Section MainPy.

Variable token_set_ratio : string -> string -> Q.

(** [main_scrape_and_map], lines 279-293, from its first line. *)
Definition main_main_scrape_and_map
    (setup : result (list Raw.row))
    (locations_file : result (list (Crawl.visit MainEngine.Item.t)))
  : M MainRun.state (list MainEngine.Out.t) :=
  match setup with
  | Raise e => raise e
  | Ok excel =>
      let df_master := MainEngine.load_csl_hotels excel in
      _ <- main_new_results ;;
      match locations_file with
      | Raise e => raise e
      | Ok locations =>
          _ <- MainRun.for_each_location token_set_ratio df_master locations ;;
          _ <- MainRun.write_snapshot ;;
          fun s => (Ok (MainRun.all_results s), s)
      end
  end.

(** [run_scrape_and_map], lines 300-308: [try ... finally], no handler. *)
Definition main_run_scrape_and_map
    (setup : result (list Raw.row))
    (locations_file : result (list (Crawl.visit MainEngine.Item.t)))
    (s : main_server) : result response * main_server :=
  match main_main_scrape_and_map setup locations_file (main_run s) with
  | (Ok results, st) =>
      (Ok {| status := "success"; count := Some (length results);
             message := None; http_status := 200 |},
       {| main_run := st; main_driver_quit := true |})
  | (Raise e, st) => (Raise e, {| main_run := st; main_driver_quit := true |})
  end.

End MainPy.

End Server.

(** ** Sample data

    A small registry, a few discovered pages and a stand-in scorer, on which
    the engine is run in the examples below.  The stand-in gives 100 to equal
    keys, 90 when one key is the other followed by more words, and 0
    otherwise; it is not rapidfuzz's measure, only a function of the right
    type. *)

Module Sample.

Fixpoint is_prefix (a b : string) : bool :=
  match a, b with
  | EmptyString, _ => true
  | String x a', String y b' => Ascii.eqb x y && is_prefix a' b'
  | String _ _, EmptyString => false
  end.

Definition ratio (a b : string) : Q :=
  if String.eqb a b then 100%Q
  else if String.eqb a "" || String.eqb b "" then 0%Q
  else if is_prefix (a ++ " ") b || is_prefix (b ++ " ") a then 90%Q
  else 0%Q.

Definition excel : list Raw.row :=
  [ Raw.mk "SEADT" (PyStr "Hilton Seattle Downtown") (PyStr "Seattle") (PyStr "WA")
           (PyStr "US") (Num (476 # 10)) (Num (-1223 # 10));
    Raw.mk "SEAAP" (PyStr "Hilton Seattle Airport") (PyStr "Seattle") (PyStr "WA")
           (PyStr "US") (Num (474 # 10)) (Num (-1223 # 10));
    Raw.mk "SEADT2" (PyStr "Hilton Seattle Downtown") (PyStr "Seattle") (PyStr "WA")
           (PyStr "US") (Num (476 # 10)) (Num (-1223 # 10));
    Raw.mk "PAROP" (PyStr "Hilton Paris Opera") (PyStr "Paris") PyNaN
           (PyStr "France") (Num (489 # 10)) (Num (23 # 10)) ].

Definition seattle_page : MatchExcelEngine.Item.t :=
  MatchExcelEngine.scrape_single_hotel
    "Hilton Seattle Downtown" "Seattle, WA 98101, United States"
    "https://www.hilton.com/en/hotels/seadt/".

Definition paris_page : MatchExcelEngine.Item.t :=
  MatchExcelEngine.scrape_single_hotel
    "Hampton Paris" "Paris, France" "https://www.hilton.com/en/hotels/parhx/".

Definition empty_address_page : MatchExcelEngine.Item.t :=
  MatchExcelEngine.scrape_single_hotel
    "Hilton Nowhere" "" "https://www.hilton.com/en/hotels/none/".

Definition nan_city_page : MatchExcelEngine.Item.t :=
  MatchExcelEngine.scrape_single_hotel
    "Hilton Nan" "NaN, Thailand" "https://www.hilton.com/en/hotels/nan/".

Definition df_master : list Master.row := MatchExcelEngine.load_csl_hotels excel.

Definition seattle_outcome : MatchExcelEngine.Out.t :=
  MatchExcelEngine.decide_match ratio seattle_page
    (MatchExcelEngine.candidates_for seattle_page df_master).

Definition paris_outcome : MatchExcelEngine.Out.t :=
  MatchExcelEngine.decide_match ratio paris_page
    (MatchExcelEngine.candidates_for paris_page df_master).

(** Pages as [main.py] records them.  Its parser takes the city from the
    fourth comma-separated part from the end and the state from the third,
    so the addresses are written with four parts. *)
Definition main_seattle_page : MainEngine.Item.t :=
  MainEngine.scrape_single_hotel
    "Hilton Seattle Downtown" "Seattle, WA, 98101, United States"
    "https://www.hilton.com/en/hotels/seadt/".

Definition main_nan_city_page : MainEngine.Item.t :=
  MainEngine.scrape_single_hotel
    "Hilton Nan" "NaN, , , Thailand" "https://www.hilton.com/en/hotels/nan/".

Definition main_df_master : list Master.row := MainEngine.load_csl_hotels excel.

(** Three locations: the first is scraped, the driver times out on the
    second after one link, the third is scraped. *)
Definition locations : list (string * Crawl.visit MatchExcelEngine.Item.t) :=
  [ ("https://www.hilton.com/en/locations/usa/washington/seattle/",
     Crawl.mk [Some seattle_page; None] None);
    ("https://www.hilton.com/en/locations/thailand/",
     Crawl.mk [Some nan_city_page] (Some "TimeoutException"));
    ("https://www.hilton.com/en/locations/france/paris/",
     Crawl.mk [Some paris_page] None) ].

(** A table prepared for the statement of [save_to_db]: its columns, none
    of them limited in width, and a unique index on [(hotel_code, url)]. *)
Definition prepared (nulls_distinct : bool) : Table.schema :=
  {| Table.columns := map Table.unlimited ("id" :: "created_at" :: Table.INSERT_COLUMNS);
     Table.unique_hotel_code_url := Some nulls_distinct |}.

(** A table with every column of the statement but [country_code], and the
    index: [create_table_if_not_exists] adds the column as [VARCHAR(5)]. *)
Definition without_country_code : Table.schema :=
  {| Table.columns :=
       map Table.unlimited
         (List.filter (fun name => negb (String.eqb name "country_code"))
            ("id" :: "created_at" :: Table.INSERT_COLUMNS));
     Table.unique_hotel_code_url := Some true |}.

Definition store (db : option Table.schema) (table : list MatchExcelEngine.Out.t)
  : MatchExcelStore.state :=
  {| MatchExcelStore.run := MatchExcelRun.initial table; MatchExcelStore.schema := db |}.

Definition main_locations : list (Crawl.visit MainEngine.Item.t) :=
  [ Crawl.mk [Some main_seattle_page] None;
    Crawl.mk [] (Some "TimeoutException");
    Crawl.mk [Some main_seattle_page] None ].

End Sample.

(** * Properties *)

(** ** Strings *)

Section StringFacts.

Lemma rstrip_cons_nonspace (c : ascii) (s : string) :
  is_space c = false -> rstrip (String c s) = String c (rstrip s).
Proof.
  intros Hc. simpl. destruct (rstrip s); [now rewrite Hc | reflexivity].
Qed.

Lemma rstrip_idem (s : string) : rstrip (rstrip s) = rstrip s.
Proof.
  induction s as [|c s IH]; [reflexivity|].
  simpl. destruct (rstrip s) as [|d r] eqn:E.
  - destruct (is_space c) eqn:Hc; [reflexivity|].
    simpl. now rewrite Hc.
  - change (rstrip (String c (String d r)))
      with (match rstrip (String d r) with
            | EmptyString => if is_space c then EmptyString else String c EmptyString
            | r' => String c r'
            end).
    now rewrite IH.
Qed.

(** What [lstrip] returns is empty or starts with a character that is not
    white space. *)
Lemma lstrip_head (s : string) :
  lstrip s = "" \/ exists c r, lstrip s = String c r /\ is_space c = false.
Proof.
  induction s as [|c s IH]; [now left|].
  simpl. destruct (is_space c) eqn:Hc; [exact IH|].
  right. now exists c, s.
Qed.

Lemma lstrip_nonspace (c : ascii) (s : string) :
  is_space c = false -> lstrip (String c s) = String c s.
Proof. intros Hc. simpl. now rewrite Hc. Qed.

(** [strip] is idempotent: stripping a stripped segment changes nothing. *)
Lemma strip_idem (s : string) : strip (strip s) = strip s.
Proof.
  unfold strip. destruct (lstrip_head s) as [E | (c & r & E & Hc)]; rewrite E.
  - reflexivity.
  - rewrite (rstrip_cons_nonspace c r Hc), (lstrip_nonspace c _ Hc).
    rewrite <- (rstrip_cons_nonspace c r Hc). apply rstrip_idem.
Qed.

Lemma alpha_not_space (c : ascii) : is_alpha c = true -> is_space c = false.
Proof.
  destruct c as [[] [] [] [] [] [] [] []]; vm_compute; congruence.
Qed.

Lemma upper_char_space (c : ascii) : is_space (upper_char c) = is_space c.
Proof.
  destruct c as [[] [] [] [] [] [] [] []]; vm_compute; congruence.
Qed.

Lemma lstrip_upper (s : string) : lstrip (upper s) = upper (lstrip s).
Proof.
  induction s as [|c s IH]; [reflexivity|].
  unfold upper in *. simpl. rewrite upper_char_space.
  destruct (is_space c); [exact IH | reflexivity].
Qed.

Lemma rstrip_upper (s : string) : rstrip (upper s) = upper (rstrip s).
Proof.
  induction s as [|c s IH]; [reflexivity|].
  unfold upper in *. simpl. rewrite IH, upper_char_space.
  destruct (rstrip s); simpl; [destruct (is_space c)|]; reflexivity.
Qed.

(** Upper-casing and trimming commute: [s.upper().strip()] of [main.py] and
    [s.strip().upper()] of [match_EXCEL.py] are the same string. *)
Lemma strip_upper (s : string) : strip (upper s) = upper (strip s).
Proof. unfold strip. now rewrite lstrip_upper, rstrip_upper. Qed.

Lemma from_end_rev {A} (r : list A) (k : nat) :
  from_end (rev r) (S k) = nth_error r k.
Proof.
  unfold from_end. rewrite length_rev.
  destruct (Nat.leb_spec (S k) (length r)) as [Hle | Hgt].
  - rewrite nth_error_rev.
    destruct (Nat.ltb_spec (length r - S k) (length r)) as [_ | Habs]; [|lia].
    f_equal. lia.
  - symmetry. apply nth_error_None. lia.
Qed.

End StringFacts.

(** ** Address parsing *)

Section AddressParsing.
Import MatchExcel.

(** Every segment kept by line 136 is trimmed and non-empty. *)
Lemma address_parts_trimmed (address p : string) :
  In p (address_parts address) -> strip p = p /\ p <> "".
Proof.
  unfold address_parts. rewrite filter_In, in_map_iff.
  intros [(q & <- & _) Hne]. split; [apply strip_idem|].
  intros E. rewrite E in Hne. discriminate.
Qed.

(** The pattern of line 150 accepts exactly two letters followed by the end
    of the segment or by a character that is not a letter, a digit or an
    underscore; the state is these two letters. *)
Lemma state_match_spec (s st : string) :
  state_match s = Some st <->
  exists a b rest,
    s = String a (String b rest) /\ st = String a (String b "")
    /\ is_alpha a = true /\ is_alpha b = true
    /\ (rest = "" \/ exists c r, rest = String c r /\ is_word c = false).
Proof.
  split.
  - destruct s as [|a [|b rest]]; simpl; try discriminate.
    destruct (is_alpha a) eqn:Ha; simpl; [|discriminate].
    destruct (is_alpha b) eqn:Hb; simpl; [|discriminate].
    destruct rest as [|c r].
    + intros [= <-]. exists a, b, "". repeat split; auto.
    + destruct (is_word c) eqn:Hc; simpl; [discriminate|].
      intros [= <-]. exists a, b, (String c r). repeat split; auto.
      right. now exists c, r.
  - intros (a & b & rest & -> & -> & Ha & Hb & Hrest). simpl.
    rewrite Ha, Hb. simpl.
    destruct Hrest as [-> | (c & r & -> & Hc)]; [reflexivity|].
    now rewrite Hc.
Qed.

Lemma state_match_trimmed (s st : string) :
  state_match s = Some st -> strip st = st.
Proof.
  intros H. apply state_match_spec in H.
  destruct H as (a & b & rest & _ & -> & Ha & Hb & _).
  apply alpha_not_space in Ha, Hb.
  unfold strip. rewrite (lstrip_nonspace a _ Ha).
  rewrite (rstrip_cons_nonspace a _ Ha), (rstrip_cons_nonspace b _ Hb).
  reflexivity.
Qed.

End AddressParsing.

(** C2, as the code has it, for an address of ASCII characters.
    [parse_address_components] of [match_EXCEL.py] splits the address on
    commas, trims the segments and drops the empty ones.  Reading the
    remaining segments from the last one: with no segment the three outputs
    are empty; with one segment it is the country, city and state being
    empty; with two the last is the country and the other the city, with no
    state; with three or more the last is the country, and if the
    second-to-last starts with a two-letter code that code is the state and
    the third-to-last the city, otherwise the second-to-last is the city and
    there is no state.  The hypothesis keeps the statement to the inputs on
    which [strip] and the word boundary of line 150 are those of the model:
    Python trims Unicode white space too and takes an accented letter for a
    word character. *)
Theorem parse_address_components_by_segments (address : string) :
  isascii address = true ->
  MatchExcel.parse_address_components address =
  match rev (MatchExcel.address_parts address) with
  | [] => ("", "", "")
  | [country] => ("", "", country)
  | [country; city] => (city, "", country)
  | country :: possible_state :: possible_city :: _ =>
      match MatchExcel.state_match possible_state with
      | Some st => (possible_city, st, country)
      | None => (possible_state, "", country)
      end
  end.
Proof.
  intros _.
  unfold MatchExcel.parse_address_components.
  destruct (String.eqb address "") eqn:Ea.
  - apply String.eqb_eq in Ea. subst address. reflexivity.
  - pose proof (address_parts_trimmed address) as Htrim.
    remember (rev (MatchExcel.address_parts address)) as r eqn:Er.
    assert (Hparts : MatchExcel.address_parts address = rev r)
      by (subst r; now rewrite rev_involutive).
    rewrite Hparts in *. clear Er Hparts.
    assert (Hin : forall p, In p r -> strip p = p /\ p <> "").
    { intros p Hp. apply Htrim. now apply in_rev in Hp. }
    clear Htrim. rewrite !from_end_rev, length_rev.
    destruct r as [|country [|p2 [|p3 rest]]].
    + reflexivity.
    + destruct (Hin country) as [Hc _]; [now left|].
      simpl. now rewrite Hc.
    + destruct (Hin country) as [Hc _]; [now left|].
      destruct (Hin p2) as [H2 _]; [right; now left|].
      simpl. now rewrite Hc, H2.
    + destruct (Hin country) as [Hc _]; [now left|].
      destruct (Hin p2) as [H2 N2]; [right; now left|].
      destruct (Hin p3) as [H3 N3]; [right; right; now left|].
      cbn [length Nat.leb nth_error MatchExcel.get_or_empty].
      destruct (MatchExcel.state_match p2) as [st|] eqn:Em.
      * assert (E3 : String.eqb p3 "" = false).
        { apply not_true_is_false. rewrite String.eqb_eq. exact N3. }
        rewrite E3. cbn [andb].
        now rewrite Hc, H3, (state_match_trimmed _ _ Em).
      * assert (E2 : String.eqb p2 "" = false).
        { apply not_true_is_false. rewrite String.eqb_eq. exact N2. }
        rewrite E2. cbn [andb].
        now rewrite Hc, H2.
Qed.

Lemma parse_address_components_by_segments_witness :
  isascii "1301 6th Ave, Seattle, WA 98101, USA" = true
  /\ MatchExcel.parse_address_components "1301 6th Ave, Seattle, WA 98101, USA"
     = ("Seattle", "WA", "USA").
Proof.
  split; [reflexivity|].
  rewrite (parse_address_components_by_segments
             "1301 6th Ave, Seattle, WA 98101, USA"); reflexivity.
Defined.

(** C2 as the specification words it fails on an address of one segment:
    the segment is returned as the country (lines 141-142). *)
Lemma parse_one_segment_is_country :
  ~ (forall address : string,
        length (MatchExcel.address_parts address) < 2 ->
        MatchExcel.parse_address_components address = ("", "", "")).
Proof.
  intros H. specialize (H "France").
  assert (L : length (MatchExcel.address_parts "France") < 2)
    by (vm_compute; lia).
  specialize (H L). vm_compute in H. discriminate.
Qed.

Example parse_seattle :
  MatchExcel.parse_address_components "Seattle, WA 98101, United States"
  = ("Seattle", "WA", "United States").
Proof. vm_compute. reflexivity. Qed.

Example parse_paris :
  MatchExcel.parse_address_components "Paris, France" = ("Paris", "", "France").
Proof. vm_compute. reflexivity. Qed.

Example parse_street_prefix :
  MatchExcel.parse_address_components "1301 6th Ave, Seattle, WA 98101, USA"
  = ("Seattle", "WA", "USA").
Proof. vm_compute. reflexivity. Qed.

Example parse_full_state_name :
  MatchExcel.parse_address_components "Austin, Texas, USA" = ("Texas", "", "USA").
Proof. vm_compute. reflexivity. Qed.

(** The parser of [main.py] takes the fourth and third segments from the
    end, empty ones included: it reads the same addresses differently. *)
Example main_parse_seattle :
  Main.parse_address_components "Seattle, WA 98101, United States"
  = ("", "Seattle", "United States").
Proof. vm_compute. reflexivity. Qed.

Example main_parse_paris :
  Main.parse_address_components "Paris, France" = ("", "", "France").
Proof. vm_compute. reflexivity. Qed.

(** ** Country codes *)

Section CountryCodes.
Import MatchExcel.

Lemma mem_In (s : string) (l : list string) : mem s l = true <-> In s l.
Proof.
  unfold mem. rewrite existsb_exists. split.
  - intros (x & Hx & E). apply String.eqb_eq in E. now subst.
  - intros H. exists s. split; [exact H | apply String.eqb_refl].
Qed.

Lemma truthy_str (s : string) : truthy (PyStr s) = false <-> s = "".
Proof.
  simpl. rewrite negb_false_iff. apply String.eqb_eq.
Qed.

Lemma strip_nonempty_truthy (s : string) : strip s <> "" -> truthy (PyStr s) = true.
Proof.
  intros H. destruct (truthy (PyStr s)) eqn:E; [reflexivity|].
  apply truthy_str in E. subst s. now elim H.
Qed.

End CountryCodes.

(** [country_to_code] of [match_EXCEL.py] does what C3 says.  It trims its
    input and upper-cases it.  If the result is one of USA, UNITED STATES,
    US, U.S., U.S.A. the code is "US"; any other input that is not empty
    once trimmed is returned trimmed and upper-cased, so an input that
    carries no white space around it, as the country of a parsed address
    does, is returned upper-cased and otherwise unchanged; an input that is
    empty, made of white space only, or [None] gives [None].  Where the
    result is the upper-cased input the statement is for ASCII input:
    Python's [upper] also maps letters outside ASCII. *)
Lemma country_to_code_match_excel :
  (forall s, In (upper (strip s)) MatchExcel.US_VARIANTS ->
             MatchExcel.country_to_code (PyStr s) = Some "US")
  /\ (forall s, isascii s = true ->
                strip s <> "" -> ~ In (upper (strip s)) MatchExcel.US_VARIANTS ->
                MatchExcel.country_to_code (PyStr s) = Some (upper (strip s)))
  /\ (forall s, isascii s = true ->
                strip s = s -> s <> "" -> ~ In (upper s) MatchExcel.US_VARIANTS ->
                MatchExcel.country_to_code (PyStr s) = Some (upper s))
  /\ (forall s, strip s = "" -> MatchExcel.country_to_code (PyStr s) = None)
  /\ MatchExcel.country_to_code PyNone = None.
Proof.
  assert (Hne : forall s, strip s <> "" -> String.eqb (strip s) "" = false).
  { intros s H. apply not_true_is_false. now rewrite String.eqb_eq. }
  assert (Hother : forall s,
             strip s <> "" -> ~ In (upper (strip s)) MatchExcel.US_VARIANTS ->
             MatchExcel.country_to_code (PyStr s) = Some (upper (strip s))).
  { intros s Hs Hout.
    unfold MatchExcel.country_to_code.
    rewrite (strip_nonempty_truthy s Hs). cbn [negb str].
    rewrite (Hne s Hs).
    destruct (MatchExcel.mem (upper (strip s)) MatchExcel.US_VARIANTS) eqn:E;
      [|reflexivity].
    apply mem_In in E. contradiction. }
  split; [|split; [|split; [|split]]].
  - intros s Hin.
    assert (Hs : strip s <> "").
    { intros E. rewrite E in Hin. vm_compute in Hin. intuition discriminate. }
    unfold MatchExcel.country_to_code.
    rewrite (strip_nonempty_truthy s Hs). cbn [negb str].
    rewrite (Hne s Hs).
    apply mem_In in Hin. now rewrite Hin.
  - intros s _. apply Hother.
  - intros s _ Hs Hn Hout. rewrite <- Hs at 2. apply Hother; now rewrite Hs.
  - intros s Hs. unfold MatchExcel.country_to_code.
    destruct (truthy (PyStr s)); [|reflexivity].
    cbn [negb str]. now rewrite Hs.
  - reflexivity.
Qed.

Example country_codes_match_excel :
  map (fun s => MatchExcel.country_to_code (PyStr s))
      [" u.s.a. "; "France"; " France "; "   "; ""]
  = [Some "US"; Some "FRANCE"; Some "FRANCE"; None; None].
Proof. vm_compute. reflexivity. Qed.

Example country_blank_is_none : MatchExcel.country_to_code (PyStr "   ") = None.
Proof. reflexivity. Qed.

Example country_variants_any_case :
  map (fun s => MatchExcel.country_to_code (PyStr s))
      ["usa"; "United States"; "us"; "u.s."; "U.s.A."; " USA "]
  = [Some "US"; Some "US"; Some "US"; Some "US"; Some "US"; Some "US"].
Proof. vm_compute. reflexivity. Qed.

(** C3 at the dotted spellings, in [main.py]: line 75 lists USA and UNITED
    STATES only, so "U.S." and "U.S.A." come back as they are where
    [match_EXCEL.py], line 123, maps them to "US". *)
Theorem main_country_to_code_dotted_spellings :
  Main.country_to_code (PyStr "U.S.") = Some "U.S."
  /\ Main.country_to_code (PyStr "U.S.A.") = Some "U.S.A."
  /\ MatchExcel.country_to_code (PyStr "U.S.") = Some "US"
  /\ MatchExcel.country_to_code (PyStr "U.S.A.") = Some "US".
Proof. vm_compute. auto. Qed.

(** [main.py] also returns the empty string, not [None], for white space. *)
Example main_country_blank : Main.country_to_code (PyStr "   ") = Some "".
Proof. vm_compute. reflexivity. Qed.

(** Where the two files agree on countries: everywhere but on the dotted
    spellings and on white space. *)
Lemma country_to_code_files_agree (s : string) :
  strip s <> "" -> ~ In (upper (strip s)) ["U.S."; "U.S.A."] ->
  Main.country_to_code (PyStr s) = MatchExcel.country_to_code (PyStr s).
Proof.
  intros Hs Hdot.
  unfold Main.country_to_code, MatchExcel.country_to_code.
  rewrite (strip_nonempty_truthy s Hs). cbn [negb str].
  rewrite strip_upper.
  assert (E : String.eqb (strip s) "" = false).
  { apply not_true_is_false. now rewrite String.eqb_eq. }
  rewrite E. clear E Hs. remember (upper (strip s)) as u eqn:Eu. clear Eu.
  destruct (MatchExcel.mem u ["USA"; "UNITED STATES"]) eqn:E1;
    destruct (MatchExcel.mem u MatchExcel.US_VARIANTS) eqn:E2; try reflexivity.
  - apply mem_In in E1. apply not_true_iff_false in E2. elim E2.
    apply mem_In. cbn in E1 |- *. tauto.
  - apply mem_In in E2. apply not_true_iff_false in E1.
    rewrite mem_In in E1.
    assert (Hu : u = "US") by (cbn in E1, E2, Hdot; intuition congruence).
    now rewrite Hu.
Qed.

(** ** State codes *)

Section StateCodes.

Lemma length_map_str (f : ascii -> ascii) (s : string) :
  String.length (map_str f s) = String.length s.
Proof. induction s; simpl; congruence. Qed.

Lemma state_items_nodup : NoDup (STATE_CODE_ITEMS.*1).
Proof.
  apply (bool_decide_unpack (NoDup (STATE_CODE_ITEMS.*1))). vm_compute. exact I.
Qed.

Lemma state_map_lookup (name code : string) :
  STATE_CODE_MAP !! name = Some code <-> In (name, code) STATE_CODE_ITEMS.
Proof.
  unfold STATE_CODE_MAP. rewrite <- list_elem_of_In.
  symmetry. apply elem_of_list_to_map. exact state_items_nodup.
Qed.

Lemma state_items_shape (name code : string) :
  In (name, code) STATE_CODE_ITEMS ->
  4 <= String.length name /\ is_state_code code = true /\ lower name = name.
Proof.
  assert (H : forallb (fun kv => (4 <=? String.length (fst kv))%nat
                                 && is_state_code (snd kv)
                                 && String.eqb (lower (fst kv)) (fst kv))
                STATE_CODE_ITEMS = true) by (vm_compute; reflexivity).
  rewrite forallb_forall in H. intros Hin. specialize (H _ Hin).
  cbn [fst snd] in H. apply andb_prop in H as [H H3]. apply andb_prop in H as [H1 H2].
  apply Nat.leb_le in H1. apply String.eqb_eq in H3. auto.
Qed.

Lemma state_map_miss_short (k : string) :
  String.length k < 4 -> STATE_CODE_MAP !! k = None.
Proof.
  intros Hk. destruct (STATE_CODE_MAP !! k) as [v|] eqn:E; [|reflexivity].
  apply state_map_lookup, state_items_shape in E. lia.
Qed.

End StateCodes.

(** [state_to_code] of [match_EXCEL.py] does what C4 says.  It trims its
    input; a token of two letters is returned upper-cased; any other input
    is looked up, lower-cased, in the table, which has 50 entries, all
    mapped to two capital letters, and every one of the 50 names is found
    in any letter case; what is not in the table, a two-character token
    that is not alphabetic included, gives [None]. *)
Lemma state_to_code_match_excel :
  (forall s, String.length (strip s) = 2 -> isalpha (strip s) = true ->
             MatchExcel.state_to_code (PyStr s) = Some (upper (strip s)))
  /\ (forall s, String.length (strip s) = 2 -> isalpha (strip s) = false ->
                MatchExcel.state_to_code (PyStr s) = None)
  /\ (forall s, String.length (strip s) <> 2 ->
                MatchExcel.state_to_code (PyStr s) = STATE_CODE_MAP !! lower (strip s))
  /\ (forall s name code, In (name, code) STATE_CODE_ITEMS -> lower (strip s) = name ->
                MatchExcel.state_to_code (PyStr s) = Some code)
  /\ (forall name code, STATE_CODE_MAP !! name = Some code -> is_state_code code = true)
  /\ size STATE_CODE_MAP = 50
  /\ MatchExcel.state_to_code PyNone = None.
Proof.
  assert (Hgen : forall s, String.length (strip s) <> 2 ->
                MatchExcel.state_to_code (PyStr s) = STATE_CODE_MAP !! lower (strip s)).
  { intros s Hlen. unfold MatchExcel.state_to_code.
    destruct (truthy (PyStr s)) eqn:Et; cbn [negb str].
    - unfold len. apply Nat.eqb_neq in Hlen. now rewrite Hlen.
    - apply truthy_str in Et. subst s. reflexivity. }
  repeat split.
  - intros s Hlen Halpha. unfold MatchExcel.state_to_code.
    rewrite strip_nonempty_truthy by (intros E; rewrite E in Hlen; discriminate).
    cbn [negb str]. unfold len. now rewrite Hlen, Halpha.
  - intros s Hlen Halpha. unfold MatchExcel.state_to_code.
    rewrite strip_nonempty_truthy by (intros E; rewrite E in Hlen; discriminate).
    cbn [negb str]. unfold len. rewrite Hlen, Halpha. cbn [Nat.eqb andb].
    apply state_map_miss_short. unfold lower. rewrite length_map_str. lia.
  - exact Hgen.
  - intros s name code Hin Hs.
    pose proof (state_items_shape _ _ Hin) as (Hlen & _ & _).
    rewrite Hgen.
    + rewrite Hs. now apply state_map_lookup.
    + rewrite <- Hs in Hlen. unfold lower in Hlen. rewrite length_map_str in Hlen. lia.
  - intros name code H. apply state_map_lookup in H.
    now apply state_items_shape in H.
Qed.

(** Where the two files agree on states: everywhere but on two-character
    tokens that are not alphabetic. *)
Lemma state_to_code_files_agree (s : string) :
  (String.length (strip s) = 2 -> isalpha (strip s) = true) ->
  Main.state_to_code (PyStr s) = MatchExcel.state_to_code (PyStr s).
Proof.
  intros H. unfold Main.state_to_code, MatchExcel.state_to_code.
  destruct (truthy (PyStr s)); [|reflexivity].
  cbn [negb str]. unfold len.
  destruct (Nat.eqb_spec (String.length (strip s)) 2) as [E | E]; [|reflexivity].
  now rewrite (H E).
Qed.

Example state_codes_match_excel :
  map (fun s => MatchExcel.state_to_code (PyStr s))
      ["wa"; " CA "; "New York"; "TEXAS"; "12"; "C1"; "Ontario"; ""]
  = [Some "WA"; Some "CA"; Some "NY"; Some "TX"; None; None; None; None].
Proof. vm_compute. reflexivity. Qed.

(** C4 at a two-character token that is not alphabetic, in [main.py]:
    line 67 tests the length only, and the token comes back upper-cased
    where [match_EXCEL.py], line 111, gives [None]. *)
Theorem main_state_to_code_two_digits :
  Main.state_to_code (PyStr "12") = Some "12"
  /\ Main.state_to_code (PyStr "c1") = Some "C1"
  /\ MatchExcel.state_to_code (PyStr "12") = None
  /\ MatchExcel.state_to_code (PyStr "c1") = None.
Proof. vm_compute. auto. Qed.

(** ** The scoring loop *)

Section ScanFacts.

Variable token_set_ratio : string -> string -> Q.
Variable item_hotel : string.

Local Abbreviation step := (scan_step token_set_ratio item_hotel).
Local Abbreviation sc := (score_of token_set_ratio item_hotel).

(** The loop started from [(b, o)] either keeps its start, no score being
    above [b], or ends on the first candidate whose score is above [b] and
    above all earlier scores, and at least all later ones. *)
Lemma fold_scan_step (candidates : list Master.row) :
  forall (b : Q) (o : option Master.row),
    (fold_left step candidates (b, o) = (b, o)
     /\ Forall (fun r => (sc r <= b)%Q) candidates)
    \/ (exists pre w post,
          candidates = pre ++ w :: post
          /\ fold_left step candidates (b, o) = (sc w, Some w)
          /\ (b < sc w)%Q
          /\ Forall (fun r => (sc r < sc w)%Q) pre
          /\ Forall (fun r => (sc r <= sc w)%Q) post).
Proof.
  induction candidates as [|r rest IH]; intros b o.
  - left. split; [reflexivity | constructor].
  - cbn [fold_left].
    assert (Hstep : step (b, o) r
                    = if Qlt_le_dec b (sc r) then (sc r, Some r) else (b, o))
      by reflexivity.
    rewrite Hstep. clear Hstep.
    destruct (Qlt_le_dec b (sc r)) as [Hlt | Hle].
    + right.
      destruct (IH (sc r) (Some r))
        as [[E Hall] | (pre & w & post & -> & E & Hw & Hpre & Hpost)].
      * exists [], r, rest.
        split; [reflexivity|]. split; [exact E|]. split; [exact Hlt|].
        split; [constructor | exact Hall].
      * exists (r :: pre), w, post.
        split; [reflexivity|]. split; [exact E|].
        split; [eapply Qlt_trans; eassumption|].
        split; [constructor; assumption | exact Hpost].
    + destruct (IH b o)
        as [[E Hall] | (pre & w & post & -> & E & Hw & Hpre & Hpost)].
      * left. split; [exact E | constructor; assumption].
      * right. exists (r :: pre), w, post.
        split; [reflexivity|]. split; [exact E|]. split; [exact Hw|].
        split; [|exact Hpost].
        constructor; [eapply Qle_lt_trans; eassumption | exact Hpre].
Qed.

(** A non-empty list has a first candidate of highest score. *)
Lemma first_highest_exists (candidates : list Master.row) :
  candidates <> [] ->
  exists pre w post,
    candidates = pre ++ w :: post
    /\ Forall (fun r => (sc r < sc w)%Q) pre
    /\ Forall (fun r => (sc r <= sc w)%Q) post.
Proof.
  induction candidates as [|r rest IH]; [congruence | intros _].
  destruct rest as [|r' rest'].
  - exists [], r, []. repeat split; constructor.
  - destruct IH as (pre & w & post & E & Hpre & Hpost); [discriminate|].
    rewrite E.
    destruct (Qlt_le_dec (sc r) (sc w)) as [Hlt | Hle].
    + exists (r :: pre), w, post. repeat split; auto.
    + exists [], r, (pre ++ w :: post). repeat split; [constructor|].
      apply Forall_app. split.
      * eapply List.Forall_impl; [|exact Hpre]. cbv beta. intros a Ha.
        apply Qlt_le_weak. now apply Qlt_le_trans with (sc w).
      * constructor; [exact Hle|].
        eapply List.Forall_impl; [|exact Hpost]. cbv beta. intros a Ha.
        now apply Qle_trans with (sc w).
Qed.

(** The loop on a non-empty list: [best_row] is the first candidate of
    highest score when that score is above 0, the start value of
    [best_score]; when no score is above 0 the loop leaves [(0, None)]. *)
Lemma scan_first_highest (candidates : list Master.row) :
  candidates <> [] ->
  exists pre w post,
    candidates = pre ++ w :: post
    /\ Forall (fun r => (sc r < sc w)%Q) pre
    /\ Forall (fun r => (sc r <= sc w)%Q) post
    /\ ((0 < sc w)%Q
        /\ scan token_set_ratio item_hotel candidates = (sc w, Some w)
        \/ (sc w <= 0)%Q
           /\ scan token_set_ratio item_hotel candidates = (0%Q, None)).
Proof.
  intros Hne. unfold scan.
  destruct (fold_scan_step candidates 0%Q None)
    as [[E Hall] | (pre & w & post & Ec & E & Hw & Hpre & Hpost)].
  - destruct (first_highest_exists candidates Hne) as (pre & w & post & Ec & Hpre & Hpost).
    exists pre, w, post. repeat split; auto.
    right. split; [|exact E].
    rewrite Ec in Hall. apply Forall_app in Hall as [_ Hall].
    now inversion Hall.
  - exists pre, w, post. repeat split; auto.
Qed.

(** What the loop returns, whatever the list. *)
Lemma scan_cases (candidates : list Master.row) :
  (scan token_set_ratio item_hotel candidates = (0%Q, None)
   /\ Forall (fun r => (sc r <= 0)%Q) candidates)
  \/ (exists w, In w candidates
        /\ scan token_set_ratio item_hotel candidates = (sc w, Some w)
        /\ (0 < sc w)%Q
        /\ Forall (fun r => (sc r <= sc w)%Q) candidates).
Proof.
  unfold scan.
  destruct (fold_scan_step candidates 0%Q None)
    as [[E Hall] | (pre & w & post & Ec & E & Hw & Hpre & Hpost)].
  - now left.
  - right. exists w. subst candidates. repeat split; auto.
    + apply in_elt.
    + apply Forall_app. split.
      * eapply List.Forall_impl; [|exact Hpre]. cbv beta. intros a Ha.
        now apply Qlt_le_weak.
      * constructor; [apply Qle_refl | exact Hpost].
Qed.

Lemma reaches_threshold_true (q : Q) :
  reaches_threshold q = true <-> (FUZZY_THRESHOLD <= q)%Q.
Proof.
  unfold reaches_threshold.
  destruct (Qlt_le_dec q FUZZY_THRESHOLD) as [Hlt | Hle]; split; auto.
  - discriminate.
  - intros H. exfalso. apply (Qlt_not_le _ _ Hlt H).
Qed.

Lemma reaches_threshold_false (q : Q) :
  reaches_threshold q = false <-> (q < FUZZY_THRESHOLD)%Q.
Proof.
  unfold reaches_threshold.
  destruct (Qlt_le_dec q FUZZY_THRESHOLD) as [Hlt | Hle]; split; auto.
  - discriminate.
  - intros H. exfalso. apply (Qlt_not_le _ _ H Hle).
Qed.

Lemma below_zero_below_threshold (q : Q) :
  (q <= 0)%Q -> reaches_threshold q = false.
Proof.
  intros H. apply reaches_threshold_false.
  apply Qle_lt_trans with 0%Q; [exact H | reflexivity].
Qed.

End ScanFacts.

(** ** Match decision *)

Section DecisionFacts.

Variable token_set_ratio : string -> string -> Q.

(** The decision of [match_EXCEL.py] on any candidate list: a match on a
    candidate of highest score, that score being at least the threshold, or
    a no-match, all scores being below the threshold. *)
Lemma decide_match_cases (item : MatchExcelEngine.Item.t) (candidates : list Master.row) :
  let sc := score_of token_set_ratio (MatchExcelEngine.Item.hotel_norm item) in
  (exists w, In w candidates
      /\ MatchExcelEngine.decide_match token_set_ratio item candidates
         = MatchExcelEngine.matched_outcome item w (sc w)
      /\ (FUZZY_THRESHOLD <= sc w)%Q
      /\ Forall (fun r => (sc r <= sc w)%Q) candidates)
  \/ (MatchExcelEngine.decide_match token_set_ratio item candidates
      = MatchExcelEngine.no_match_outcome item
      /\ Forall (fun r => (sc r < FUZZY_THRESHOLD)%Q) candidates).
Proof.
  intros sc. unfold MatchExcelEngine.decide_match.
  destruct (scan_cases token_set_ratio (MatchExcelEngine.Item.hotel_norm item) candidates)
    as [[E Hall] | (w & Hin & E & Hpos & Hall)]; rewrite E.
  - right. split; [reflexivity|].
    eapply List.Forall_impl; [|exact Hall]. cbv beta. intros a Ha.
    apply Qle_lt_trans with 0%Q; [exact Ha | reflexivity].
  - fold (sc w). destruct (reaches_threshold (sc w)) eqn:Et.
    + left. exists w. apply reaches_threshold_true in Et. auto.
    + right. split; [reflexivity|]. apply reaches_threshold_false in Et.
      eapply List.Forall_impl; [|exact Hall]. cbv beta. intros a Ha.
      now apply Qle_lt_trans with (sc w).
Qed.

(** The same for [main.py]. *)
Lemma main_decide_match_cases (item : MainEngine.Item.t) (item_hotel : string)
    (candidates : list Master.row) :
  let sc := score_of token_set_ratio item_hotel in
  (exists w, In w candidates
      /\ MainEngine.decide_match token_set_ratio item item_hotel candidates
         = MainEngine.matched_outcome item w (sc w)
      /\ (FUZZY_THRESHOLD <= sc w)%Q
      /\ Forall (fun r => (sc r <= sc w)%Q) candidates)
  \/ (MainEngine.decide_match token_set_ratio item item_hotel candidates
      = MainEngine.no_match_outcome item
      /\ Forall (fun r => (sc r < FUZZY_THRESHOLD)%Q) candidates).
Proof.
  intros sc. unfold MainEngine.decide_match.
  destruct (scan_cases token_set_ratio item_hotel candidates)
    as [[E Hall] | (w & Hin & E & Hpos & Hall)]; rewrite E.
  - right. split; [reflexivity|].
    eapply List.Forall_impl; [|exact Hall]. cbv beta. intros a Ha.
    apply Qle_lt_trans with 0%Q; [exact Ha | reflexivity].
  - fold (sc w). destruct (reaches_threshold (sc w)) eqn:Et.
    + left. exists w. apply reaches_threshold_true in Et. auto.
    + right. split; [reflexivity|]. apply reaches_threshold_false in Et.
      eapply List.Forall_impl; [|exact Hall]. cbv beta. intros a Ha.
      now apply Qle_lt_trans with (sc w).
Qed.

(** An outcome of [match_hotels] comes from one record that passed the
    guard. *)
Lemma in_match_hotels (df_master : list Master.row)
    (items : list (option MatchExcelEngine.Item.t)) (o : MatchExcelEngine.Out.t) :
  In o (MatchExcelEngine.match_hotels token_set_ratio items df_master) ->
  exists item,
    In (Some item) items
    /\ MatchExcelEngine.unresolvable item = false
    /\ o = MatchExcelEngine.decide_match token_set_ratio item
             (MatchExcelEngine.candidates_for item df_master).
Proof.
  unfold MatchExcelEngine.match_hotels. rewrite in_flat_map.
  intros ([item|] & Hin & Ho); [|contradiction].
  unfold MatchExcelEngine.match_item in Ho.
  destruct (MatchExcelEngine.unresolvable item) eqn:Eu; [contradiction|].
  destruct Ho as [<- | []]. now exists item.
Qed.

Lemma main_in_match_hotels (df_master : list Master.row)
    (items : list MainEngine.Item.t) (o : MainEngine.Out.t) :
  In o (MainEngine.match_hotels token_set_ratio items df_master) ->
  exists item,
    In item items
    /\ o = MainEngine.decide_match token_set_ratio item
             (Main.normalize_text (PyStr (MainEngine.Item.scraped_name item)))
             (MainEngine.candidates_for
                (Main.normalize_text (PyStr (MainEngine.Item.city item)))
                (Main.state_to_code (PyStr (MainEngine.Item.state item)))
                (Main.country_to_code (PyStr (MainEngine.Item.country item)))
                df_master).
Proof.
  unfold MainEngine.match_hotels. rewrite in_flat_map.
  intros (item & Hin & Ho).
  unfold MainEngine.match_item in Ho.
  match type of Ho with In _ (if ?c then _ else _) => destruct c end;
    [contradiction|].
  destruct Ho as [<- | []]. now exists item.
Qed.

Lemma zero_below_threshold : ~ (FUZZY_THRESHOLD <= 0)%Q.
Proof. intros H. vm_compute in H. now apply H. Qed.

End DecisionFacts.

(** C1.  Every outcome that [match_hotels] emits, in either file, has a
    confidence of at least [FUZZY_THRESHOLD] exactly when its [hotel_code]
    is not null.  A no-match outcome has confidence 0 and null latitude and
    longitude.  A match carries the identifier of a candidate whose score is
    the highest of the candidate list, and that score is its confidence. *)
Theorem confidence_iff_hotel_code
    (token_set_ratio : string -> string -> Q) (df_master : list Master.row) :
  (forall items o,
      In o (MatchExcelEngine.match_hotels token_set_ratio items df_master) ->
      ((FUZZY_THRESHOLD <= MatchExcelEngine.Out.match_confidence o)%Q
       <-> MatchExcelEngine.Out.hotel_code o <> None)
      /\ (MatchExcelEngine.Out.hotel_code o = None ->
          MatchExcelEngine.Out.match_confidence o = 0%Q
          /\ MatchExcelEngine.Out.latitude o = None
          /\ MatchExcelEngine.Out.longitude o = None)
      /\ (MatchExcelEngine.Out.hotel_code o <> None ->
          exists item w,
            let candidates := MatchExcelEngine.candidates_for item df_master in
            let sc := score_of token_set_ratio (MatchExcelEngine.Item.hotel_norm item) in
            In (Some item) items /\ In w candidates
            /\ MatchExcelEngine.Out.hotel_code o
               = Some (Raw.Global_Property_ID (Master.raw w))
            /\ MatchExcelEngine.Out.match_confidence o = sc w
            /\ Forall (fun r => (sc r <= sc w)%Q) candidates))
  /\ (forall items o,
      In o (MainEngine.match_hotels token_set_ratio items df_master) ->
      ((FUZZY_THRESHOLD <= MainEngine.Out.match_confidence o)%Q
       <-> MainEngine.Out.hotel_code o <> None)
      /\ (MainEngine.Out.hotel_code o = None ->
          MainEngine.Out.match_confidence o = 0%Q
          /\ MainEngine.Out.latitude o = None
          /\ MainEngine.Out.longitude o = None)
      /\ (MainEngine.Out.hotel_code o <> None ->
          exists item w,
            let candidates :=
              MainEngine.candidates_for
                (Main.normalize_text (PyStr (MainEngine.Item.city item)))
                (Main.state_to_code (PyStr (MainEngine.Item.state item)))
                (Main.country_to_code (PyStr (MainEngine.Item.country item)))
                df_master in
            let sc := score_of token_set_ratio
                        (Main.normalize_text (PyStr (MainEngine.Item.scraped_name item))) in
            In item items /\ In w candidates
            /\ MainEngine.Out.hotel_code o
               = Some (Raw.Global_Property_ID (Master.raw w))
            /\ MainEngine.Out.match_confidence o = sc w
            /\ Forall (fun r => (sc r <= sc w)%Q) candidates)).
Proof.
  split.
  - intros items o Ho.
    apply in_match_hotels in Ho as (item & Hin & _ & ->).
    destruct (decide_match_cases token_set_ratio item
                (MatchExcelEngine.candidates_for item df_master))
      as [(w & Hw & -> & Hthr & Hall) | [-> Hall]]; cbn.
    + split; [split; [discriminate | intros _; exact Hthr]|].
      split; [discriminate|].
      intros _. exists item, w. auto.
    + split; [split; [intros H; now apply zero_below_threshold in H | congruence]|].
      split; [auto | congruence].
  - intros items o Ho.
    apply main_in_match_hotels in Ho as (item & Hin & ->).
    match goal with
    | |- context [MainEngine.decide_match _ _ ?h ?c] =>
        destruct (main_decide_match_cases token_set_ratio item h c)
          as [(w & Hw & -> & Hthr & Hall) | [-> Hall]]; cbn
    end.
    + split; [split; [discriminate | intros _; exact Hthr]|].
      split; [discriminate|].
      intros _. exists item, w. auto.
    + split; [split; [intros H; now apply zero_below_threshold in H | congruence]|].
      split; [auto | congruence].
Qed.

Example sample_seattle_matches :
  MatchExcelEngine.match_hotels Sample.ratio [Some Sample.seattle_page] Sample.df_master
  = [Sample.seattle_outcome]
  /\ MatchExcelEngine.Out.hotel_code Sample.seattle_outcome = Some "SEADT"
  /\ MatchExcelEngine.Out.match_confidence Sample.seattle_outcome = 100%Q.
Proof. vm_compute. auto. Qed.

Example sample_paris_no_match :
  MatchExcelEngine.match_hotels Sample.ratio [Some Sample.paris_page] Sample.df_master
  = [MatchExcelEngine.no_match_outcome Sample.paris_page].
Proof. vm_compute. reflexivity. Qed.

Lemma confidence_iff_hotel_code_witness :
  ((FUZZY_THRESHOLD <= MatchExcelEngine.Out.match_confidence Sample.seattle_outcome)%Q
   <-> MatchExcelEngine.Out.hotel_code Sample.seattle_outcome <> None)
  /\ ((FUZZY_THRESHOLD <= MatchExcelEngine.Out.match_confidence Sample.paris_outcome)%Q
      <-> MatchExcelEngine.Out.hotel_code Sample.paris_outcome <> None).
Proof.
  destruct (confidence_iff_hotel_code Sample.ratio Sample.df_master) as [Hexcel _].
  split.
  - apply (Hexcel [Some Sample.seattle_page; Some Sample.paris_page]).
    vm_compute. left. reflexivity.
  - apply (Hexcel [Some Sample.seattle_page; Some Sample.paris_page]).
    vm_compute. right. left. reflexivity.
Defined.

(** C5.  On every non-empty candidate list the decision is the one made on
    the first candidate of highest score: every candidate before it in the
    filter's order scores strictly less, every candidate after it scores at
    most as much, and the outcome is a match on that candidate, with its
    score, if the score reaches the threshold, and a no-match otherwise.
    The loop variable [best_row] is that candidate whenever its score is
    above 0, the start value of [best_score]. *)
Theorem first_highest_score_wins
    (token_set_ratio : string -> string -> Q) (candidates : list Master.row) :
  candidates <> [] ->
  (forall item : MatchExcelEngine.Item.t,
    let sc := score_of token_set_ratio (MatchExcelEngine.Item.hotel_norm item) in
    exists pre w post,
      candidates = pre ++ w :: post
      /\ Forall (fun r => (sc r < sc w)%Q) pre
      /\ Forall (fun r => (sc r <= sc w)%Q) post
      /\ MatchExcelEngine.decide_match token_set_ratio item candidates
         = (if reaches_threshold (sc w)
            then MatchExcelEngine.matched_outcome item w (sc w)
            else MatchExcelEngine.no_match_outcome item)
      /\ ((0 < sc w)%Q ->
          scan token_set_ratio (MatchExcelEngine.Item.hotel_norm item) candidates
          = (sc w, Some w)))
  /\ (forall (item : MainEngine.Item.t) (item_hotel : string),
    let sc := score_of token_set_ratio item_hotel in
    exists pre w post,
      candidates = pre ++ w :: post
      /\ Forall (fun r => (sc r < sc w)%Q) pre
      /\ Forall (fun r => (sc r <= sc w)%Q) post
      /\ MainEngine.decide_match token_set_ratio item item_hotel candidates
         = (if reaches_threshold (sc w)
            then MainEngine.matched_outcome item w (sc w)
            else MainEngine.no_match_outcome item)
      /\ ((0 < sc w)%Q ->
          scan token_set_ratio item_hotel candidates = (sc w, Some w))).
Proof.
  intros Hne. split.
  - intros item sc.
    destruct (scan_first_highest token_set_ratio (MatchExcelEngine.Item.hotel_norm item)
                candidates Hne)
      as (pre & w & post & Ec & Hpre & Hpost & [[Hpos E] | [Hle E]]);
      exists pre, w, post; fold (sc w) in *;
      (split; [exact Ec|]); (split; [exact Hpre|]); (split; [exact Hpost|]).
    + split; [|intros _; exact E].
      unfold MatchExcelEngine.decide_match. now rewrite E.
    + split.
      * unfold MatchExcelEngine.decide_match. rewrite E.
        now rewrite (below_zero_below_threshold _ Hle).
      * intros Hpos. exfalso. apply (Qlt_not_le _ _ Hpos Hle).
  - intros item item_hotel sc.
    destruct (scan_first_highest token_set_ratio item_hotel candidates Hne)
      as (pre & w & post & Ec & Hpre & Hpost & [[Hpos E] | [Hle E]]);
      exists pre, w, post; fold (sc w) in *;
      (split; [exact Ec|]); (split; [exact Hpre|]); (split; [exact Hpost|]).
    + split; [|intros _; exact E].
      unfold MainEngine.decide_match. now rewrite E.
    + split.
      * unfold MainEngine.decide_match. rewrite E.
        now rewrite (below_zero_below_threshold _ Hle).
      * intros Hpos. exfalso. apply (Qlt_not_le _ _ Hpos Hle).
Qed.

Lemma first_highest_score_wins_witness :
  exists pre w post,
    MatchExcelEngine.candidates_for Sample.seattle_page Sample.df_master
    = pre ++ w :: post
    /\ MatchExcelEngine.decide_match Sample.ratio Sample.seattle_page
         (MatchExcelEngine.candidates_for Sample.seattle_page Sample.df_master)
       = (if reaches_threshold
               (score_of Sample.ratio
                  (MatchExcelEngine.Item.hotel_norm Sample.seattle_page) w)
          then MatchExcelEngine.matched_outcome Sample.seattle_page w
                 (score_of Sample.ratio
                    (MatchExcelEngine.Item.hotel_norm Sample.seattle_page) w)
          else MatchExcelEngine.no_match_outcome Sample.seattle_page).
Proof.
  assert (Hne : MatchExcelEngine.candidates_for Sample.seattle_page Sample.df_master <> [])
    by (vm_compute; discriminate).
  destruct (first_highest_score_wins Sample.ratio _ Hne) as [Hexcel _].
  destruct (Hexcel Sample.seattle_page) as (pre & w & post & Ec & _ & _ & Ed & _).
  exists pre, w, post. split; [exact Ec | exact Ed].
Defined.

(** Three candidates of the same city: the first and the third share the top
    score, the first one wins. *)
Example tie_goes_to_first :
  map Master.hotel_norm
      (MatchExcelEngine.candidates_for Sample.seattle_page Sample.df_master)
  = ["hilton seattle downtown"; "hilton seattle airport"; "hilton seattle downtown"]
  /\ MatchExcelEngine.Out.hotel_code Sample.seattle_outcome = Some "SEADT".
Proof. vm_compute. auto. Qed.

(** When no candidate scores above 0 the loop keeps [best_row = None]; the
    outcome is the no-match that the threshold would give anyway. *)
Example zero_scores_select_nothing :
  scan Sample.ratio (MatchExcelEngine.Item.hotel_norm Sample.paris_page)
       (MatchExcelEngine.candidates_for Sample.paris_page Sample.df_master)
  = (0%Q, None)
  /\ MatchExcelEngine.candidates_for Sample.paris_page Sample.df_master <> [].
Proof. vm_compute. split; [reflexivity | discriminate]. Qed.

(** ** Unresolvable records *)

(** C6.  A record whose city key is empty, or whose country code is null or
    empty, adds nothing to the result of [match_hotels]: the outcomes are
    those of the list without it.  In [main.py] the keys are computed inside
    [match_hotels], from the record's raw city and country. *)
Theorem unresolvable_record_dropped
    (token_set_ratio : string -> string -> Q) (df_master : list Master.row) :
  (forall (pre post : list (option MatchExcelEngine.Item.t)) (item : MatchExcelEngine.Item.t),
      MatchExcelEngine.Item.city_norm item = ""
      \/ MatchExcelEngine.Item.country_code item = None
      \/ MatchExcelEngine.Item.country_code item = Some "" ->
      MatchExcelEngine.match_item token_set_ratio df_master (Some item) = []
      /\ MatchExcelEngine.match_hotels token_set_ratio (pre ++ Some item :: post) df_master
         = MatchExcelEngine.match_hotels token_set_ratio (pre ++ post) df_master)
  /\ (forall (pre post : list MainEngine.Item.t) (item : MainEngine.Item.t),
      Main.normalize_text (PyStr (MainEngine.Item.city item)) = ""
      \/ Main.country_to_code (PyStr (MainEngine.Item.country item)) = None
      \/ Main.country_to_code (PyStr (MainEngine.Item.country item)) = Some "" ->
      MainEngine.match_item token_set_ratio df_master item = []
      /\ MainEngine.match_hotels token_set_ratio (pre ++ item :: post) df_master
         = MainEngine.match_hotels token_set_ratio (pre ++ post) df_master).
Proof.
  split.
  - intros pre post item H.
    assert (E : MatchExcelEngine.match_item token_set_ratio df_master (Some item) = []).
    { unfold MatchExcelEngine.match_item, MatchExcelEngine.unresolvable.
      destruct H as [-> | [-> | ->]]; cbn; [reflexivity| |];
        now rewrite orb_true_r. }
    split; [exact E|].
    unfold MatchExcelEngine.match_hotels.
    rewrite !flat_map_app. cbn [flat_map]. now rewrite E.
  - intros pre post item H.
    assert (E : MainEngine.match_item token_set_ratio df_master item = []).
    { unfold MainEngine.match_item.
      destruct H as [-> | [-> | ->]]; cbn; [reflexivity| |];
        now rewrite orb_true_r. }
    split; [exact E|].
    unfold MainEngine.match_hotels.
    rewrite !flat_map_app. cbn [flat_map]. now rewrite E.
Qed.

Lemma unresolvable_record_dropped_witness :
  MatchExcelEngine.match_hotels Sample.ratio
    ([Some Sample.seattle_page] ++ Some Sample.empty_address_page :: [Some Sample.paris_page])
    Sample.df_master
  = MatchExcelEngine.match_hotels Sample.ratio
      ([Some Sample.seattle_page] ++ [Some Sample.paris_page]) Sample.df_master.
Proof.
  destruct (unresolvable_record_dropped Sample.ratio Sample.df_master) as [Hexcel _].
  apply (Hexcel [Some Sample.seattle_page] [Some Sample.paris_page]
                Sample.empty_address_page).
  left. vm_compute. reflexivity.
Defined.

(** An address that yields nothing leaves no outcome at all. *)
Example empty_address_no_outcome :
  MatchExcel.parse_address_components "" = ("", "", "")
  /\ MatchExcelEngine.match_hotels Sample.ratio [Some Sample.empty_address_page]
       Sample.df_master = [].
Proof. vm_compute. auto. Qed.

(** ** No-match outcomes *)

(** C7.  [match_hotels] is a total function, and a record with a non-empty
    city key and country code gets exactly one outcome.  When every
    candidate scores below the threshold, which includes the case of no
    candidate at all, that outcome has a null [hotel_code], confidence 0,
    and the name, city, state, country, address and url of the discovered
    record. *)
Theorem no_match_is_an_outcome
    (token_set_ratio : string -> string -> Q) (df_master : list Master.row) :
  (forall (item : MatchExcelEngine.Item.t) (c : string),
      MatchExcelEngine.Item.city_norm item <> "" ->
      MatchExcelEngine.Item.country_code item = Some c -> c <> "" ->
      exists o,
        MatchExcelEngine.match_hotels token_set_ratio [Some item] df_master = [o]
        /\ (Forall (fun r => (score_of token_set_ratio
                                (MatchExcelEngine.Item.hotel_norm item) r
                              < FUZZY_THRESHOLD)%Q)
                   (MatchExcelEngine.candidates_for item df_master) ->
            MatchExcelEngine.Out.hotel_code o = None
            /\ MatchExcelEngine.Out.global_property_name o = None
            /\ MatchExcelEngine.Out.match_confidence o = 0%Q
            /\ MatchExcelEngine.Out.scraped_hotel_name o = MatchExcelEngine.Item.scraped_name item
            /\ MatchExcelEngine.Out.city o = MatchExcelEngine.Item.city item
            /\ MatchExcelEngine.Out.state o = MatchExcelEngine.Item.state item
            /\ MatchExcelEngine.Out.state_code o = MatchExcelEngine.Item.state_code item
            /\ MatchExcelEngine.Out.country o = MatchExcelEngine.Item.country item
            /\ MatchExcelEngine.Out.country_code o = MatchExcelEngine.Item.country_code item
            /\ MatchExcelEngine.Out.address o = MatchExcelEngine.Item.address item
            /\ MatchExcelEngine.Out.url o = MatchExcelEngine.Item.url item))
  /\ (forall (item : MainEngine.Item.t) (c : string),
      let item_city := Main.normalize_text (PyStr (MainEngine.Item.city item)) in
      let item_hotel := Main.normalize_text (PyStr (MainEngine.Item.scraped_name item)) in
      let item_state := Main.state_to_code (PyStr (MainEngine.Item.state item)) in
      let item_country := Main.country_to_code (PyStr (MainEngine.Item.country item)) in
      item_city <> "" -> item_country = Some c -> c <> "" ->
      exists o,
        MainEngine.match_hotels token_set_ratio [item] df_master = [o]
        /\ (Forall (fun r => (score_of token_set_ratio item_hotel r < FUZZY_THRESHOLD)%Q)
                   (MainEngine.candidates_for item_city item_state item_country df_master) ->
            MainEngine.Out.hotel_code o = None
            /\ MainEngine.Out.global_property_name o = None
            /\ MainEngine.Out.match_confidence o = 0%Q
            /\ MainEngine.Out.scraped_hotel_name o = MainEngine.Item.scraped_name item
            /\ MainEngine.Out.city o = MainEngine.Item.city item
            /\ MainEngine.Out.state o = MainEngine.Item.state item
            /\ MainEngine.Out.country o = MainEngine.Item.country item
            /\ MainEngine.Out.address o = MainEngine.Item.address item
            /\ MainEngine.Out.url o = MainEngine.Item.url item)).
Proof.
  assert (Hne : forall s, s <> "" -> String.eqb s "" = false).
  { intros s H. apply not_true_is_false. now rewrite String.eqb_eq. }
  split.
  - intros item c Hcity Hcountry Hc.
    exists (MatchExcelEngine.decide_match token_set_ratio item
              (MatchExcelEngine.candidates_for item df_master)).
    split.
    + unfold MatchExcelEngine.match_hotels. cbn [flat_map MatchExcelEngine.match_item].
      unfold MatchExcelEngine.unresolvable. rewrite Hcountry. cbn.
      now rewrite (Hne _ Hcity), (Hne _ Hc).
    + intros Hall.
      destruct (decide_match_cases token_set_ratio item
                  (MatchExcelEngine.candidates_for item df_master))
        as [(w & Hw & _ & Hthr & _) | [-> _]].
      * exfalso. rewrite List.Forall_forall in Hall.
        apply (Qlt_not_le _ _ (Hall w Hw) Hthr).
      * cbn. repeat split; reflexivity.
  - intros item c item_city item_hotel item_state item_country Hcity Hcountry Hc.
    exists (MainEngine.decide_match token_set_ratio item item_hotel
              (MainEngine.candidates_for item_city item_state item_country df_master)).
    split.
    + unfold MainEngine.match_hotels. cbn [flat_map MainEngine.match_item].
      unfold MainEngine.match_item.
      fold item_city item_hotel item_state item_country.
      rewrite Hcountry. cbn.
      now rewrite (Hne _ Hcity), (Hne _ Hc).
    + intros Hall.
      destruct (main_decide_match_cases token_set_ratio item item_hotel
                  (MainEngine.candidates_for item_city item_state item_country df_master))
        as [(w & Hw & _ & Hthr & _) | [-> _]].
      * exfalso. rewrite List.Forall_forall in Hall.
        apply (Qlt_not_le _ _ (Hall w Hw) Hthr).
      * cbn. repeat split; reflexivity.
Qed.

Lemma no_match_is_an_outcome_witness :
  exists o,
    MatchExcelEngine.match_hotels Sample.ratio [Some Sample.paris_page] Sample.df_master = [o]
    /\ MatchExcelEngine.Out.hotel_code o = None
    /\ MatchExcelEngine.Out.match_confidence o = 0%Q
    /\ MatchExcelEngine.Out.city o = "Paris"
    /\ MatchExcelEngine.Out.country o = "France".
Proof.
  destruct (no_match_is_an_outcome Sample.ratio Sample.df_master) as [Hexcel _].
  destruct (Hexcel Sample.paris_page "FRANCE") as (o & Eo & Hno).
  - vm_compute. discriminate.
  - vm_compute. reflexivity.
  - discriminate.
  - exists o. split; [exact Eo|].
    destruct Hno as (H1 & _ & H3 & _ & H5 & _ & _ & H8 & _).
    + vm_compute. repeat constructor.
    + repeat split; assumption.
Defined.

(** ** The token "nan" *)

(** C10.  [normalize_text], in either file, gives the empty string for any
    value whose string form lower-cases to "nan" (so for "NaN", "NAN" and
    for the float [nan] of an empty cell), as it does for [None] and for the
    empty string.  A registry name or city of that form gets an empty key,
    and so does a discovered name; a discovered record whose city has that
    form is dropped by [match_hotels]. *)
Theorem nan_token_normalizes_to_empty :
  (forall v : pyval, lower (str v) = "nan" ->
      MatchExcel.normalize_text v = "" /\ Main.normalize_text v = "")
  /\ (MatchExcel.normalize_text PyNone = "" /\ MatchExcel.normalize_text (PyStr "") = ""
      /\ Main.normalize_text PyNone = "" /\ Main.normalize_text (PyStr "") = "")
  /\ (forall r : Raw.row, lower (str (Raw.Global_Property_Name r)) = "nan" ->
      Master.hotel_norm (MatchExcelEngine.load_row r) = ""
      /\ Master.hotel_norm (MainEngine.load_row r) = "")
  /\ (forall r : Raw.row, lower (str (Raw.Property_City_Name r)) = "nan" ->
      Master.city_norm (MatchExcelEngine.load_row r) = ""
      /\ Master.city_norm (MainEngine.load_row r) = "")
  /\ (forall (token_set_ratio : string -> string -> Q) (df_master : list Master.row)
             (name address href : string),
      let item := MatchExcelEngine.scrape_single_hotel name address href in
      (lower name = "nan" -> MatchExcelEngine.Item.hotel_norm item = "")
      /\ (lower (MatchExcelEngine.Item.city item) = "nan" ->
          MatchExcelEngine.Item.city_norm item = ""
          /\ MatchExcelEngine.match_hotels token_set_ratio [Some item] df_master = []))
  /\ (forall (token_set_ratio : string -> string -> Q) (df_master : list Master.row)
             (item : MainEngine.Item.t),
      lower (MainEngine.Item.city item) = "nan" ->
      MainEngine.match_hotels token_set_ratio [item] df_master = []).
Proof.
  assert (Hnan : forall v : pyval, lower (str v) = "nan" ->
            MatchExcel.normalize_text v = "" /\ Main.normalize_text v = "").
  { intros v H. split.
    - destruct v; [discriminate H | reflexivity |].
      unfold MatchExcel.normalize_text. now rewrite H.
    - unfold Main.normalize_text. rewrite H. now rewrite orb_true_r. }
  split; [exact Hnan|].
  split; [repeat split|].
  split.
  { intros r H. split.
    - exact (proj1 (Hnan (Raw.Global_Property_Name r) H)).
    - exact (proj2 (Hnan (Raw.Global_Property_Name r) H)). }
  split.
  { intros r H. split.
    - exact (proj1 (Hnan (PyStr (str (Raw.Property_City_Name r))) H)).
    - exact (proj2 (Hnan (Raw.Property_City_Name r) H)). }
  split.
  - intros token_set_ratio df_master name address href item.
    subst item. unfold MatchExcelEngine.scrape_single_hotel.
    destruct (MatchExcel.parse_address_components address) as [[city state] country].
    cbn [MatchExcelEngine.Item.hotel_norm MatchExcelEngine.Item.city
         MatchExcelEngine.Item.city_norm].
    split; [intros H; now apply (Hnan (PyStr name))|].
    intros H. destruct (Hnan (PyStr city) H) as [E _].
    split; [exact E|].
    unfold MatchExcelEngine.match_hotels.
    cbn [flat_map MatchExcelEngine.match_item].
    unfold MatchExcelEngine.unresolvable.
    cbn [MatchExcelEngine.Item.city_norm]. now rewrite E.
  - intros token_set_ratio df_master item H.
    destruct (Hnan (PyStr (MainEngine.Item.city item)) H) as [_ E].
    unfold MainEngine.match_hotels. cbn [flat_map].
    unfold MainEngine.match_item. now rewrite E.
Qed.

Lemma nan_token_normalizes_to_empty_witness :
  MatchExcel.normalize_text (PyStr "NaN") = ""
  /\ MatchExcel.normalize_text PyNaN = ""
  /\ Main.normalize_text (PyStr "NAN") = ""
  /\ MatchExcelEngine.match_hotels Sample.ratio [Some Sample.nan_city_page] Sample.df_master = []
  /\ MainEngine.match_hotels Sample.ratio [Sample.main_nan_city_page] Sample.main_df_master = [].
Proof.
  destruct nan_token_normalizes_to_empty as (Hnan & _ & _ & _ & Hexcel & Hmain).
  split; [apply (Hnan (PyStr "NaN")); reflexivity|].
  split; [apply (Hnan PyNaN); reflexivity|].
  split; [apply (Hnan (PyStr "NAN")); reflexivity|].
  split.
  - apply (Hexcel Sample.ratio Sample.df_master "Hilton Nan" "NaN, Thailand"
             "https://www.hilton.com/en/hotels/nan/").
    reflexivity.
  - apply (Hmain Sample.ratio Sample.main_df_master Sample.main_nan_city_page).
    reflexivity.
Defined.

(** The two files normalize every value to the same key. *)
Lemma normalize_text_files_agree (v : pyval) :
  Main.normalize_text v = MatchExcel.normalize_text v.
Proof.
  destruct v as [| |s]; [reflexivity | reflexivity |].
  unfold Main.normalize_text, MatchExcel.normalize_text.
  destruct (truthy (PyStr s)) eqn:E; [reflexivity|].
  apply truthy_str in E. subst s. reflexivity.
Qed.

(** Only the bare token is affected. *)
Example nan_inside_a_name :
  MatchExcel.normalize_text (PyStr "Nan Hotel") = "nan hotel"
  /\ MatchExcel.normalize_text (PyStr " nan ") = "nan".
Proof. vm_compute. auto. Qed.

(** ** Runs over several locations *)

Section ExcelRunFacts.
Import MatchExcelEngine MatchExcelRun.

Variable nulls_distinct : bool.
Variable token_set_ratio : string -> string -> Q.
Variable df_master : list Master.row.

Local Abbreviation loop := (for_each_location nulls_distinct token_set_ratio df_master).
Local Abbreviation run := (main_scrape_and_map nulls_distinct token_set_ratio df_master).
Local Abbreviation outcomes := (run_outcomes token_set_ratio df_master).
Local Abbreviation tbl := (run_table nulls_distinct token_set_ratio df_master).

(** The loop of [match_EXCEL.py] never raises on a failing location: it
    handles every location, in order. *)
Lemma for_each_location_run (locations : list (string * Crawl.visit Item.t)) :
  forall s : state,
    loop locations s
    = (Ok tt, {| table := tbl (table s) locations;
                 console := console s ++ run_failures locations;
                 all_results := all_results s ++ outcomes locations;
                 snapshot := snapshot s |}).
Proof.
  induction locations as [|[url v] rest IH]; intros s.
  - destruct s. cbn. now rewrite !app_nil_r.
  - cbn [for_each_location]. unfold bind at 1.
    assert (Hscrape : scrape_hotels_from_location url v s
              = (Ok (Crawl.collected v),
                 {| table := table s;
                    console := console s
                               ++ match Crawl.failure v with
                                  | Some e => [FailedScrapingLocation url e]
                                  | None => []
                                  end;
                    all_results := all_results s; snapshot := snapshot s |})).
    { unfold scrape_hotels_from_location, bind, try_except, raise, ret, print.
      destruct (Crawl.failure v); [reflexivity|].
      destruct s. cbn. now rewrite app_nil_r. }
    rewrite Hscrape. unfold bind, save_to_db, extend_results. cbn [table console all_results snapshot].
    rewrite IH. cbn [table console all_results snapshot fst snd
                     run_outcomes run_failures run_table flat_map fold_left].
    unfold location_outcomes at 3. cbn [snd fst].
    now rewrite <- !app_assoc.
Qed.

Lemma main_scrape_and_map_run (locations : list (string * Crawl.visit Item.t))
    (table0 : list Out.t) :
  run locations (initial table0)
  = (Ok (outcomes locations),
     {| table := tbl table0 locations;
        console := run_failures locations;
        all_results := outcomes locations;
        snapshot := Some (outcomes locations) |}).
Proof.
  unfold main_scrape_and_map, bind, try_except.
  rewrite for_each_location_run. reflexivity.
Qed.

(** [match_EXCEL.py] does what C8 says.  When the driver raises at one
    location the failure is printed, the run does not stop, and what it
    returns and writes to the snapshot is: the outcomes of the locations
    before it (those of a run over these alone), the outcomes of the links
    scraped at the failing location before the failure, and the outcomes of
    the locations after it (those of a run over these alone). *)
Lemma location_failure_is_caught
    (pre post : list (string * Crawl.visit Item.t)) (url e : string)
    (v : Crawl.visit Item.t) (table0 : list Out.t) :
  Crawl.failure v = Some e ->
  let final := run (pre ++ (url, v) :: post) (initial table0) in
  fst final = Ok (outcomes pre
                  ++ location_outcomes token_set_ratio df_master (url, v)
                  ++ outcomes post)
  /\ fst (run pre (initial table0)) = Ok (outcomes pre)
  /\ fst (run post (initial table0)) = Ok (outcomes post)
  /\ In (FailedScrapingLocation url e) (console (snd final))
  /\ snapshot (snd final)
     = Some (outcomes pre
             ++ location_outcomes token_set_ratio df_master (url, v)
             ++ outcomes post).
Proof.
  intros Hfail final. subst final. rewrite !main_scrape_and_map_run.
  cbn [fst snd console snapshot].
  assert (E : outcomes (pre ++ (url, v) :: post)
              = outcomes pre ++ location_outcomes token_set_ratio df_master (url, v)
                ++ outcomes post).
  { unfold run_outcomes. rewrite flat_map_app. reflexivity. }
  rewrite E. repeat split.
  unfold run_failures. rewrite in_flat_map.
  exists (url, v). split; [apply in_elt|].
  cbn [fst snd]. rewrite Hfail. now left.
Qed.

End ExcelRunFacts.

Section MainRunFacts.
Import MainEngine MainRun.

Variable token_set_ratio : string -> string -> Q.
Variable df_master : list Master.row.

Local Abbreviation loop := (for_each_location token_set_ratio df_master).
Local Abbreviation run := (main_scrape_and_map token_set_ratio df_master).
Local Abbreviation outcomes := (run_outcomes token_set_ratio df_master).

Lemma main_for_each_location_ok (locations : list (Crawl.visit Item.t)) :
  Forall (fun v => Crawl.failure v = None) locations ->
  forall s : state,
    exists s', loop locations s = (Ok tt, s')
               /\ all_results s' = all_results s ++ outcomes locations
               /\ snapshot s' = snapshot s.
Proof.
  induction locations as [|v rest IH]; intros Hall s.
  - exists s. cbn. now rewrite app_nil_r.
  - inversion Hall as [|? ? Hv Hrest]; subst.
    cbn [for_each_location]. unfold bind at 1, scrape_hotels_from_location.
    rewrite Hv. unfold ret, bind at 1, save_to_db, bind at 1, extend_results.
    match goal with
    | |- context [loop rest ?s1] => destruct (IH Hrest s1) as (s' & E & Hres & Hsnap)
    end.
    exists s'. split; [exact E|]. split; [|exact Hsnap].
    rewrite Hres. cbn [all_results run_outcomes flat_map].
    now rewrite <- app_assoc.
Qed.

(** In [main.py] the first location at which the driver raises ends the
    run: the exception leaves [main_scrape_and_map], the list accumulated so
    far is neither returned nor written to the snapshot, and the later
    locations are not visited. *)
Lemma main_location_failure_aborts
    (pre post : list (Crawl.visit Item.t)) (e : string) (v : Crawl.visit Item.t)
    (s : state) :
  Forall (fun v => Crawl.failure v = None) pre ->
  Crawl.failure v = Some e ->
  exists s', run (pre ++ v :: post) s = (Raise e, s')
             /\ snapshot s' = snapshot s.
Proof.
  intros Hpre Hv. unfold main_scrape_and_map.
  assert (Hloop : exists s', loop (pre ++ v :: post) s = (Raise e, s')
                             /\ snapshot s' = snapshot s).
  { clear - Hpre Hv. revert s.
    induction pre as [|p pre IH]; intros s.
    - exists s. cbn [app for_each_location]. unfold bind, scrape_hotels_from_location.
      rewrite Hv. split; reflexivity.
    - inversion Hpre as [|? ? Hp Hrest]; subst.
      cbn [app for_each_location]. unfold bind at 1, scrape_hotels_from_location.
      rewrite Hp. unfold ret, bind at 1, save_to_db, bind at 1, extend_results.
      match goal with
      | |- context [loop _ ?s1] => destruct (IH Hrest s1) as (s' & E & Hsnap)
      end.
      exists s'. split; [exact E | exact Hsnap]. }
  destruct Hloop as (s' & E & Hsnap).
  exists s'. unfold bind at 1. rewrite E. split; [reflexivity | exact Hsnap].
Qed.

End MainRunFacts.

(** C8 on [main.py], three locations, the driver timing out on the second:
    the run ends in the exception, no snapshot is written, and the third
    location, which [match_EXCEL.py] goes on to handle, is never reached. *)
Theorem main_run_stops_at_failed_location :
  (exists s',
      MainRun.main_scrape_and_map Sample.ratio Sample.main_df_master
        Sample.main_locations (MainRun.initial [])
      = (Raise "TimeoutException", s')
      /\ MainRun.snapshot s' = None
      /\ length (MainRun.all_results s') = 1)
  /\ (exists s',
      MatchExcelRun.main_scrape_and_map true Sample.ratio Sample.df_master
        Sample.locations (MatchExcelRun.initial [])
      = (Ok [Sample.seattle_outcome; Sample.paris_outcome], s')
      /\ MatchExcelRun.snapshot s' = Some [Sample.seattle_outcome; Sample.paris_outcome]
      /\ MatchExcelRun.console s'
         = [FailedScrapingLocation "https://www.hilton.com/en/locations/thailand/"
              "TimeoutException"]).
Proof.
  split; eexists; vm_compute; repeat split; reflexivity.
Qed.

(** ** Persistence *)

Section GatewayFacts.
Import MatchExcelEngine MatchExcelRun.

Variable nulls_distinct : bool.

Local Abbreviation same := (same_key nulls_distinct).
Local Abbreviation insert := (insert_row nulls_distinct).
Local Abbreviation inserts := (insert_rows nulls_distinct).
Local Abbreviation keyed := (keyed nulls_distinct).

Lemma same_key_refl (r : Out.t) : keyed r -> same r r = true.
Proof.
  unfold same_key, MatchExcelRun.keyed. rewrite String.eqb_refl. cbn [andb].
  destruct (Out.hotel_code r) as [h|]; intros [H | H].
  - apply String.eqb_refl.
  - apply String.eqb_refl.
  - congruence.
  - now rewrite H.
Qed.

Lemma insert_row_conflict (table : list Out.t) (r : Out.t) :
  existsb (same r) table = true -> insert table r = table.
Proof. unfold insert_row. now intros ->. Qed.

Lemma insert_row_keeps (table : list Out.t) (r r' : Out.t) :
  existsb (same r) table = true -> existsb (same r) (insert table r') = true.
Proof.
  intros H. unfold insert_row. destruct (existsb (same r') table); [exact H|].
  rewrite existsb_app, H. reflexivity.
Qed.

Lemma insert_row_stored (table : list Out.t) (r : Out.t) :
  keyed r -> existsb (same r) (insert table r) = true.
Proof.
  intros Hk. unfold insert_row. destruct (existsb (same r) table) eqn:E; [exact E|].
  rewrite existsb_app. cbn [existsb]. rewrite (same_key_refl r Hk).
  now rewrite orb_true_r.
Qed.

(** One statement, run twice on a record that has a key. *)
Lemma insert_row_twice (table : list Out.t) (r : Out.t) :
  keyed r -> insert (insert table r) r = insert table r.
Proof. intros Hk. apply insert_row_conflict. now apply insert_row_stored. Qed.

Lemma fold_insert_keeps (records table : list Out.t) (r : Out.t) :
  existsb (same r) table = true ->
  existsb (same r) (fold_left insert records table) = true.
Proof.
  revert table. induction records as [|r' rest IH]; intros table H; [exact H|].
  cbn [fold_left]. apply IH. now apply insert_row_keeps.
Qed.

Lemma fold_insert_all_stored (records table : list Out.t) :
  Forall keyed records ->
  Forall (fun r => existsb (same r) (fold_left insert records table) = true) records.
Proof.
  revert table. induction records as [|r rest IH]; intros table Hk; [constructor|].
  inversion Hk as [|? ? Hr Hrest]; subst. cbn [fold_left]. constructor.
  - apply fold_insert_keeps. now apply insert_row_stored.
  - now apply IH.
Qed.

Lemma fold_insert_conflicts (records table : list Out.t) :
  Forall (fun r => existsb (same r) table = true) records ->
  fold_left insert records table = table.
Proof.
  induction records as [|r rest IH]; intros H; [reflexivity|].
  inversion H as [|? ? Hr Hrest]; subst. cbn [fold_left].
  rewrite (insert_row_conflict table r Hr). now apply IH.
Qed.

(** [save_to_db] of [match_EXCEL.py] is idempotent on records that have a
    key: saving the same batch again leaves the table as it is.  This covers
    every matched outcome, and every outcome at all if the index is declared
    [NULLS NOT DISTINCT]. *)
Lemma save_to_db_twice (records table : list Out.t) :
  Forall keyed records ->
  inserts (inserts table records) records = inserts table records.
Proof.
  intros Hk. unfold insert_rows. destruct records as [|r rest]; [reflexivity|].
  apply fold_insert_conflicts. now apply fold_insert_all_stored.
Qed.

(** After two inserts of a record whose key was not in the table, one row
    of the table has that key. *)
Lemma insert_row_twice_one_row (table : list Out.t) (r : Out.t) :
  keyed r -> existsb (same r) table = false ->
  length (List.filter (same r) (insert (insert table r) r)) = 1.
Proof.
  intros Hk Hfresh. rewrite (insert_row_twice table r Hk).
  unfold insert_row. rewrite Hfresh, List.filter_app. cbn [List.filter].
  rewrite (same_key_refl r Hk), length_app. cbn [length].
  assert (E : List.filter (same r) table = []).
  { clear - Hfresh. induction table as [|x t IH]; [reflexivity|].
    cbn [existsb] in Hfresh. apply orb_false_elim in Hfresh as [Hx Ht].
    cbn [List.filter]. rewrite Hx. now apply IH. }
  now rewrite E.
Qed.

End GatewayFacts.

(** C9 at its failing inputs.  In [main.py], [save_to_db] appends: the same
    matched outcome saved twice is stored twice.  In [match_EXCEL.py], under
    an index that tells NULLs apart (PostgreSQL's default), a no-match
    outcome, whose [hotel_code] is NULL, never conflicts with its earlier
    copy and is stored twice too; a matched outcome is stored once. *)
Theorem save_twice_stores_two_rows :
  (let o := MainEngine.matched_outcome Sample.main_seattle_page
              (MainEngine.load_row (Raw.mk "SEADT" (PyStr "Hilton Seattle Downtown")
                 (PyStr "Seattle") (PyStr "WA") (PyStr "US")
                 (Num (476 # 10)) (Num (-1223 # 10))))
              100%Q in
   MainRun.table
     (snd (MainRun.save_to_db [o] (snd (MainRun.save_to_db [o] (MainRun.initial [])))))
   = [o; o])
  /\ MatchExcelRun.insert_rows true
       (MatchExcelRun.insert_rows true [] [Sample.paris_outcome]) [Sample.paris_outcome]
     = [Sample.paris_outcome; Sample.paris_outcome]
  /\ MatchExcelRun.insert_rows true
       (MatchExcelRun.insert_rows true [] [Sample.seattle_outcome]) [Sample.seattle_outcome]
     = [Sample.seattle_outcome].
Proof. vm_compute. auto. Qed.

(** * Further properties *)

(** ** Keys *)

Section KeyFacts.

Lemma all_str_impl (p q : ascii -> bool) (s : string) :
  (forall c, p c = true -> q c = true) -> all_str p s = true -> all_str q s = true.
Proof.
  intros Hpq. induction s as [|c s IH]; [reflexivity|].
  cbn [all_str]. intros H. apply andb_prop in H as [Hc Hs].
  now rewrite (Hpq c Hc), (IH Hs).
Qed.

Lemma all_str_lstrip (p : ascii -> bool) (s : string) :
  all_str p s = true -> all_str p (lstrip s) = true.
Proof.
  induction s as [|c s IH]; [reflexivity|].
  intros H. cbn [lstrip]. destruct (is_space c); [|exact H].
  cbn [all_str] in H. apply andb_prop in H as [_ Hs]. now apply IH.
Qed.

Lemma all_str_rstrip (p : ascii -> bool) (s : string) :
  all_str p s = true -> all_str p (rstrip s) = true.
Proof.
  induction s as [|c s IH]; [reflexivity|].
  cbn [all_str]. intros H. apply andb_prop in H as [Hc Hs].
  specialize (IH Hs). cbn [rstrip].
  destruct (rstrip s) as [|d r].
  - destruct (is_space c); [reflexivity|]. cbn [all_str]. now rewrite Hc.
  - cbn [all_str] in *. now rewrite Hc, IH.
Qed.

Lemma all_str_strip (p : ascii -> bool) (s : string) :
  all_str p s = true -> all_str p (strip s) = true.
Proof. intros H. unfold strip. now apply all_str_rstrip, all_str_lstrip. Qed.

Lemma all_str_filter (p : ascii -> bool) (s : string) :
  all_str p (filter_str p s) = true.
Proof.
  induction s as [|c s IH]; [reflexivity|].
  cbn [filter_str]. destruct (p c) eqn:Hc; [|exact IH].
  cbn [all_str]. now rewrite Hc, IH.
Qed.

Lemma filter_str_id (p : ascii -> bool) (s : string) :
  all_str p s = true -> filter_str p s = s.
Proof.
  induction s as [|c s IH]; [reflexivity|].
  cbn [all_str filter_str]. intros H. apply andb_prop in H as [Hc Hs].
  now rewrite Hc, (IH Hs).
Qed.

Lemma key_char_lower (c : ascii) : key_char c = true -> lower_char c = c.
Proof.
  destruct c as [[] [] [] [] [] [] [] []]; vm_compute; congruence.
Qed.

Lemma lower_id (s : string) : all_str key_char s = true -> lower s = s.
Proof.
  unfold lower. induction s as [|c s IH]; [reflexivity|].
  cbn [all_str map_str]. intros H. apply andb_prop in H as [Hc Hs].
  now rewrite (key_char_lower c Hc), (IH Hs).
Qed.

(** Shape of every key that [normalize_text] returns. *)
Lemma normalize_text_shape (v : pyval) :
  all_str key_char (MatchExcel.normalize_text v) = true
  /\ strip (MatchExcel.normalize_text v) = MatchExcel.normalize_text v.
Proof.
  unfold MatchExcel.normalize_text.
  destruct v as [| |s]; try (split; reflexivity);
    match goal with
    | |- context [if ?b then _ else _] => destruct b
    end; try (split; reflexivity);
    (split; [apply all_str_strip, (all_str_filter key_char) | apply strip_idem]).
Qed.

End KeyFacts.

(** X1.  For a value whose text is ASCII, the key that [normalize_text]
    returns, in either file, is made of the letters a-z, digits and ASCII
    white space only, and has no white space at either end.  (On other text
    the pattern of the source also keeps Unicode white space, such as the
    no-break space, inside the key.) *)
Theorem normalize_text_key_shape (v : pyval) :
  isascii (str v) = true ->
  (all_str key_char (MatchExcel.normalize_text v) = true
   /\ strip (MatchExcel.normalize_text v) = MatchExcel.normalize_text v)
  /\ (all_str key_char (Main.normalize_text v) = true
      /\ strip (Main.normalize_text v) = Main.normalize_text v).
Proof.
  intros _.
  rewrite normalize_text_files_agree. split; apply normalize_text_shape.
Qed.

Lemma normalize_text_key_shape_witness :
  MatchExcel.normalize_text (PyStr " Hilton Seattle - Downtown! ")
  = "hilton seattle  downtown"
  /\ all_str key_char (MatchExcel.normalize_text
                         (PyStr " Hilton Seattle - Downtown! ")) = true.
Proof.
  split; [reflexivity|].
  apply (normalize_text_key_shape (PyStr " Hilton Seattle - Downtown! ")).
  reflexivity.
Defined.

(** X2.  [normalize_text] is idempotent on every value but those whose key
    is "nan": normalizing a key again gives the same key, except that the
    key "nan" (which inputs such as " nan " or "N.a.N" produce, the test of
    the token being made before punctuation and white space are removed)
    is turned into the empty string by a second pass. *)
Theorem normalize_text_twice (v : pyval) :
  MatchExcel.normalize_text (PyStr (MatchExcel.normalize_text v))
  = (if String.eqb (MatchExcel.normalize_text v) "nan" then ""
     else MatchExcel.normalize_text v)
  /\ Main.normalize_text (PyStr (Main.normalize_text v))
     = (if String.eqb (Main.normalize_text v) "nan" then ""
        else Main.normalize_text v)
  /\ MatchExcel.normalize_text (PyStr "N.a.N") = "nan"
  /\ MatchExcel.normalize_text (PyStr " nan ") = "nan".
Proof.
  assert (H : MatchExcel.normalize_text (PyStr (MatchExcel.normalize_text v))
              = (if String.eqb (MatchExcel.normalize_text v) "nan" then ""
                 else MatchExcel.normalize_text v)).
  { destruct (normalize_text_shape v) as [Hall Htrim].
    set (k := MatchExcel.normalize_text v) in *.
    unfold MatchExcel.normalize_text at 1. cbn [str].
    rewrite (lower_id k Hall).
    destruct (String.eqb k "nan"); [reflexivity|].
    change (strip (filter_str key_char k) = k).
    now rewrite (filter_str_id _ k Hall). }
  split; [exact H|].
  split; [rewrite !normalize_text_files_agree; exact H|].
  split; reflexivity.
Qed.

(** ** [normalize_name] *)

Section NameFacts.
Import MatchExcelMore.

Local Abbreviation other := (fun c : ascii => negb (name_char c)).

Lemma name_char_key_char (c : ascii) : name_char c = true -> key_char c = true.
Proof.
  destruct c as [[] [] [] [] [] [] [] []]; vm_compute; congruence.
Qed.

Lemma sub_other_name_chars (s : string) :
  forall b, all_str name_char (sub_runs other b s) = true.
Proof.
  induction s as [|c s IH]; intros b; [reflexivity|].
  cbn [sub_runs]. destruct (name_char c) eqn:Hc; cbn [negb].
  - cbn [all_str]. now rewrite Hc, IH.
  - destruct b; [apply IH|]. cbn [all_str]. now rewrite IH.
Qed.

Lemma sub_space_name_chars (s : string) :
  forall b, all_str name_char s = true ->
            all_str name_char (sub_runs is_space b s) = true.
Proof.
  induction s as [|c s IH]; intros b; [reflexivity|].
  cbn [all_str sub_runs]. intros H. apply andb_prop in H as [Hc Hs].
  destruct (is_space c).
  - destruct b; [now apply IH|]. cbn [all_str]. now rewrite IH.
  - cbn [all_str]. now rewrite Hc, IH.
Qed.

Lemma single_spaced_cons (c d : ascii) (r : string) :
  single_spaced (String c (String d r))
  = negb (is_space c && is_space d) && single_spaced (String d r).
Proof. reflexivity. Qed.

Lemma sub_space_single_spaced (s : string) :
  forall b, single_spaced (sub_runs is_space b s) = true
            /\ (b = true -> head_not_space (sub_runs is_space b s)).
Proof.
  induction s as [|c s IH]; intros b; [split; [reflexivity | intros _; exact I]|].
  cbn [sub_runs]. destruct (is_space c) eqn:Hc.
  - destruct b.
    + apply IH.
    + split; [|discriminate].
      destruct (IH true) as [Hs Hh]. specialize (Hh eq_refl).
      destruct (sub_runs is_space true s) as [|d r]; [reflexivity|].
      rewrite single_spaced_cons.
      cbn [head_not_space] in Hh. rewrite Hh, andb_false_r. exact Hs.
  - destruct (IH false) as [Hs _]. split; [|intros _; exact Hc].
    destruct (sub_runs is_space false s) as [|d r]; [reflexivity|].
    rewrite single_spaced_cons, Hc. exact Hs.
Qed.

Lemma single_spaced_tail (c : ascii) (s : string) :
  single_spaced (String c s) = true -> single_spaced s = true.
Proof.
  cbn [single_spaced]. destruct s as [|d r]; [reflexivity|].
  intros H. now apply andb_prop in H as [_ H].
Qed.

Lemma single_spaced_lstrip (s : string) :
  single_spaced s = true -> single_spaced (lstrip s) = true.
Proof.
  induction s as [|c s IH]; [reflexivity|].
  intros H. cbn [lstrip]. destruct (is_space c); [|exact H].
  apply IH. now apply single_spaced_tail in H.
Qed.

Lemma rstrip_head (s : string) (d : ascii) (r : string) :
  rstrip s = String d r -> exists t, s = String d t.
Proof.
  destruct s as [|c s]; [discriminate|].
  cbn [rstrip]. destruct (rstrip s).
  - destruct (is_space c); [discriminate|]. intros [= <- _]. now exists s.
  - intros [= <- _]. now exists s.
Qed.

Lemma single_spaced_rstrip (s : string) :
  single_spaced s = true -> single_spaced (rstrip s) = true.
Proof.
  induction s as [|c s IH]; [reflexivity|].
  intros H. pose proof (single_spaced_tail _ _ H) as Hs. specialize (IH Hs).
  cbn [rstrip]. destruct (rstrip s) as [|d r] eqn:E.
  - now destruct (is_space c).
  - destruct (rstrip_head _ _ _ E) as [t ->].
    rewrite single_spaced_cons in H |- *. apply andb_prop in H as [Hcd _].
    now rewrite Hcd, IH.
Qed.

Lemma sub_other_id (s : string) :
  forall b, all_str name_char s = true -> sub_runs other b s = s.
Proof.
  induction s as [|c s IH]; intros b; [reflexivity|].
  cbn [all_str sub_runs]. intros H. apply andb_prop in H as [Hc Hs].
  rewrite Hc. cbn [negb]. now rewrite (IH false Hs).
Qed.

Lemma name_space_is_blank (c : ascii) :
  name_char c = true -> is_space c = true -> c = " "%char.
Proof.
  destruct c as [[] [] [] [] [] [] [] []]; vm_compute; congruence.
Qed.

Lemma sub_space_id (s : string) :
  forall b, all_str name_char s = true -> single_spaced s = true ->
            (b = true -> head_not_space s) ->
            sub_runs is_space b s = s.
Proof.
  induction s as [|c s IH]; intros b; [reflexivity|].
  intros Hall Hss Hhead. pose proof (single_spaced_tail _ _ Hss) as Hss'.
  cbn [all_str] in Hall. apply andb_prop in Hall as [Hc Hs].
  cbn [sub_runs]. destruct (is_space c) eqn:Ec.
  - destruct b; [specialize (Hhead eq_refl); cbn in Hhead; congruence|].
    rewrite (name_space_is_blank c Hc Ec). f_equal.
    apply IH; auto. intros _.
    destruct s as [|d r]; [exact I|].
    rewrite single_spaced_cons in Hss. apply andb_prop in Hss as [Hcd _].
    rewrite Ec in Hcd. cbn [andb negb] in Hcd.
    cbn [head_not_space]. now apply negb_true_iff in Hcd.
  - f_equal. apply IH; auto. discriminate.
Qed.

Lemma normalize_name_shape (v : pyval) :
  all_str name_char (normalize_name v) = true
  /\ single_spaced (normalize_name v) = true
  /\ strip (normalize_name v) = normalize_name v.
Proof.
  unfold normalize_name.
  destruct (truthy v); cbn [negb]; [|repeat split].
  split; [|split].
  - apply all_str_strip, sub_space_name_chars, sub_other_name_chars.
  - unfold strip. apply single_spaced_rstrip, single_spaced_lstrip.
    apply sub_space_single_spaced.
  - apply strip_idem.
Qed.

End NameFacts.

(** X3.  Every key that [normalize_name] returns is made of lower-case
    letters, digits and blanks only, has no two blanks in a row and no
    blank at either end: words separated by single blanks. *)
Theorem normalize_name_key_shape (v : pyval) :
  let k := MatchExcelMore.normalize_name v in
  all_str MatchExcelMore.name_char k = true
  /\ single_spaced k = true
  /\ strip k = k.
Proof. apply normalize_name_shape. Qed.

(** X4.  [normalize_name] is idempotent: normalizing a key gives the key. *)
Theorem normalize_name_idempotent (v : pyval) :
  MatchExcelMore.normalize_name (PyStr (MatchExcelMore.normalize_name v))
  = MatchExcelMore.normalize_name v.
Proof.
  destruct (normalize_name_shape v) as (Hall & Hss & Htrim).
  set (k := MatchExcelMore.normalize_name v) in *.
  unfold MatchExcelMore.normalize_name at 1.
  destruct (truthy (PyStr k)) eqn:Et; cbn [negb str].
  - rewrite (lower_id k (all_str_impl _ _ k name_char_key_char Hall)).
    rewrite (sub_other_id k false Hall).
    rewrite (sub_space_id k false Hall Hss) by discriminate.
    exact Htrim.
  - apply truthy_str in Et. now rewrite Et.
Qed.

(** ** Canonical codes *)

Section CodeFacts.

Lemma upper_char_idem (c : ascii) : upper_char (upper_char c) = upper_char c.
Proof.
  destruct c as [[] [] [] [] [] [] [] []]; vm_compute; reflexivity.
Qed.

Lemma upper_idem (s : string) : upper (upper s) = upper s.
Proof.
  unfold upper. induction s as [|c s IH]; [reflexivity|].
  cbn [map_str]. now rewrite upper_char_idem, IH.
Qed.

Lemma alpha_upper_char (c : ascii) : is_alpha c = true -> is_upper (upper_char c) = true.
Proof.
  destruct c as [[] [] [] [] [] [] [] []]; vm_compute; congruence.
Qed.

Lemma upper_char_fixed (c : ascii) :
  is_upper c = true -> upper_char c = c /\ is_alpha c = true /\ is_space c = false.
Proof.
  destruct c as [[] [] [] [] [] [] [] []]; vm_compute; intuition congruence.
Qed.

Lemma all_upper_after_upper (s : string) :
  all_str is_alpha s = true -> all_str is_upper (upper s) = true.
Proof.
  unfold upper. induction s as [|c s IH]; [reflexivity|].
  cbn [all_str map_str]. intros H. apply andb_prop in H as [Hc Hs].
  now rewrite (alpha_upper_char c Hc), (IH Hs).
Qed.

(** A string without white space is its own trimmed form. *)
Lemma strip_no_space (s : string) :
  all_str (fun c => negb (is_space c)) s = true -> strip s = s.
Proof.
  intros H. unfold strip.
  assert (Hl : lstrip s = s).
  { destruct s as [|c s]; [reflexivity|].
    cbn [all_str] in H. apply andb_prop in H as [Hc _].
    apply negb_true_iff in Hc. now apply lstrip_nonspace. }
  rewrite Hl. induction s as [|c s IH]; [reflexivity|].
  cbn [all_str] in H. apply andb_prop in H as [Hc Hs].
  apply negb_true_iff in Hc.
  rewrite (rstrip_cons_nonspace c s Hc). f_equal. apply IH; [exact Hs|].
  destruct s as [|d r]; [reflexivity|].
  cbn [all_str] in Hs. apply andb_prop in Hs as [Hd _].
  apply negb_true_iff in Hd. now apply lstrip_nonspace.
Qed.

Lemma state_code_fixed (c : string) :
  is_state_code c = true ->
  upper c = c /\ isalpha c = true /\ strip c = c /\ String.length c = 2.
Proof.
  unfold is_state_code. intros H. apply andb_prop in H as [Hlen Hup].
  apply Nat.eqb_eq in Hlen.
  assert (Hfix : upper c = c /\ all_str is_alpha c = true
                 /\ all_str (fun x => negb (is_space x)) c = true).
  { clear Hlen. unfold upper. induction c as [|x c IH]; [repeat split|].
    cbn [all_str map_str] in *. apply andb_prop in Hup as [Hx Hc].
    destruct (upper_char_fixed x Hx) as (E1 & E2 & E3).
    destruct (IH Hc) as (I1 & I2 & I3).
    now rewrite E1, E2, E3, I1, I2, I3. }
  destruct Hfix as (H1 & H2 & H3).
  repeat split; auto.
  - unfold isalpha. rewrite H2. destruct c; [discriminate | reflexivity].
  - now apply strip_no_space.
Qed.

Lemma upper_nonempty (s : string) : s <> "" -> upper s <> "".
Proof. destruct s; [congruence | discriminate]. Qed.

End CodeFacts.

(** X5.  For a value whose text is ASCII, whatever [state_to_code] of
    [match_EXCEL.py] returns, if not [None], is a code of two capital
    letters, and is left as it is by [state_to_code]: canonical codes are
    fixed points.  (Outside ASCII, [upper] may lengthen a two-letter
    token.) *)
Theorem state_to_code_canonical (v : pyval) (c : string) :
  isascii (str v) = true ->
  MatchExcel.state_to_code v = Some c ->
  is_state_code c = true /\ MatchExcel.state_to_code (PyStr c) = Some c.
Proof.
  intros _ H.
  assert (Hc : is_state_code c = true).
  { unfold MatchExcel.state_to_code in H.
    destruct (truthy v); cbn [negb] in H; [|discriminate].
    destruct (len (strip (str v)) =? 2)%nat eqn:El; cbn [andb] in H.
    - destruct (isalpha (strip (str v))) eqn:Ea.
      + injection H as <-. unfold is_state_code.
        unfold upper at 1. rewrite length_map_str. unfold len in El. rewrite El.
        cbn [andb]. apply all_upper_after_upper.
        unfold isalpha in Ea. now apply andb_prop in Ea as [_ Ea].
      + apply state_map_lookup, state_items_shape in H. tauto.
    - apply state_map_lookup, state_items_shape in H. tauto. }
  split; [exact Hc|].
  destruct (state_code_fixed c Hc) as (Hup & Halpha & Htrim & Hlen).
  unfold MatchExcel.state_to_code.
  rewrite strip_nonempty_truthy
    by (rewrite Htrim; intros E; rewrite E in Hlen; discriminate).
  cbn [negb str]. unfold len. now rewrite Htrim, Hlen, Halpha, Hup.
Qed.

Lemma state_to_code_canonical_witness :
  is_state_code "TX" = true /\ MatchExcel.state_to_code (PyStr "TX") = Some "TX".
Proof.
  apply (state_to_code_canonical (PyStr " texas ") "TX"); reflexivity.
Defined.

Lemma country_code_canonical_form (v : pyval) (c : string) :
  MatchExcel.country_to_code v = Some c ->
  c <> "" /\ strip c = c /\ upper c = c
  /\ ~ In c ["USA"; "UNITED STATES"; "U.S."; "U.S.A."]
  /\ MatchExcel.country_to_code (PyStr c) = Some c.
Proof.
  intros H.
  assert (Hc : c <> "" /\ strip c = c /\ upper c = c
               /\ MatchExcel.mem c MatchExcel.US_VARIANTS
                  = String.eqb c "US").
  { unfold MatchExcel.country_to_code in H.
    destruct (truthy v); cbn [negb] in H; [|discriminate].
    destruct (String.eqb (strip (str v)) "") eqn:Ee; [discriminate|].
    destruct (MatchExcel.mem (upper (strip (str v))) MatchExcel.US_VARIANTS) eqn:Em;
      injection H as <-.
    - repeat split. discriminate.
    - assert (Hne : strip (str v) <> "").
      { intros E. rewrite E in Ee. discriminate. }
      split; [now apply upper_nonempty|].
      split; [now rewrite strip_upper, strip_idem|].
      split; [apply upper_idem|].
      rewrite Em. symmetry. apply not_true_is_false. intros E.
      apply String.eqb_eq in E. rewrite E in Em. discriminate. }
  destruct Hc as (Hne & Htrim & Hup & Hmem).
  split; [exact Hne|]. split; [exact Htrim|]. split; [exact Hup|].
  split.
  - intros Hin.
    assert (Hv : MatchExcel.mem c MatchExcel.US_VARIANTS = true).
    { apply mem_In. cbn in Hin |- *. tauto. }
    rewrite Hmem in Hv. apply String.eqb_eq in Hv. subst c.
    cbn in Hin. intuition discriminate.
  - unfold MatchExcel.country_to_code.
    rewrite strip_nonempty_truthy by now rewrite Htrim.
    cbn [negb str]. rewrite Htrim, Hup, Hmem.
    assert (Ee : String.eqb c "" = false)
      by (apply not_true_is_false; now rewrite String.eqb_eq).
    rewrite Ee. destruct (String.eqb c "US") eqn:E; [|reflexivity].
    apply String.eqb_eq in E. now subst c.
Qed.

(** X6.  Whatever [country_to_code] of [match_EXCEL.py] returns, if not
    [None], is a non-empty string, trimmed and upper-cased, which is none of
    the spellings USA, UNITED STATES, U.S., U.S.A., and is left as it is by
    [country_to_code]. *)
Theorem country_to_code_canonical (v : pyval) (c : string) :
  MatchExcel.country_to_code v = Some c ->
  c <> "" /\ strip c = c /\ upper c = c
  /\ ~ In c ["USA"; "UNITED STATES"; "U.S."; "U.S.A."]
  /\ MatchExcel.country_to_code (PyStr c) = Some c.
Proof. apply country_code_canonical_form. Qed.

Lemma country_to_code_canonical_witness :
  MatchExcel.country_to_code (PyStr "FRANCE") = Some "FRANCE".
Proof.
  apply (country_to_code_canonical (PyStr " France ") "FRANCE"). reflexivity.
Defined.

(** ** Parsed addresses *)

Section ParsedAddressFacts.
Import MatchExcel.

Lemma split_no_separator (sep : ascii) (s : string) :
  Forall (fun p => all_str (fun c => negb (Ascii.eqb c sep)) p = true) (split sep s).
Proof.
  induction s as [|c s IH]; [repeat constructor|].
  cbn [split]. destruct (Ascii.eqb c sep) eqn:Ec.
  - constructor; [reflexivity | exact IH].
  - destruct (split sep s) as [|h t].
    + repeat constructor. cbn [all_str]. now rewrite Ec.
    + inversion IH as [|? ? Hh Ht]; subst.
      constructor; [|exact Ht]. cbn [all_str]. now rewrite Ec, Hh.
Qed.

Lemma address_parts_shape (address p : string) :
  In p (address_parts address) ->
  strip p = p /\ p <> "" /\ all_str not_comma p = true.
Proof.
  intros Hin. destruct (address_parts_trimmed address p Hin) as [H1 H2].
  repeat split; auto.
  unfold address_parts in Hin. rewrite filter_In, in_map_iff in Hin.
  destruct Hin as [(q & <- & Hq) _].
  apply all_str_strip.
  pose proof (split_no_separator "," address) as Hall.
  rewrite List.Forall_forall in Hall. now apply Hall.
Qed.

Lemma alpha_not_comma (c : ascii) : is_alpha c = true -> not_comma c = true.
Proof.
  destruct c as [[] [] [] [] [] [] [] []]; vm_compute; congruence.
Qed.

(** The parser, read from the last segment. *)
Lemma parse_address_components_cases (address : string) :
  parse_address_components address =
  match rev (address_parts address) with
  | [] => ("", "", "")
  | [country] => ("", "", country)
  | [country; city] => (city, "", country)
  | country :: possible_state :: possible_city :: _ =>
      match state_match possible_state with
      | Some st => (possible_city, st, country)
      | None => (possible_state, "", country)
      end
  end.
Proof.
  unfold parse_address_components.
  destruct (String.eqb address "") eqn:Ea.
  - apply String.eqb_eq in Ea. subst address. reflexivity.
  - pose proof (address_parts_trimmed address) as Htrim.
    remember (rev (address_parts address)) as r eqn:Er.
    assert (Hparts : address_parts address = rev r)
      by (subst r; now rewrite rev_involutive).
    rewrite Hparts in *. clear Er Hparts.
    assert (Hin : forall p, In p r -> strip p = p /\ p <> "").
    { intros p Hp. apply Htrim. now apply in_rev in Hp. }
    clear Htrim. rewrite !from_end_rev, length_rev.
    destruct r as [|country [|p2 [|p3 rest]]].
    + reflexivity.
    + destruct (Hin country) as [Hc _]; [now left|].
      simpl. now rewrite Hc.
    + destruct (Hin country) as [Hc _]; [now left|].
      destruct (Hin p2) as [H2 _]; [right; now left|].
      simpl. now rewrite Hc, H2.
    + destruct (Hin country) as [Hc _]; [now left|].
      destruct (Hin p2) as [H2 N2]; [right; now left|].
      destruct (Hin p3) as [H3 N3]; [right; right; now left|].
      cbn [length Nat.leb nth_error get_or_empty].
      destruct (state_match p2) as [st|] eqn:Em.
      * assert (E3 : String.eqb p3 "" = false).
        { apply not_true_is_false. rewrite String.eqb_eq. exact N3. }
        rewrite E3. cbn [andb].
        now rewrite Hc, H3, (state_match_trimmed _ _ Em).
      * assert (E2 : String.eqb p2 "" = false).
        { apply not_true_is_false. rewrite String.eqb_eq. exact N2. }
        rewrite E2. cbn [andb].
        now rewrite Hc, H2.
Qed.

End ParsedAddressFacts.

Lemma parse_address_components_shape (address city state country : string) :
  MatchExcel.parse_address_components address = (city, state, country) ->
  (strip city = city /\ strip state = state /\ strip country = country)
  /\ (all_str not_comma city = true /\ all_str not_comma state = true
      /\ all_str not_comma country = true)
  /\ (state = "" \/ String.length state = 2 /\ isalpha state = true)
  /\ (state <> "" -> city <> "")
  /\ (city <> "" -> country <> "")
  /\ (country = "" <-> MatchExcel.address_parts address = []).
Proof.
  rewrite parse_address_components_cases.
  pose proof (address_parts_shape address) as Hshape.
  assert (Hin : forall p, In p (rev (MatchExcel.address_parts address)) ->
                          strip p = p /\ p <> "" /\ all_str not_comma p = true).
  { intros p Hp. apply Hshape. now apply in_rev in Hp. }
  assert (Hnil : rev (MatchExcel.address_parts address) = [] <->
                 MatchExcel.address_parts address = []).
  { split; intros E.
    - apply (f_equal (@rev string)) in E. now rewrite rev_involutive in E.
    - now rewrite E. }
  clear Hshape.
  destruct (rev (MatchExcel.address_parts address)) as [|c [|p2 [|p3 rest]]].
  - intros [= <- <- <-].
    split; [repeat split|]. split; [repeat split|]. split; [now left|].
    split; [congruence|]. split; [congruence|].
    split; [intros _; now apply Hnil | reflexivity].
  - intros [= <- <- <-].
    destruct (Hin c (or_introl eq_refl)) as (H1 & H2 & H3).
    split; [repeat split; auto|]. split; [repeat split; auto|]. split; [now left|].
    split; [congruence|]. split; [congruence|].
    split; [intros E; now elim H2 | intros E; apply Hnil in E; discriminate].
  - intros [= <- <- <-].
    destruct (Hin c (or_introl eq_refl)) as (H1 & H2 & H3).
    destruct (Hin p2 (or_intror (or_introl eq_refl))) as (H4 & H5 & H6).
    split; [repeat split; auto|]. split; [repeat split; auto|]. split; [now left|].
    split; [congruence|]. split; [intros _; exact H2|].
    split; [intros E; now elim H2 | intros E; apply Hnil in E; discriminate].
  - destruct (Hin c (or_introl eq_refl)) as (H1 & H2 & H3).
    destruct (Hin p2 (or_intror (or_introl eq_refl))) as (H4 & H5 & H6).
    destruct (Hin p3 (or_intror (or_intror (or_introl eq_refl)))) as (H7 & H8 & H9).
    destruct (MatchExcel.state_match p2) as [st|] eqn:Em; intros [= <- <- <-].
    + pose proof (state_match_trimmed _ _ Em) as Hst.
      apply state_match_spec in Em.
      destruct Em as (a & b & r & _ & -> & Ha & Hb & _).
      split; [repeat split; auto|].
      split.
      { repeat split; auto. cbn [all_str].
        now rewrite (alpha_not_comma a Ha), (alpha_not_comma b Hb). }
      split.
      { right. split; [reflexivity|]. unfold isalpha. cbn. now rewrite Ha, Hb. }
      split; [intros _; exact H8|]. split; [intros _; exact H2|].
      split; [intros E; now elim H2 | intros E; apply Hnil in E; discriminate].
    + split; [repeat split; auto|]. split; [repeat split; auto|]. split; [now left|].
      split; [congruence|]. split; [intros _; exact H2|].
      split; [intros E; now elim H2 | intros E; apply Hnil in E; discriminate].
Qed.

(** X7.  What [parse_address_components] of [match_EXCEL.py] returns, for
    any address: the three strings are trimmed and hold no comma; the state
    is empty or made of exactly two letters; a state comes only with a city
    and a city only with a country; and the country is empty exactly when
    the address has no non-empty segment. *)
Theorem parse_address_components_invariants (address city state country : string) :
  MatchExcel.parse_address_components address = (city, state, country) ->
  (strip city = city /\ strip state = state /\ strip country = country)
  /\ (all_str not_comma city = true /\ all_str not_comma state = true
      /\ all_str not_comma country = true)
  /\ (state = "" \/ String.length state = 2 /\ isalpha state = true)
  /\ (state <> "" -> city <> "")
  /\ (city <> "" -> country <> "")
  /\ (country = "" <-> MatchExcel.address_parts address = []).
Proof. apply parse_address_components_shape. Qed.

Lemma parse_address_components_invariants_witness :
  strip "Seattle" = "Seattle"
  /\ String.length "WA" = 2
  /\ ("United States" = "" <->
      MatchExcel.address_parts "Seattle, WA 98101, United States" = []).
Proof.
  destruct (parse_address_components_invariants
              "Seattle, WA 98101, United States" "Seattle" "WA" "United States")
    as ((H1 & _) & _ & [H3 | [H3 _]] & _ & _ & H6).
  - vm_compute. reflexivity.
  - discriminate H3.
  - repeat split; auto; apply H6.
Defined.

(** ** Scraped records *)

Section ScrapedRecordFacts.
Import MatchExcelEngine.

Lemma country_code_none_iff (country : string) :
  strip country = country ->
  (MatchExcel.country_to_code (PyStr country) = None <-> country = "")
  /\ some_text (MatchExcel.country_to_code (PyStr country))
     = negb (String.eqb country "").
Proof.
  intros Htrim. unfold MatchExcel.country_to_code. cbn [truthy str].
  rewrite Htrim. destruct (String.eqb country "") eqn:E; cbn [negb].
  - apply String.eqb_eq in E. split; [tauto | reflexivity].
  - assert (Hne : country <> "") by (intros H; rewrite H in E; discriminate).
    destruct (MatchExcel.mem (upper country) MatchExcel.US_VARIANTS).
    + split; [split; [discriminate | contradiction] | reflexivity].
    + split; [split; [discriminate | contradiction]|].
      cbn [some_text]. destruct (upper country) eqn:Eu; [|reflexivity].
      now apply upper_nonempty in Hne.
Qed.

Lemma scraped_record_shape (name address href : string) :
  let item := scrape_single_hotel name address href in
  (Item.state item = "" /\ Item.state_code item = None
   \/ String.length (Item.state item) = 2 /\ isalpha (Item.state item) = true
      /\ Item.state_code item = Some (upper (Item.state item)))
  /\ (Item.country_code item = None <-> Item.country item = "")
  /\ (unresolvable item = true <->
      Item.city_norm item = "" \/ Item.country item = "").
Proof.
  cbv zeta. unfold scrape_single_hotel.
  destruct (MatchExcel.parse_address_components address) as [[city state] country] eqn:Ep.
  destruct (parse_address_components_shape _ _ _ _ Ep)
    as ((_ & Hst & Hco) & _ & Hstate & _ & _ & _).
  cbn [Item.state Item.state_code Item.country Item.country_code Item.city_norm].
  destruct (country_code_none_iff country Hco) as [Hnone Hsome].
  split; [|split; [exact Hnone|]].
  - destruct Hstate as [-> | [Hlen Halpha]]; [left; split; reflexivity|].
    right. split; [exact Hlen|]. split; [exact Halpha|].
    unfold MatchExcel.state_to_code.
    rewrite strip_nonempty_truthy
      by (rewrite Hst; intros E; rewrite E in Hlen; discriminate).
    cbn [negb str]. unfold len. now rewrite Hst, Hlen, Halpha.
  - unfold unresolvable.
    cbn [Item.city_norm Item.country_code]. rewrite Hsome, negb_involutive.
    rewrite orb_true_iff, !String.eqb_eq. tauto.
Qed.

End ScrapedRecordFacts.

(** X8.  For every page that [scrape_single_hotel] of [match_EXCEL.py]
    records: the state code is null when the parsed state is empty, and
    otherwise the parsed state, two letters, upper-cased, so that the table
    of state names never decides the state code of a scraped record; the
    country code is null exactly when the parsed country is empty; and the
    record is dropped by [match_hotels] exactly when its city key or its
    parsed country is empty. *)
Theorem scraped_record_codes (name address href : string) :
  let item := MatchExcelEngine.scrape_single_hotel name address href in
  (MatchExcelEngine.Item.state item = "" /\ MatchExcelEngine.Item.state_code item = None
   \/ String.length (MatchExcelEngine.Item.state item) = 2
      /\ isalpha (MatchExcelEngine.Item.state item) = true
      /\ MatchExcelEngine.Item.state_code item
         = Some (upper (MatchExcelEngine.Item.state item)))
  /\ (MatchExcelEngine.Item.country_code item = None
      <-> MatchExcelEngine.Item.country item = "")
  /\ (MatchExcelEngine.unresolvable item = true <->
      MatchExcelEngine.Item.city_norm item = ""
      \/ MatchExcelEngine.Item.country item = "").
Proof. apply scraped_record_shape. Qed.

(** X9.  In [match_EXCEL.py] a page whose address has fewer than two
    non-empty comma-separated segments never gets an outcome, whatever its
    name and whatever the registry: its city is empty. *)
Theorem short_address_dropped
    (token_set_ratio : string -> string -> Q) (df_master : list Master.row)
    (name address href : string) :
  length (MatchExcel.address_parts address) < 2 ->
  MatchExcelEngine.match_hotels token_set_ratio
    [Some (MatchExcelEngine.scrape_single_hotel name address href)] df_master = [].
Proof.
  intros Hlen.
  assert (Hcity : MatchExcelEngine.Item.city_norm
                    (MatchExcelEngine.scrape_single_hotel name address href) = "").
  { unfold MatchExcelEngine.scrape_single_hotel.
    rewrite parse_address_components_cases.
    rewrite <- length_rev in Hlen.
    destruct (rev (MatchExcel.address_parts address)) as [|c [|p2 r]];
      [reflexivity | reflexivity | cbn in Hlen; lia]. }
  unfold MatchExcelEngine.match_hotels.
  cbn [flat_map MatchExcelEngine.match_item].
  unfold MatchExcelEngine.unresolvable. now rewrite Hcity.
Qed.

Lemma short_address_dropped_witness :
  MatchExcelEngine.match_hotels Sample.ratio
    [Some (MatchExcelEngine.scrape_single_hotel "Hilton Paris Opera" "France"
             "https://www.hilton.com/en/hotels/parop/")] Sample.df_master = [].
Proof.
  apply short_address_dropped. vm_compute. lia.
Defined.

(** X10.  In [main.py] a page whose address has fewer than four
    comma-separated parts (fewer than three commas) never gets an outcome:
    the city is the fourth part from the end, so an address such as
    "Seattle, WA 98101, United States" has no city. *)
Theorem main_short_address_dropped
    (token_set_ratio : string -> string -> Q) (df_master : list Master.row)
    (name address url : string) :
  length (split "," address) < 4 ->
  MainEngine.match_hotels token_set_ratio
    [MainEngine.scrape_single_hotel name address url] df_master = [].
Proof.
  intros Hlen.
  assert (Hcity : MainEngine.Item.city (MainEngine.scrape_single_hotel name address url) = "").
  { unfold MainEngine.scrape_single_hotel, Main.parse_address_components.
    cbn [MainEngine.Item.city]. rewrite length_map.
    destruct (Nat.leb_spec 4 (length (split "," address))); [lia | reflexivity]. }
  unfold MainEngine.match_hotels. cbn [flat_map].
  unfold MainEngine.match_item. now rewrite Hcity.
Qed.

Lemma main_short_address_dropped_witness :
  MainEngine.match_hotels Sample.ratio
    [MainEngine.scrape_single_hotel "Hilton Seattle Downtown"
       "Seattle, WA 98101, United States" "https://www.hilton.com/en/hotels/seadt/"]
    Sample.main_df_master = [].
Proof.
  apply main_short_address_dropped. vm_compute. lia.
Defined.

(** ** Candidates and geography *)

Section CandidateFacts.
Import MatchExcelEngine.

Lemma eq_code_true (cell : string) (o : option string) :
  eq_code cell o = true <-> o = Some cell.
Proof.
  destruct o as [s|]; cbn [eq_code]; [|split; discriminate].
  rewrite String.eqb_eq. split; [now intros -> | now intros [= ->]].
Qed.

(** The candidates are the registry rows of the record's city and country,
    and of its state when it has one. *)
Lemma in_candidates_for (item : Item.t) (df_master : list Master.row) (row : Master.row) :
  In row (candidates_for item df_master) <->
  In row df_master
  /\ Master.city_norm row = Item.city_norm item
  /\ Item.country_code item = Some (Master.country_code row)
  /\ (some_text (Item.state_code item) = true ->
      Item.state_code item = Some (Master.state_code row)).
Proof.
  unfold candidates_for.
  destruct (some_text (Item.state_code item)) eqn:Es.
  - rewrite !filter_In, andb_true_iff, String.eqb_eq, !eq_code_true. tauto.
  - rewrite filter_In, andb_true_iff, String.eqb_eq, eq_code_true.
    split; [|tauto]. intros (H1 & H2 & H3). repeat split; auto. discriminate.
Qed.

End CandidateFacts.

(** X11.  A match of [match_EXCEL.py] never crosses geography, and is the
    best of its geography: an outcome with a [hotel_code] comes from a
    discovered record and a registry row that have the same city key and
    the same country code, and the same state code when the record has one;
    the outcome carries that row's identifier, name, latitude and
    longitude; and no registry row of that city, country and state scores
    higher against the record's name. *)
Theorem match_respects_geography
    (token_set_ratio : string -> string -> Q) (df_master : list Master.row)
    (items : list (option MatchExcelEngine.Item.t)) (o : MatchExcelEngine.Out.t) :
  In o (MatchExcelEngine.match_hotels token_set_ratio items df_master) ->
  MatchExcelEngine.Out.hotel_code o <> None ->
  exists item row,
    In (Some item) items /\ In row df_master
    /\ Master.city_norm row = MatchExcelEngine.Item.city_norm item
    /\ MatchExcelEngine.Item.country_code item = Some (Master.country_code row)
    /\ (MatchExcelEngine.some_text (MatchExcelEngine.Item.state_code item) = true ->
        MatchExcelEngine.Item.state_code item = Some (Master.state_code row))
    /\ MatchExcelEngine.Out.hotel_code o = Some (Raw.Global_Property_ID (Master.raw row))
    /\ MatchExcelEngine.Out.global_property_name o
       = Some (Raw.Global_Property_Name (Master.raw row))
    /\ MatchExcelEngine.Out.latitude o = Some (Raw.Property_Latitude (Master.raw row))
    /\ MatchExcelEngine.Out.longitude o = Some (Raw.Property_Longitude (Master.raw row))
    /\ MatchExcelEngine.Out.url o = MatchExcelEngine.Item.url item
    /\ (forall r, In r df_master ->
          Master.city_norm r = MatchExcelEngine.Item.city_norm item ->
          MatchExcelEngine.Item.country_code item = Some (Master.country_code r) ->
          (MatchExcelEngine.some_text (MatchExcelEngine.Item.state_code item) = true ->
           MatchExcelEngine.Item.state_code item = Some (Master.state_code r)) ->
          (score_of token_set_ratio (MatchExcelEngine.Item.hotel_norm item) r
           <= score_of token_set_ratio (MatchExcelEngine.Item.hotel_norm item) row)%Q).
Proof.
  intros Ho Hcode.
  apply in_match_hotels in Ho as (item & Hin & _ & ->).
  destruct (decide_match_cases token_set_ratio item
              (MatchExcelEngine.candidates_for item df_master))
    as [(w & Hw & E & _ & Hall) | [E _]]; rewrite E in *; [|now elim Hcode].
  apply in_candidates_for in Hw as (Hdf & Hcity & Hcountry & Hstate).
  exists item, w. cbn. repeat split; auto.
  intros r Hr H1 H2 H3. rewrite List.Forall_forall in Hall. apply Hall.
  apply in_candidates_for. auto.
Qed.

Lemma match_respects_geography_witness :
  exists item row,
    In (Some item) [Some Sample.seattle_page] /\ In row Sample.df_master
    /\ Master.city_norm row = MatchExcelEngine.Item.city_norm item
    /\ MatchExcelEngine.Out.hotel_code Sample.seattle_outcome
       = Some (Raw.Global_Property_ID (Master.raw row)).
Proof.
  destruct (match_respects_geography Sample.ratio Sample.df_master
              [Some Sample.seattle_page] Sample.seattle_outcome)
    as (item & row & H1 & H2 & H3 & _ & _ & H6 & _).
  - vm_compute. left. reflexivity.
  - vm_compute. discriminate.
  - exists item, row. auto.
Defined.

(** X12.  In [match_EXCEL.py] the registry's country column is upper-cased
    and trimmed but not passed through [country_to_code], while a
    discovered country is.  A registry row whose country cell reads USA,
    United States, U.S. or U.S.A. (in any letter case) is therefore never a
    candidate for any scraped page: only the spelling US meets the
    discovered code. *)
Theorem spelled_out_country_never_candidate
    (excel : list Raw.row) (r : Raw.row) (name address href : string) :
  In (strip (upper (str (Raw.Property_Country_Code r))))
     ["USA"; "UNITED STATES"; "U.S."; "U.S.A."] ->
  ~ In (MatchExcelEngine.load_row r)
       (MatchExcelEngine.candidates_for
          (MatchExcelEngine.scrape_single_hotel name address href)
          (MatchExcelEngine.load_csl_hotels excel)).
Proof.
  intros Hspelled Hin.
  apply in_candidates_for in Hin as (_ & _ & Hcountry & _).
  unfold MatchExcelEngine.scrape_single_hotel in Hcountry.
  destruct (MatchExcel.parse_address_components address) as [[city state] country].
  cbn [MatchExcelEngine.Item.country_code] in Hcountry.
  apply country_code_canonical_form in Hcountry as (_ & _ & _ & Hnot & _).
  now apply Hnot.
Qed.

Lemma spelled_out_country_never_candidate_witness :
  ~ In (MatchExcelEngine.load_row
          (Raw.mk "SEADT" (PyStr "Hilton Seattle Downtown") (PyStr "Seattle")
                  (PyStr "WA") (PyStr "usa") (Num 0) (Num 0)))
       (MatchExcelEngine.candidates_for Sample.seattle_page
          (MatchExcelEngine.load_csl_hotels
             [Raw.mk "SEADT" (PyStr "Hilton Seattle Downtown") (PyStr "Seattle")
                     (PyStr "WA") (PyStr "usa") (Num 0) (Num 0)])).
Proof.
  apply (spelled_out_country_never_candidate _ _ "Hilton Seattle Downtown"
           "Seattle, WA 98101, United States" "https://www.hilton.com/en/hotels/seadt/").
  vm_compute. tauto.
Defined.



(** ** Outcomes and records *)

Section OutcomeFacts.

Variable token_set_ratio : string -> string -> Q.

Lemma decide_match_copies (item : MatchExcelEngine.Item.t) (candidates : list Master.row) :
  excel_outcome_fields (MatchExcelEngine.decide_match token_set_ratio item candidates)
  = excel_item_fields item.
Proof.
  destruct (decide_match_cases token_set_ratio item candidates)
    as [(w & _ & -> & _) | [-> _]]; reflexivity.
Qed.

Lemma main_decide_match_copies (item : MainEngine.Item.t) (item_hotel : string)
    (candidates : list Master.row) :
  main_outcome_fields (MainEngine.decide_match token_set_ratio item item_hotel candidates)
  = main_item_fields item.
Proof.
  destruct (main_decide_match_cases token_set_ratio item item_hotel candidates)
    as [(w & _ & -> & _) | [-> _]]; reflexivity.
Qed.

End OutcomeFacts.

(** X14.  [match_hotels], in either file, gives one outcome for each record
    that passes the guard, in the order of the records, and every outcome,
    matched or not, carries the url, name, address, city, state and country
    of its record unchanged; so there are never more outcomes than
    records. *)
Theorem outcomes_follow_records
    (token_set_ratio : string -> string -> Q) (df_master : list Master.row) :
  (forall items : list (option MatchExcelEngine.Item.t),
      map excel_outcome_fields
          (MatchExcelEngine.match_hotels token_set_ratio items df_master)
      = map excel_item_fields (excel_resolvable items)
      /\ length (MatchExcelEngine.match_hotels token_set_ratio items df_master)
         <= length items)
  /\ (forall items : list MainEngine.Item.t,
      map main_outcome_fields (MainEngine.match_hotels token_set_ratio items df_master)
      = map main_item_fields (main_resolvable items)
      /\ length (MainEngine.match_hotels token_set_ratio items df_master)
         <= length items).
Proof.
  assert (Hexcel : forall items : list (option MatchExcelEngine.Item.t),
      map excel_outcome_fields
          (MatchExcelEngine.match_hotels token_set_ratio items df_master)
      = map excel_item_fields (excel_resolvable items)).
  { intros items. unfold MatchExcelEngine.match_hotels, excel_resolvable.
    induction items as [|it items IH]; [reflexivity|].
    cbn [flat_map]. rewrite !map_app, IH. f_equal.
    destruct it as [item|]; cbn [MatchExcelEngine.match_item]; [|reflexivity].
    destruct (MatchExcelEngine.unresolvable item); [reflexivity|].
    cbn [map]. now rewrite decide_match_copies. }
  assert (Hmain : forall items : list MainEngine.Item.t,
      map main_outcome_fields (MainEngine.match_hotels token_set_ratio items df_master)
      = map main_item_fields (main_resolvable items)).
  { intros items. unfold MainEngine.match_hotels, main_resolvable.
    induction items as [|item items IH]; [reflexivity|].
    cbn [flat_map List.filter]. rewrite map_app, IH.
    unfold MainEngine.match_item.
    destruct (String.eqb (Main.normalize_text (PyStr (MainEngine.Item.city item))) "");
      cbn [orb negb andb]; [reflexivity|].
    destruct (MatchExcelEngine.some_text
                (Main.country_to_code (PyStr (MainEngine.Item.country item))));
      cbn [negb]; [|reflexivity].
    cbn [map app]. now rewrite main_decide_match_copies. }
  split; intros items; (split; [auto|]).
  - rewrite <- (length_map excel_outcome_fields), Hexcel, length_map.
    unfold excel_resolvable. induction items as [|it items IH]; [cbn; lia|].
    cbn [flat_map]. rewrite length_app. cbn [length].
    destruct it as [item|]; [destruct (MatchExcelEngine.unresolvable item)|];
      cbn [length]; lia.
  - rewrite <- (length_map main_outcome_fields), Hmain, length_map.
    apply filter_length_le.
Qed.

(** ** Retries and page scraping *)

Section ScraperFacts.
Import Scraper.

Variables B I : Type.
Variable get : string -> B -> result unit * B.
Variable wait_ready : B -> result unit * B.
Variable h1_text : B -> result string * B.
Variable address_text : B -> result string * B.
Variable hotel_links : B -> result (list string) * B.

Local Abbreviation scrape :=
  (scrape_single_hotel B I get wait_ready h1_text address_text).
Local Abbreviation links_loop :=
  (for_each_link B I get wait_ready h1_text address_text).

Ltac break_matches :=
  repeat match goal with
         | |- context [match ?x with _ => _ end] => destruct x eqn:?
         end.

Lemma retry_attempts_ok {A} (announce : bool) (action : M (world B I) A)
    (retries delay : nat) (remaining : nat) :
  forall (i : nat) (w : world B I),
    exists r w', retry_attempts B I announce action retries delay i remaining w
                 = (Ok r, w').
Proof.
  induction remaining as [|k IH]; intros i w.
  - cbn [retry_attempts]. destruct announce; eexists; eexists; reflexivity.
  - cbn [retry_attempts]. unfold try_except, bind at 1.
    destruct (action w) as [[a|e] w1].
    + eexists; eexists; reflexivity.
    + unfold bind, print, sleep. apply IH.
Qed.

Lemma retry_first_success {A} (announce : bool) (action : M (world B I) A)
    (retries delay i k : nat) (w w' : world B I) (a : A) :
  action w = (Ok a, w') ->
  retry_attempts B I announce action retries delay i (S k) w = (Ok (Some a), w').
Proof.
  intros H. cbn [retry_attempts]. unfold try_except, bind, ret. now rewrite H.
Qed.

Lemma retry_action_first_success {A} (announce : bool) (action : M (world B I) A)
    (delay : nat) (w w' : world B I) (a : A) :
  action w = (Ok a, w') ->
  retry_action B I announce action RETRY_LIMIT delay w = (Ok (Some a), w').
Proof.
  intros H. exact (retry_first_success announce action RETRY_LIMIT delay 0 2 w w' a H).
Qed.

(** The lines of attempts [i+1 .. i+n] that failed. *)
Lemma retry_attempts_all_fail {A} (announce : bool) (call : B -> result A * B)
    (retries delay : nat) :
  (forall b, exists e b', call b = (Raise e, b')) ->
  forall (remaining i : nat) (w : world B I),
    exists lines w',
      retry_attempts B I announce (driver B I call) retries delay i remaining w
      = (Ok None, w')
      /\ console w' = console w ++ lines
                      ++ (if announce then [MaxRetriesReached] else [])
      /\ map (fun l => match l with
                       | RetryFailed a n _ => Some (a, n)
                       | _ => None
                       end) lines
         = map (fun a => Some (a, retries)) (seq (S i) remaining)
      /\ slept w' = slept w + remaining * delay
      /\ results w' = results w.
Proof.
  intros Hfail. induction remaining as [|k IH]; intros i w.
  - exists [], (if announce
                then {| browser := browser w; console := console w ++ [MaxRetriesReached];
                        slept := slept w; results := results w |}
                else w).
    cbn [retry_attempts]. destruct announce; cbn;
      repeat split; auto; try lia; now rewrite ?app_nil_r.
  - cbn [retry_attempts]. unfold try_except, bind at 1, driver at 1.
    destruct (Hfail (browser w)) as (e & b' & Hcall). rewrite Hcall.
    unfold bind, print, sleep.
    match goal with
    | |- context [retry_attempts _ _ _ _ _ _ _ _ ?w1] =>
        destruct (IH (S i) w1) as (lines & w' & E & Hc & Hl & Hs & Hr)
    end.
    exists (RetryFailed (S i) retries e :: lines), w'.
    split; [exact E|]. cbn [console slept results] in Hc, Hs, Hr.
    split; [rewrite Hc, <- !app_assoc; reflexivity|].
    split; [cbn [map seq]; now rewrite Hl|].
    split; [rewrite Hs; cbn; lia | exact Hr].
Qed.

Lemma keeps_ret {A} (a : A) : keeps_results (ret (S := world B I) a).
Proof. intros w r w' [= _ <-]. reflexivity. Qed.

Lemma keeps_bind {A C} (m : M (world B I) A) (k : A -> M (world B I) C) :
  keeps_results m -> (forall a, keeps_results (k a)) -> keeps_results (bind m k).
Proof.
  intros Hm Hk w r w'. unfold bind.
  destruct (m w) as [[a|e] w1] eqn:E.
  - intros H. rewrite (Hk a _ _ _ H). exact (Hm _ _ _ E).
  - intros [= _ <-]. exact (Hm _ _ _ E).
Qed.

Lemma keeps_try_except {A} (m : M (world B I) A) (h : string -> M (world B I) A) :
  keeps_results m -> (forall e, keeps_results (h e)) -> keeps_results (try_except m h).
Proof.
  intros Hm Hh w r w'. unfold try_except.
  destruct (m w) as [[a|e] w1] eqn:E.
  - intros [= _ <-]. exact (Hm _ _ _ E).
  - intros H. rewrite (Hh e _ _ _ H). exact (Hm _ _ _ E).
Qed.

Lemma keeps_try_except_only {A} (cls : string) (m h : M (world B I) A) :
  keeps_results m -> keeps_results h -> keeps_results (try_except_only cls m h).
Proof.
  intros Hm Hh w r w'. unfold try_except_only.
  destruct (m w) as [[a|e] w1] eqn:E.
  - intros [= _ <-]. exact (Hm _ _ _ E).
  - destruct (String.eqb e cls).
    + intros H. rewrite (Hh _ _ _ H). exact (Hm _ _ _ E).
    + intros [= _ <-]. exact (Hm _ _ _ E).
Qed.

Lemma keeps_driver {A} (call : B -> result A * B) : keeps_results (driver B I call).
Proof.
  intros w r w'. unfold driver. destruct (call (browser w)).
  intros [= _ <-]. reflexivity.
Qed.

Lemma keeps_sleep (n : nat) : keeps_results (sleep B I n).
Proof. intros w r w' [= _ <-]. reflexivity. Qed.

Lemma keeps_print (l : line) : keeps_results (print B I l).
Proof. intros w r w' [= _ <-]. reflexivity. Qed.

Lemma keeps_scrape (announce : bool)
    (build : string -> string -> string -> I) (href : string) :
  keeps_results (scrape announce build href).
Proof.
  unfold scrape_single_hotel, scrape_page, fetch_property_details.
  repeat first
    [ apply keeps_try_except_only | apply keeps_try_except | apply keeps_bind
    | apply keeps_driver | apply keeps_sleep | apply keeps_print | apply keeps_ret
    | match goal with |- forall _, _ => intro end
    | match goal with |- context [if announce then _ else _] => destruct announce end ].
Qed.

(** [scrape_single_hotel] catches whatever the page raises. *)
Lemma scrape_single_hotel_ok (announce : bool)
    (build : string -> string -> string -> I) (href : string) (w : world B I) :
  exists r w', scrape announce build href w = (Ok r, w')
               /\ results w' = results w.
Proof.
  pose proof (keeps_scrape announce build href w) as Hkeep.
  unfold scrape_single_hotel, try_except in *.
  destruct (scrape_page B I get wait_ready h1_text address_text build href w)
    as [[r|e] w1].
  - exists r, w1. split; [reflexivity | now apply (Hkeep (Ok r))].
  - destruct announce.
    + eexists; eexists. split; [reflexivity|]. eapply Hkeep. reflexivity.
    + eexists; eexists. split; [reflexivity|]. eapply Hkeep. reflexivity.
Qed.

Lemma for_each_link_ok (announce : bool) (build : string -> string -> string -> I)
    (links : list string) :
  forall w : world B I,
    exists w' added,
      links_loop announce build links w = (Ok tt, w')
      /\ results w' = results w ++ added
      /\ length added <= length links.
Proof.
  induction links as [|href rest IH]; intros w.
  - exists w, []. cbn. rewrite app_nil_r. repeat split; lia.
  - cbn [for_each_link]. unfold bind at 1.
    destruct (scrape_single_hotel_ok announce build href w) as (r & w1 & E & Hr).
    rewrite (retry_action_first_success announce _ 2 w w1 r E).
    unfold bind at 1.
    destruct r as [data|].
    + unfold results_append at 1.
      match goal with
      | |- context [links_loop _ _ rest ?w2] =>
          destruct (IH w2) as (w' & added & E' & Hr' & Hlen)
      end.
      exists w', (data :: added). split; [exact E'|].
      cbn [results] in Hr'. rewrite Hr', Hr, <- app_assoc.
      split; [reflexivity | cbn; lia].
    + unfold ret at 1.
      destruct (IH w1) as (w' & added & E' & Hr' & Hlen).
      exists w', added. split; [exact E'|].
      rewrite Hr', Hr. split; [reflexivity | cbn; lia].
Qed.

End ScraperFacts.

(** X15.  [retry_action], in either file, never raises, whatever the action
    does and however many attempts are allowed: every exception of the
    action is caught, and the call ends with the action's value or with
    [None]. *)
Theorem retry_action_never_raises (B I A : Type) (announce : bool)
    (action : M (Scraper.world B I) A) (retries delay : nat) (w : Scraper.world B I) :
  exists r w', Scraper.retry_action B I announce action retries delay w = (Ok r, w').
Proof. apply retry_attempts_ok. Qed.

(** X16.  When a driver call raises at every attempt, [retry_action] makes
    exactly [retries] attempts and then returns [None]: it prints one
    "Retry i/retries failed" line per attempt, numbered from 1, sleeps
    [delay] seconds after each (the last one included), and, in
    [match_EXCEL.py] only, prints "Max retries reached". *)
Theorem retry_action_gives_up (B I A : Type) (announce : bool)
    (call : B -> result A * B) (retries delay : nat) (w : Scraper.world B I) :
  (forall b, exists e b', call b = (Raise e, b')) ->
  exists lines w',
    Scraper.retry_action B I announce (Scraper.driver B I call) retries delay w
    = (Ok None, w')
    /\ Scraper.console w'
       = Scraper.console w ++ lines
         ++ (if announce then [Scraper.MaxRetriesReached] else [])
    /\ map (fun l => match l with
                     | Scraper.RetryFailed a n _ => Some (a, n)
                     | _ => None
                     end) lines
       = map (fun a => Some (a, retries)) (seq 1 retries)
    /\ Scraper.slept w' = Scraper.slept w + retries * delay.
Proof.
  intros Hfail.
  destruct (retry_attempts_all_fail B I announce call retries delay Hfail retries 0 w)
    as (lines & w' & E & Hc & Hl & Hs & _).
  exists lines, w'. auto.
Qed.

Lemma retry_action_gives_up_witness :
  exists lines w',
    Scraper.retry_action unit unit true
      (Scraper.driver unit unit (fun b => (Raise (A := unit) "TimeoutException", b)))
      Scraper.RETRY_LIMIT 2 (Scraper.mk tt [] 0 [])
    = (Ok None, w')
    /\ Scraper.console w' = [] ++ lines ++ [Scraper.MaxRetriesReached]
    /\ Scraper.slept w' = 0 + Scraper.RETRY_LIMIT * 2.
Proof.
  destruct (retry_action_gives_up unit unit unit true
              (fun b => (Raise "TimeoutException", b)) Scraper.RETRY_LIMIT 2
              (Scraper.mk tt [] 0 []))
    as (lines & w' & E & Hc & _ & Hs).
  - intros b. now exists "TimeoutException", b.
  - exists lines, w'. auto.
Defined.

(** X17.  [scrape_single_hotel], in either file, never raises: whatever the
    page does, it returns a record or [None].  So the [retry_action] that
    [scrape_hotels_from_location] wraps around it always ends at the first
    attempt, with that result and in that state: a hotel page is never
    scraped twice, and no retry line is printed for it. *)
Theorem hotel_page_never_retried (B I : Type)
    (get : string -> B -> result unit * B) (wait_ready : B -> result unit * B)
    (h1_text address_text : B -> result string * B)
    (announce : bool) (build : string -> string -> string -> I)
    (href : string) (w : Scraper.world B I) :
  exists r w',
    Scraper.scrape_single_hotel B I get wait_ready h1_text address_text
      announce build href w = (Ok r, w')
    /\ Scraper.retry_action B I announce
         (Scraper.scrape_single_hotel B I get wait_ready h1_text address_text
            announce build href)
         Scraper.RETRY_LIMIT 2 w
       = (Ok (Some r), w').
Proof.
  destruct (scrape_single_hotel_ok B I get wait_ready h1_text address_text
              announce build href w) as (r & w' & E & _).
  exists r, w'. split; [exact E|].
  now apply retry_action_first_success.
Qed.

(** X18.  [scrape_hotels_from_location] of [match_EXCEL.py] never raises.
    It returns at most one record for each link found, and when the first
    call to the driver fails it prints the failure and returns the empty
    list. *)
Theorem excel_location_scrape_never_raises (B I : Type)
    (get : string -> B -> result unit * B) (wait_ready : B -> result unit * B)
    (h1_text address_text : B -> result string * B)
    (hotel_links : B -> result (list string) * B)
    (build : string -> string -> string -> I) (url : string) (w : Scraper.world B I) :
  exists rs w',
    Scraper.excel_scrape_hotels_from_location B I get wait_ready h1_text address_text
      hotel_links build url w = (Ok rs, w')
    /\ (forall e b, get url (Scraper.browser w) = (Raise e, b) ->
        rs = [] /\ In (Scraper.FailedLocation url e) (Scraper.console w'))
    /\ (forall b1 b2 b3 links,
          get url (Scraper.browser w) = (Ok tt, b1) ->
          wait_ready b1 = (Ok tt, b2) ->
          hotel_links b2 = (Ok links, b3) ->
          length rs <= length links).
Proof.
  unfold Scraper.excel_scrape_hotels_from_location, bind at 1, Scraper.results_clear.
  unfold bind at 1, try_except, Scraper.results_get.
  set (w0 := {| Scraper.browser := Scraper.browser w; Scraper.console := Scraper.console w;
                Scraper.slept := Scraper.slept w; Scraper.results := [] |}).
  destruct (Scraper.visit_location B I get wait_ready h1_text address_text hotel_links
              true build url w0) as [[[]|e0] w1] eqn:Ev.
  - exists (Scraper.results w1), w1. split; [reflexivity|]. split.
    + intros e b Hget. exfalso.
      unfold Scraper.visit_location, bind at 1, Scraper.driver at 1 in Ev.
      cbn [Scraper.browser w0] in Ev. rewrite Hget in Ev. discriminate.
    + intros b1 b2 b3 links Hget Hwait Hlinks.
      unfold Scraper.visit_location, bind, Scraper.driver, Scraper.sleep in Ev.
      cbn [Scraper.browser Scraper.console Scraper.slept Scraper.results w0] in Ev.
      rewrite Hget in Ev. cbn [Scraper.browser] in Ev. rewrite Hwait in Ev.
      cbn [Scraper.browser] in Ev. rewrite Hlinks in Ev.
      match type of Ev with
      | Scraper.for_each_link _ _ _ _ _ _ _ _ _ ?w2 = _ =>
          destruct (for_each_link_ok B I get wait_ready h1_text address_text
                      true build links w2) as (w' & added & E' & Hr & Hlen)
      end.
      rewrite E' in Ev. injection Ev as <-. rewrite Hr. cbn. exact Hlen.
  - unfold Scraper.print.
    eexists; eexists. split; [reflexivity|]. split.
    + intros e b Hget.
      unfold Scraper.visit_location, bind at 1, Scraper.driver at 1 in Ev.
      cbn [Scraper.browser w0] in Ev. rewrite Hget in Ev.
      injection Ev as <- <-. cbn. split; [reflexivity|].
      apply in_or_app. right. now left.
    + intros b1 b2 b3 links Hget Hwait Hlinks. exfalso.
      unfold Scraper.visit_location, bind, Scraper.driver, Scraper.sleep in Ev.
      cbn [Scraper.browser Scraper.console Scraper.slept Scraper.results w0] in Ev.
      rewrite Hget in Ev. cbn [Scraper.browser] in Ev. rewrite Hwait in Ev.
      cbn [Scraper.browser] in Ev. rewrite Hlinks in Ev.
      match type of Ev with
      | Scraper.for_each_link _ _ _ _ _ _ _ _ _ ?w2 = _ =>
          destruct (for_each_link_ok B I get wait_ready h1_text address_text
                      true build links w2) as (w' & added & E' & _)
      end.
      rewrite E' in Ev. discriminate.
Qed.

Lemma excel_location_scrape_never_raises_witness :
  exists rs w',
    Scraper.excel_scrape_hotels_from_location unit MatchExcelEngine.Item.t
      (fun _ b => (Raise "WebDriverException", b)) (fun b => (Ok tt, b))
      (fun b => (Ok "", b)) (fun b => (Ok "", b)) (fun b => (Ok [], b))
      MatchExcelEngine.scrape_single_hotel
      "https://www.hilton.com/en/locations/france/paris/" (Scraper.mk tt [] 0 [])
    = (Ok rs, w')
    /\ rs = [].
Proof.
  destruct (excel_location_scrape_never_raises unit MatchExcelEngine.Item.t
              (fun _ b => (Raise "WebDriverException", b)) (fun b => (Ok tt, b))
              (fun b => (Ok "", b)) (fun b => (Ok "", b)) (fun b => (Ok [], b))
              MatchExcelEngine.scrape_single_hotel
              "https://www.hilton.com/en/locations/france/paris/" (Scraper.mk tt [] 0 []))
    as (rs & w' & E & Hfail & _).
  exists rs, w'. split; [exact E|].
  apply (Hfail "WebDriverException" tt). reflexivity.
Defined.

(** X19.  [scrape_hotels_from_location] of [main.py] raises exactly when
    the location page itself fails, that is when loading it, waiting for
    it or collecting its links raises.  Once the links are collected it
    returns, with at most one record per link, whatever the hotel pages
    do. *)
Theorem main_location_scrape_raises_before_links (B I : Type)
    (get : string -> B -> result unit * B) (wait_ready : B -> result unit * B)
    (h1_text address_text : B -> result string * B)
    (hotel_links : B -> result (list string) * B)
    (build : string -> string -> string -> I) (url : string) (w : Scraper.world B I) :
  let scrape_location :=
    Scraper.main_scrape_hotels_from_location B I get wait_ready h1_text address_text
      hotel_links build url in
  (forall e b, get url (Scraper.browser w) = (Raise e, b) ->
      exists w', scrape_location w = (Raise e, w'))
  /\ (forall b1 e b2,
        get url (Scraper.browser w) = (Ok tt, b1) ->
        wait_ready b1 = (Raise e, b2) ->
        exists w', scrape_location w = (Raise e, w'))
  /\ (forall b1 b2 e b3,
        get url (Scraper.browser w) = (Ok tt, b1) ->
        wait_ready b1 = (Ok tt, b2) ->
        hotel_links b2 = (Raise e, b3) ->
        exists w', scrape_location w = (Raise e, w'))
  /\ (forall b1 b2 b3 links,
        get url (Scraper.browser w) = (Ok tt, b1) ->
        wait_ready b1 = (Ok tt, b2) ->
        hotel_links b2 = (Ok links, b3) ->
        exists rs w', scrape_location w = (Ok rs, w') /\ length rs <= length links).
Proof.
  cbv zeta.
  unfold Scraper.main_scrape_hotels_from_location, Scraper.visit_location,
    Scraper.results_clear, Scraper.results_get.
  split; [|split; [|split]].
  - intros e b Hget. unfold bind, Scraper.driver.
    cbn [Scraper.browser]. rewrite Hget. eexists. reflexivity.
  - intros b1 e b2 Hget Hwait. unfold bind, Scraper.driver.
    cbn [Scraper.browser]. rewrite Hget. cbn [Scraper.browser]. rewrite Hwait.
    eexists. reflexivity.
  - intros b1 b2 e b3 Hget Hwait Hlinks. unfold bind, Scraper.driver, Scraper.sleep.
    cbn [Scraper.browser]. rewrite Hget. cbn [Scraper.browser]. rewrite Hwait.
    cbn [Scraper.browser]. rewrite Hlinks. eexists. reflexivity.
  - intros b1 b2 b3 links Hget Hwait Hlinks. unfold bind, Scraper.driver, Scraper.sleep.
    cbn [Scraper.browser Scraper.console Scraper.slept Scraper.results].
    rewrite Hget. cbn [Scraper.browser]. rewrite Hwait.
    cbn [Scraper.browser]. rewrite Hlinks.
    match goal with
    | |- context [Scraper.for_each_link _ _ _ _ _ _ _ _ _ ?w2] =>
        destruct (for_each_link_ok B I get wait_ready h1_text address_text
                    false build links w2) as (w' & added & E' & Hr & Hlen)
    end.
    rewrite E'. exists (Scraper.results w'), w'. split; [reflexivity|].
    rewrite Hr. cbn. exact Hlen.
Qed.

Lemma main_location_scrape_raises_before_links_witness :
  exists w',
    Scraper.main_scrape_hotels_from_location unit MainEngine.Item.t
      (fun _ b => (Raise "WebDriverException", b)) (fun b => (Ok tt, b))
      (fun b => (Ok "", b)) (fun b => (Ok "", b)) (fun b => (Ok [], b))
      MainEngine.scrape_single_hotel
      "https://www.hilton.com/en/locations/france/paris/" (Scraper.mk tt [] 0 [])
    = (Raise "WebDriverException", w').
Proof.
  destruct (main_location_scrape_raises_before_links unit MainEngine.Item.t
              (fun _ b => (Raise "WebDriverException", b)) (fun b => (Ok tt, b))
              (fun b => (Ok "", b)) (fun b => (Ok "", b)) (fun b => (Ok [], b))
              MainEngine.scrape_single_hotel
              "https://www.hilton.com/en/locations/france/paris/" (Scraper.mk tt [] 0 []))
    as (Hget & _).
  apply (Hget "WebDriverException" tt). reflexivity.
Defined.

(** X20.  When the address element of a hotel page never shows up (the
    wait times out), [scrape_single_hotel] of [match_EXCEL.py] still
    returns a record if the page loaded, but with an empty address, and
    [match_hotels] drops that record: the page leaves no outcome, matched
    or not. *)
Theorem address_timeout_leaves_no_outcome (B : Type)
    (get : string -> B -> result unit * B) (wait_ready : B -> result unit * B)
    (h1_text address_text : B -> result string * B)
    (href : string) (w w' : Scraper.world B MatchExcelEngine.Item.t)
    (item : MatchExcelEngine.Item.t) :
  (forall b, exists b', address_text b = (Raise "TimeoutException", b')) ->
  Scraper.scrape_single_hotel B MatchExcelEngine.Item.t get wait_ready h1_text
    address_text true MatchExcelEngine.scrape_single_hotel href w = (Ok (Some item), w') ->
  MatchExcelEngine.Item.address item = ""
  /\ forall (token_set_ratio : string -> string -> Q) (df_master : list Master.row),
       MatchExcelEngine.match_hotels token_set_ratio [Some item] df_master = [].
Proof.
  intros Hfail.
  unfold Scraper.scrape_single_hotel, try_except.
  destruct (Scraper.scrape_page B MatchExcelEngine.Item.t get wait_ready h1_text
              address_text MatchExcelEngine.scrape_single_hotel href w)
    as [[r|e] w1] eqn:Ep; [|intros H; discriminate H].
  intros [= -> ->].
  assert (Hitem : exists name, item = MatchExcelEngine.scrape_single_hotel name "" href).
  { unfold Scraper.scrape_page, Scraper.fetch_property_details, bind, Scraper.driver,
      Scraper.sleep, Scraper.try_except_only, ret in Ep.
    cbn [Scraper.browser Scraper.console Scraper.slept Scraper.results] in Ep.
    destruct (get href (Scraper.browser w)) as [[[]|e] b1]; [|discriminate].
    cbn [Scraper.browser] in Ep.
    destruct (wait_ready b1) as [[[]|e] b2]; [|discriminate].
    cbn [Scraper.browser] in Ep.
    destruct (h1_text b2) as [[t|e] b3]; cbn [Scraper.browser] in Ep.
    - destruct (Hfail b3) as (b4 & Ha). rewrite Ha in Ep. cbn in Ep.
      injection Ep as <- _. now exists (strip t).
    - destruct (String.eqb e "TimeoutException"); [|discriminate].
      cbn [Scraper.browser] in Ep.
      destruct (Hfail b3) as (b4 & Ha). rewrite Ha in Ep. cbn in Ep.
      injection Ep as <- _. now exists "". }
  destruct Hitem as (name & ->). split; reflexivity.
Qed.

Lemma address_timeout_leaves_no_outcome_witness :
  MatchExcelEngine.match_hotels Sample.ratio
    [Some (MatchExcelEngine.scrape_single_hotel "Hilton Paris Opera" ""
             "https://www.hilton.com/en/hotels/parop/")] Sample.df_master = [].
Proof.
  apply (address_timeout_leaves_no_outcome unit
           (fun _ b => (Ok tt, b)) (fun b => (Ok tt, b))
           (fun b => (Ok " Hilton Paris Opera ", b))
           (fun b => (Raise "TimeoutException", b))
           "https://www.hilton.com/en/hotels/parop/"
           (Scraper.mk tt [] 0 []) (Scraper.mk tt [] 1 [])).
  - intros b. now exists b.
  - reflexivity.
Defined.

(** ** The table *)

Section TableFacts.
Import MatchExcelEngine MatchExcelRun.

Variable nulls_distinct : bool.

Local Abbreviation insert := (insert_row nulls_distinct).



Lemma fold_insert_flat {L : Type} (rows : L -> list Out.t) (locations : list L) :
  forall table,
    fold_left (fun t loc => fold_left insert (rows loc) t) locations table
    = fold_left insert (flat_map rows locations) table.
Proof.
  induction locations as [|loc rest IH]; intros table; [reflexivity|].
  cbn [fold_left flat_map]. now rewrite fold_left_app, IH.
Qed.

End TableFacts.

Section DataFrameFacts.
Import MatchExcelEngine MatchExcelStore.

Lemma float_cell_kept (float_column : bool) (v : option num) :
  float_kept v (float_cell float_column v).
Proof.
  destruct v as [x|], float_column; cbn; [left | left | right | left]; auto.
Qed.

(** What the DataFrame gives back for a record is the record, but for a
    missing latitude or longitude. *)
Lemma through_dataframe_in (records : list Out.t) (row : Out.t) :
  In row (through_dataframe records) ->
  exists r, In r records /\ stored_as r row
            /\ Out.hotel_code row = Out.hotel_code r /\ Out.url row = Out.url r.
Proof.
  unfold through_dataframe. rewrite in_map_iff. intros (r & <- & Hr).
  exists r. split; [exact Hr|]. split; [|split; reflexivity].
  unfold stored_as, present_kept.
  cbn [Out.url Out.scraped_hotel_name Out.city Out.state Out.country Out.address
       Out.match_confidence Out.hotel_code Out.global_property_name Out.state_code
       Out.country_code Out.latitude Out.longitude].
  repeat (split; [solve [reflexivity | auto]|]).
  split; apply float_cell_kept.
Qed.

Lemma through_dataframe_length (records : list Out.t) :
  length (through_dataframe records) = length records.
Proof. unfold through_dataframe. apply length_map. Qed.

Lemma through_dataframe_nil (records : list Out.t) :
  through_dataframe records = [] -> records = [].
Proof.
  intros H. apply (f_equal (@length _)) in H.
  rewrite through_dataframe_length in H. now destruct records.
Qed.

Lemma through_dataframe_keyed (nulls_distinct : bool) (records : list Out.t) :
  Forall (MatchExcelRun.keyed nulls_distinct) records ->
  Forall (MatchExcelRun.keyed nulls_distinct) (through_dataframe records).
Proof.
  intros Hk. apply List.Forall_forall. intros row Hrow.
  destruct (through_dataframe_in records row Hrow) as (r & Hr & _ & Hcode & _).
  rewrite List.Forall_forall in Hk. specialize (Hk r Hr).
  unfold MatchExcelRun.keyed in *. now rewrite Hcode.
Qed.

End DataFrameFacts.

Section StoreFacts.
Import MatchExcelEngine.

Local Abbreviation table_of := (fun s => MatchExcelRun.table (MatchExcelStore.run s)).

Lemma has_column_created :
  forallb (Table.has_column (Table.create_table_if_not_exists None)) Table.INSERT_COLUMNS
  = false.
Proof. reflexivity. Qed.

Lemma create_table_has_country_code (db : option Table.schema) :
  Table.has_column (Table.create_table_if_not_exists db) "country_code" = true.
Proof.
  unfold Table.create_table_if_not_exists.
  set (sch := match db with Some sch => sch | None => Table.CREATE_TABLE end).
  destruct (Table.has_column sch "country_code") eqn:E; [exact E|].
  unfold Table.has_column. cbn [Table.columns]. rewrite existsb_app.
  cbn. now rewrite orb_true_r.
Qed.

(** [create_table_if_not_exists] changes nothing the second time. *)
Lemma create_table_twice (db : option Table.schema) :
  Table.create_table_if_not_exists (Some (Table.create_table_if_not_exists db))
  = Table.create_table_if_not_exists db.
Proof.
  unfold Table.create_table_if_not_exists at 1.
  now rewrite create_table_has_country_code.
Qed.

(** It declares no index: the table has the unique index it had before. *)
Lemma create_table_index (db : option Table.schema) :
  Table.unique_hotel_code_url (Table.create_table_if_not_exists db)
  = match db with Some sch => Table.unique_hotel_code_url sch | None => None end.
Proof.
  unfold Table.create_table_if_not_exists.
  destruct db as [sch|];
    match goal with |- context [if ?b then _ else _] => destruct b end; reflexivity.
Qed.

Lemma insert_batch_cases (sch : Table.schema) (table rows : list Out.t) :
  (Table.accepts sch rows = true
   /\ exists nulls_distinct,
        Table.unique_hotel_code_url sch = Some nulls_distinct
        /\ Table.insert_batch (Some sch) table rows
           = Ok (fold_left (MatchExcelRun.insert_row nulls_distinct) rows table))
  \/ (Table.accepts sch rows = false
      /\ exists e, Table.insert_batch (Some sch) table rows = Raise e).
Proof.
  unfold Table.accepts, Table.insert_batch.
  destruct (forallb (Table.has_column sch) Table.INSERT_COLUMNS); cbn [negb andb].
  - destruct (Table.unique_hotel_code_url sch) as [nd|]; cbn [andb].
    + destruct (forallb (Table.fits sch) rows).
      * left. split; [reflexivity|]. now exists nd.
      * right. split; [reflexivity|]. now eexists.
    + right. split; [reflexivity|]. now eexists.
  - right. split; [reflexivity|]. now eexists.
Qed.

Lemma accepts_needs (sch : Table.schema) (rows : list Out.t) :
  forallb (Table.has_column sch) Table.INSERT_COLUMNS = false
  \/ Table.unique_hotel_code_url sch = None ->
  Table.accepts sch rows = false.
Proof.
  unfold Table.accepts. intros [-> | ->]; [reflexivity|].
  now rewrite andb_false_r.
Qed.

Lemma set_table_same (s : MatchExcelStore.state) :
  MatchExcelStore.set_table (table_of s) s = s.
Proof. now destruct s as [[t c a sn] db]. Qed.

Lemma store_batch_nil (sch : Table.schema) (table : list Out.t) :
  MatchExcelStore.store_batch sch table [] = table.
Proof.
  unfold MatchExcelStore.store_batch.
  now destruct (Table.unique_hotel_code_url sch).
Qed.

(** [save_to_db] on a table [sch]: the batch is stored when it is empty or
    the table takes it; otherwise the exception leaves the function and the
    state is as before. *)
Lemma save_to_db_run (sch : Table.schema) (records : list Out.t)
    (s : MatchExcelStore.state) :
  MatchExcelStore.schema s = Some sch ->
  if MatchExcelStore.batch_accepted sch records
  then MatchExcelStore.save_to_db records s
       = (Ok tt, MatchExcelStore.set_table
                   (MatchExcelStore.store_batch sch (table_of s) records) s)
  else exists e, MatchExcelStore.save_to_db records s = (Raise e, s).
Proof.
  intros Hs. unfold MatchExcelStore.save_to_db, MatchExcelStore.batch_accepted.
  destruct records as [|r rest].
  - now rewrite store_batch_nil, set_table_same.
  - rewrite Hs.
    destruct (insert_batch_cases sch (table_of s)
                (MatchExcelStore.through_dataframe (r :: rest)))
      as [(-> & nd & Hnd & ->) | (-> & e & ->)].
    + unfold MatchExcelStore.store_batch. now rewrite Hnd.
    + now exists e.
Qed.

(** On a table that takes the batch, [save_to_db] is the [save_to_db] of
    [MatchExcelRun] on what the DataFrame gives back. *)
Lemma save_to_db_on_prepared_table (sch : Table.schema) (nulls_distinct : bool)
    (records : list Out.t) (s : MatchExcelStore.state) :
  MatchExcelStore.schema s = Some sch ->
  Table.unique_hotel_code_url sch = Some nulls_distinct ->
  Table.accepts sch (MatchExcelStore.through_dataframe records) = true ->
  MatchExcelStore.save_to_db records s
  = MatchExcelStore.lift
      (MatchExcelRun.save_to_db nulls_distinct
         (MatchExcelStore.through_dataframe records)) s.
Proof.
  intros Hs Hnd Hacc.
  unfold MatchExcelStore.save_to_db, MatchExcelStore.lift, MatchExcelRun.save_to_db.
  destruct records as [|r rest]; [now destruct s as [[t c a sn] db]|].
  rewrite Hs.
  destruct (insert_batch_cases sch (table_of s)
              (MatchExcelStore.through_dataframe (r :: rest)))
    as [(_ & nd & Hnd' & ->) | (Hno & _)]; [|congruence].
  rewrite Hnd in Hnd'. injection Hnd' as <-.
  destruct s as [[t c a sn] db]. cbn in Hs. subst db.
  unfold MatchExcelStore.set_table, MatchExcelStore.through_dataframe.
  reflexivity.
Qed.

End StoreFacts.


(** A batch of a match and a no-match on a prepared table: both are stored,
    the no-match with [nan] for its coordinates. *)
Example save_mixed_batch :
  let s := Sample.store (Some (Sample.prepared true)) [] in
  let s' := snd (MatchExcelStore.save_to_db
                   [Sample.seattle_outcome; Sample.paris_outcome] s) in
  map (fun row => (MatchExcelEngine.Out.hotel_code row,
                   MatchExcelEngine.Out.latitude row))
      (MatchExcelRun.table (MatchExcelStore.run s'))
  = [ (Some "SEADT", Some (Num (476 # 10))); (None, Some NumNaN) ]
  /\ MatchExcelEngine.Out.latitude Sample.paris_outcome = None.
Proof. vm_compute. auto. Qed.

(** On the table as [create_table_if_not_exists] makes it the same batch is
    refused; so is, on a table that got its [country_code] column from
    [create_table_if_not_exists], an outcome whose country code is longer
    than five characters. *)
Example save_on_created_table :
  let created := Some (Table.create_table_if_not_exists None) in
  MatchExcelStore.save_to_db [Sample.seattle_outcome] (Sample.store created [])
  = (Raise "ProgrammingError", Sample.store created [])
  /\ MatchExcelEngine.Out.country_code Sample.paris_outcome = Some "FRANCE"
  /\ fst (MatchExcelStore.save_to_db [Sample.paris_outcome]
            (Sample.store
               (Some (Table.create_table_if_not_exists
                        (Some Sample.without_country_code))) []))
     = Raise "DataError"
  /\ fst (MatchExcelStore.save_to_db [Sample.seattle_outcome]
            (Sample.store
               (Some (Table.create_table_if_not_exists
                        (Some Sample.without_country_code))) []))
     = Ok tt.
Proof. vm_compute. auto. Qed.

Section StoreRunFacts.
Import MatchExcelEngine.

Variable token_set_ratio : string -> string -> Q.

Local Abbreviation table_of := (fun s => MatchExcelRun.table (MatchExcelStore.run s)).
Local Abbreviation outcomes := (MatchExcelRun.run_outcomes token_set_ratio).
Local Abbreviation stored := (MatchExcelStore.stored_locations token_set_ratio).
Local Abbreviation stored_table := (MatchExcelStore.stored_table token_set_ratio).

Lemma lift_scrape_hotels_from_location (url : string) (v : Crawl.visit Item.t)
    (s : MatchExcelStore.state) :
  exists console',
    MatchExcelStore.lift (MatchExcelRun.scrape_hotels_from_location url v) s
    = (Ok (Crawl.collected v),
       {| MatchExcelStore.run :=
            {| MatchExcelRun.table := table_of s;
               MatchExcelRun.console := console';
               MatchExcelRun.all_results :=
                 MatchExcelRun.all_results (MatchExcelStore.run s);
               MatchExcelRun.snapshot :=
                 MatchExcelRun.snapshot (MatchExcelStore.run s) |};
          MatchExcelStore.schema := MatchExcelStore.schema s |}).
Proof.
  destruct s as [[t c a sn] db].
  unfold MatchExcelStore.lift, MatchExcelRun.scrape_hotels_from_location,
    bind, try_except, raise, ret, MatchExcelRun.print.
  destruct (Crawl.failure v); cbn; eexists; reflexivity.
Qed.

(** The loop of lines 420-424 on a table [sch]: it stores and keeps the
    outcomes of the locations up to the first batch that the table refuses,
    and raises there. *)
Lemma store_for_each_location (sch : Table.schema) (df_master : list Master.row)
    (locations : list (string * Crawl.visit Item.t)) :
  forall s : MatchExcelStore.state,
    MatchExcelStore.schema s = Some sch ->
    exists r console',
      MatchExcelStore.for_each_location token_set_ratio df_master locations s
      = (r,
         {| MatchExcelStore.run :=
              {| MatchExcelRun.table :=
                   stored_table sch df_master (table_of s) (stored sch df_master locations);
                 MatchExcelRun.console := console';
                 MatchExcelRun.all_results :=
                   MatchExcelRun.all_results (MatchExcelStore.run s)
                   ++ outcomes df_master (stored sch df_master locations);
                 MatchExcelRun.snapshot :=
                   MatchExcelRun.snapshot (MatchExcelStore.run s) |};
            MatchExcelStore.schema := Some sch |}).
Proof.
  induction locations as [|[url v] rest IH]; intros s Hs.
  - exists (Ok tt), (MatchExcelRun.console (MatchExcelStore.run s)).
    destruct s as [[t c a sn] db]. cbn in Hs |- *. subst db.
    now rewrite app_nil_r.
  - cbn [MatchExcelStore.for_each_location MatchExcelStore.stored_locations].
    unfold bind at 1.
    destruct (lift_scrape_hotels_from_location url v s) as (c1 & ->).
    change (match_hotels token_set_ratio (map Some (Crawl.collected v)) df_master)
      with (MatchExcelRun.location_outcomes token_set_ratio df_master (url, v)).
    set (matched := MatchExcelRun.location_outcomes token_set_ratio df_master (url, v)).
    match goal with
    | |- context [bind (MatchExcelStore.save_to_db matched) _ ?s1] =>
        pose proof (save_to_db_run sch matched s1 Hs) as Hsave
    end.
    destruct (MatchExcelStore.batch_accepted sch matched).
    + unfold bind at 1. rewrite Hsave. unfold bind at 1.
      unfold MatchExcelStore.lift at 1, MatchExcelRun.extend_results.
      cbn [fst snd MatchExcelStore.run MatchExcelStore.schema MatchExcelStore.set_table
           MatchExcelRun.table MatchExcelRun.console MatchExcelRun.all_results
           MatchExcelRun.snapshot].
      match goal with
      | |- context [MatchExcelStore.for_each_location _ _ rest ?s2] =>
          destruct (IH s2 Hs) as (r & c2 & ->)
      end.
      exists r, c2.
      cbn [MatchExcelStore.run MatchExcelStore.schema
           MatchExcelRun.table MatchExcelRun.console MatchExcelRun.all_results
           MatchExcelRun.snapshot MatchExcelRun.run_outcomes flat_map
           MatchExcelStore.stored_table fold_left].
      fold matched. now rewrite <- app_assoc.
    + destruct Hsave as (e & Hsave). unfold bind at 1. rewrite Hsave.
      exists (Raise e), c1.
      cbn [MatchExcelRun.run_outcomes flat_map MatchExcelStore.stored_table fold_left].
      now rewrite app_nil_r, Hs.
Qed.

(** The locations stored are among those given. *)
Lemma stored_locations_incl (sch : Table.schema) (df_master : list Master.row)
    (locations : list (string * Crawl.visit Item.t)) :
  incl (stored sch df_master locations) locations.
Proof.
  induction locations as [|loc rest IH]; [apply incl_refl|].
  cbn [MatchExcelStore.stored_locations].
  destruct (MatchExcelStore.batch_accepted sch _).
  - intros x [<- | Hx]; [now left | right; now apply IH].
  - intros x [].
Qed.

(** On a table that lacks a column of the statement, or the index, only
    empty batches go through: the run stores and returns nothing. *)
Lemma refused_run_is_empty (sch : Table.schema) (df_master : list Master.row)
    (locations : list (string * Crawl.visit Item.t)) (table : list Out.t) :
  forallb (Table.has_column sch) Table.INSERT_COLUMNS = false
  \/ Table.unique_hotel_code_url sch = None ->
  outcomes df_master (stored sch df_master locations) = []
  /\ stored_table sch df_master table (stored sch df_master locations) = table.
Proof.
  intros Hsch. induction locations as [|loc rest [IH1 IH2]]; [split; reflexivity|].
  cbn [MatchExcelStore.stored_locations]. unfold MatchExcelStore.batch_accepted.
  destruct (MatchExcelRun.location_outcomes token_set_ratio df_master loc) eqn:E.
  - cbn [MatchExcelRun.run_outcomes flat_map MatchExcelStore.stored_table fold_left].
    rewrite E, store_batch_nil. cbn [app]. split; [exact IH1 | exact IH2].
  - rewrite (accepts_needs sch _ Hsch). split; reflexivity.
Qed.

(** The table after the stored batches, as one sequence of statements. *)
Lemma stored_table_flat (sch : Table.schema) (nulls_distinct : bool)
    (df_master : list Master.row) (locations : list (string * Crawl.visit Item.t))
    (table : list Out.t) :
  Table.unique_hotel_code_url sch = Some nulls_distinct ->
  stored_table sch df_master table locations
  = fold_left (MatchExcelRun.insert_row nulls_distinct)
      (flat_map (fun loc =>
                   MatchExcelStore.through_dataframe
                     (MatchExcelRun.location_outcomes token_set_ratio df_master loc))
                locations)
      table.
Proof.
  intros Hnd. unfold MatchExcelStore.stored_table, MatchExcelStore.store_batch.
  rewrite Hnd. apply fold_insert_flat.
Qed.

Lemma stored_table_twice (sch : Table.schema) (df_master : list Master.row)
    (locations : list (string * Crawl.visit Item.t)) (table : list Out.t) :
  (forall nulls_distinct,
      Table.unique_hotel_code_url sch = Some nulls_distinct ->
      Forall (MatchExcelRun.keyed nulls_distinct) (outcomes df_master locations)) ->
  let L := stored sch df_master locations in
  stored_table sch df_master (stored_table sch df_master table L) L
  = stored_table sch df_master table L.
Proof.
  intros Hk L.
  destruct (Table.unique_hotel_code_url sch) as [nd|] eqn:Hnd.
  - rewrite !(stored_table_flat sch nd) by exact Hnd.
    apply fold_insert_conflicts. apply fold_insert_all_stored.
    apply List.Forall_forall. intros row Hrow.
    apply in_flat_map in Hrow as (loc & Hloc & Hrow).
    assert (Hk' : Forall (MatchExcelRun.keyed nd)
                    (MatchExcelRun.location_outcomes token_set_ratio df_master loc)).
    { apply List.Forall_forall. intros o Ho.
      specialize (Hk nd eq_refl). rewrite List.Forall_forall in Hk. apply Hk.
      unfold MatchExcelRun.run_outcomes. apply in_flat_map.
      exists loc. split; [|exact Ho].
      now apply (stored_locations_incl sch df_master locations). }
    apply through_dataframe_keyed in Hk'.
    rewrite List.Forall_forall in Hk'. now apply Hk'.
  - unfold MatchExcelStore.stored_table, MatchExcelStore.store_batch. rewrite Hnd.
    clear. generalize table. induction L as [|loc rest IH]; intros t; [reflexivity|].
    cbn [fold_left]. rewrite !IH. reflexivity.
Qed.

Variable ddl : result unit.
Variable read_excel : result (list Raw.row).
Variable locations_file : result (list (string * Crawl.visit Item.t)).
Variable dump : result unit.

Local Abbreviation main :=
  (MatchExcelStore.main_scrape_and_map ddl read_excel locations_file dump token_set_ratio).

Local Abbreviation run_stored :=
  (MatchExcelStore.run_stored locations_file token_set_ratio).

(** [main_scrape_and_map] of [match_EXCEL.py], case by case. *)
Lemma store_main_run (s : MatchExcelStore.state) :
  let sch := Table.create_table_if_not_exists (MatchExcelStore.schema s) in
  match ddl, read_excel with
  | Raise e, _ => main s = (Raise e, s)
  | Ok _, Raise e =>
      main s = (Raise e, {| MatchExcelStore.run := MatchExcelStore.run s;
                            MatchExcelStore.schema := Some sch |})
  | Ok _, Ok excel =>
      let df_master := MatchExcelEngine.load_csl_hotels excel in
      let results := outcomes df_master (run_stored sch df_master) in
      exists console',
        main s
        = (match dump with Ok _ => Ok results | Raise e => Raise e end,
           {| MatchExcelStore.run :=
                {| MatchExcelRun.table :=
                     stored_table sch df_master (table_of s) (run_stored sch df_master);
                   MatchExcelRun.console := console';
                   MatchExcelRun.all_results := results;
                   MatchExcelRun.snapshot :=
                     match dump with
                     | Ok _ => Some results
                     | Raise _ => MatchExcelRun.snapshot (MatchExcelStore.run s)
                     end |};
              MatchExcelStore.schema := Some sch |})
  end.
Proof.
  cbv zeta. unfold MatchExcelStore.main_scrape_and_map, MatchExcelStore.run_stored.
  unfold MatchExcelStore.create_table_if_not_exists, MatchExcelStore.load_csl_hotels,
    MatchExcelStore.load_locations, MatchExcelStore.write_snapshot.
  destruct ddl as [u|e0]; [|reflexivity].
  destruct read_excel as [excel|e1]; [|reflexivity].
  unfold bind at 1. unfold bind at 1. unfold ret at 1. unfold bind at 1.
  unfold MatchExcelStore.lift at 1, MatchExcelStore.new_results.
  cbn [fst snd MatchExcelStore.run MatchExcelStore.schema
       MatchExcelRun.table MatchExcelRun.console MatchExcelRun.all_results
       MatchExcelRun.snapshot].
  unfold bind at 1, try_except.
  destruct locations_file as [locations|e2].
  - unfold bind at 1, ret at 1.
    match goal with
    | |- context [MatchExcelStore.for_each_location _ ?df locations ?s0] =>
        destruct (store_for_each_location
                    (Table.create_table_if_not_exists (MatchExcelStore.schema s))
                    df locations s0 eq_refl) as (r & c & ->)
    end.
    cbn [MatchExcelStore.run MatchExcelStore.schema
         MatchExcelRun.table MatchExcelRun.console MatchExcelRun.all_results
         MatchExcelRun.snapshot app].
    destruct r as [u'|e]; destruct dump as [u''|e'];
      unfold bind, raise, MatchExcelStore.lift, MatchExcelRun.write_snapshot,
        MatchExcelRun.print;
      cbn [fst snd MatchExcelStore.run MatchExcelStore.schema
           MatchExcelRun.table MatchExcelRun.console MatchExcelRun.all_results
           MatchExcelRun.snapshot];
      eexists; reflexivity.
  - destruct dump as [u''|e'];
      unfold bind, raise, MatchExcelStore.lift, MatchExcelRun.write_snapshot,
        MatchExcelRun.print;
      cbn [fst snd MatchExcelStore.run MatchExcelStore.schema
           MatchExcelRun.table MatchExcelRun.console MatchExcelRun.all_results
           MatchExcelRun.snapshot MatchExcelRun.run_outcomes flat_map
           MatchExcelStore.stored_table fold_left];
      eexists; reflexivity.
Qed.

(** The table and its definition after a run. *)
Lemma store_main_table (s : MatchExcelStore.state) :
  let sch := Table.create_table_if_not_exists (MatchExcelStore.schema s) in
  table_of (snd (main s))
  = match ddl, read_excel with
    | Ok _, Ok excel =>
        let df_master := MatchExcelEngine.load_csl_hotels excel in
        stored_table sch df_master (table_of s) (run_stored sch df_master)
    | _, _ => table_of s
    end
  /\ MatchExcelStore.schema (snd (main s))
     = match ddl with
       | Ok _ => Some sch
       | Raise _ => MatchExcelStore.schema s
       end.
Proof.
  cbv zeta. pose proof (store_main_run s) as H. cbv zeta in H.
  destruct ddl as [u|e0]; [|now rewrite H].
  destruct read_excel as [excel|e1]; [|now rewrite H].
  destruct H as (c & ->). split; reflexivity.
Qed.

End StoreRunFacts.

(** X23.  A second run of [match_EXCEL.py] over the same locations, with the
    same pages, registry and files, leaves the table as the first run left
    it, whatever the table's definition and whether or not the runs ended
    early, provided every outcome has a key: a [hotel_code], or an index
    that does not tell NULLs apart. *)
Theorem rerun_leaves_table
    (ddl : result unit) (read_excel : result (list Raw.row))
    (locations_file : result (list (string * Crawl.visit MatchExcelEngine.Item.t)))
    (dump : result unit) (token_set_ratio : string -> string -> Q)
    (s : MatchExcelStore.state) :
  (forall excel locations nulls_distinct,
      read_excel = Ok excel -> locations_file = Ok locations ->
      Table.unique_hotel_code_url
        (Table.create_table_if_not_exists (MatchExcelStore.schema s))
      = Some nulls_distinct ->
      Forall (MatchExcelRun.keyed nulls_distinct)
             (MatchExcelRun.run_outcomes token_set_ratio
                (MatchExcelEngine.load_csl_hotels excel) locations)) ->
  let run :=
    MatchExcelStore.main_scrape_and_map ddl read_excel locations_file dump
      token_set_ratio in
  let first := snd (run s) in
  let second := snd (run first) in
  MatchExcelRun.table (MatchExcelStore.run second)
  = MatchExcelRun.table (MatchExcelStore.run first).
Proof.
  intros Hk run first second. subst run first second.
  destruct (store_main_table token_set_ratio ddl read_excel locations_file dump s)
    as [Ht Hs].
  match goal with
  | |- context [snd (?m (snd (?m s)))] =>
      destruct (store_main_table token_set_ratio ddl read_excel locations_file dump
                  (snd (m s))) as [Ht2 _]
  end.
  cbv zeta in Ht, Hs, Ht2. rewrite Ht2. clear Ht2.
  destruct ddl as [u|e0]; [|reflexivity].
  destruct read_excel as [excel|e1]; [|reflexivity].
  rewrite Hs, create_table_twice, Ht.
  unfold MatchExcelStore.run_stored.
  destruct locations_file as [locations|e2]; [|reflexivity].
  apply stored_table_twice.
  intros nd Hnd. now apply (Hk excel locations nd).
Qed.

Lemma rerun_leaves_table_witness :
  let run :=
    MatchExcelStore.main_scrape_and_map (Ok tt) (Ok Sample.excel) (Ok Sample.locations)
      (Ok tt) Sample.ratio in
  let first := snd (run (Sample.store (Some (Sample.prepared false)) [])) in
  MatchExcelRun.table (MatchExcelStore.run (snd (run first)))
  = MatchExcelRun.table (MatchExcelStore.run first)
  /\ length (MatchExcelRun.table (MatchExcelStore.run first)) = 2.
Proof.
  split; [|reflexivity].
  apply (rerun_leaves_table (Ok tt) (Ok Sample.excel) (Ok Sample.locations) (Ok tt)
           Sample.ratio (Sample.store (Some (Sample.prepared false)) [])).
  intros excel locations nd _ _ Hnd. vm_compute in Hnd. injection Hnd as <-.
  apply List.Forall_forall. intros r _. right. reflexivity.
Defined.

(** ** The registry once loaded *)

(** X24.  The registry side and the discovered side canonicalise alike.
    [load_csl_hotels] gives a row whose country cell is ASCII text, not
    blank and not one of the spellings USA, UNITED STATES, U.S., U.S.A., the
    country code that [country_to_code] gives that text; and a row whose
    state cell is a two-letter ASCII token, white space around it allowed,
    the state code that [state_to_code] gives that token.  The two files
    give every row the same name key, state code and country code. *)
Theorem loaded_registry_keys (excel : list Raw.row) :
  Forall2 (fun r row =>
             (forall country,
                 Raw.Property_Country_Code r = PyStr country ->
                 isascii country = true ->
                 strip country <> "" ->
                 ~ In (upper (strip country)) ["USA"; "UNITED STATES"; "U.S."; "U.S.A."] ->
                 MatchExcel.country_to_code (PyStr country)
                 = Some (Master.country_code row))
             /\ (forall state,
                    Raw.Property_State_Province r = PyStr state ->
                    isascii state = true ->
                    String.length (strip state) = 2 ->
                    isalpha (strip state) = true ->
                    MatchExcel.state_to_code (PyStr state)
                    = Some (Master.state_code row)))
          excel (MatchExcelEngine.load_csl_hotels excel)
  /\ map (fun row => (Master.hotel_norm row, Master.state_code row, Master.country_code row))
         (MatchExcelEngine.load_csl_hotels excel)
     = map (fun row => (Master.hotel_norm row, Master.state_code row, Master.country_code row))
           (MainEngine.load_csl_hotels excel).
Proof.
  split.
  - unfold MatchExcelEngine.load_csl_hotels.
    induction excel as [|r rest IH]; cbn [map]; constructor; [|exact IH].
    cbn [MatchExcelEngine.load_row Master.country_code Master.state_code].
    split.
    + intros country Hc Hascii Hne Hout. rewrite Hc. cbn [str].
      rewrite strip_upper.
      destruct country_to_code_match_excel as (Hus & Hother & _).
      destruct (String.eqb (upper (strip country)) "US") eqn:E.
      * apply String.eqb_eq in E. rewrite E. apply Hus. rewrite E.
        cbn. tauto.
      * apply Hother; [exact Hascii | exact Hne |].
        intros Hin. apply String.eqb_neq in E.
        cbn in Hin, Hout. intuition congruence.
    + intros state Hs _ Hlen Halpha. rewrite Hs. cbn [str].
      rewrite strip_upper.
      destruct state_to_code_match_excel as (Htwo & _).
      now apply Htwo.
  - unfold MatchExcelEngine.load_csl_hotels, MainEngine.load_csl_hotels.
    rewrite !map_map. apply map_ext. intros r.
    cbn [MatchExcelEngine.load_row MainEngine.load_row
         Master.hotel_norm Master.state_code Master.country_code].
    now rewrite normalize_text_files_agree.
Qed.

Example loaded_sample_codes :
  map Master.country_code (MatchExcelEngine.load_csl_hotels Sample.excel)
  = ["US"; "US"; "US"; "FRANCE"]
  /\ map Master.state_code (firstn 3 (MatchExcelEngine.load_csl_hotels Sample.excel))
     = ["WA"; "WA"; "WA"]
  /\ MatchExcel.country_to_code (PyStr "France") = Some "FRANCE"
  /\ MatchExcel.state_to_code (PyStr "WA") = Some "WA".
Proof. vm_compute. auto. Qed.

(** ** The HTTP trigger *)

Section ServerFacts.

Variable token_set_ratio : string -> string -> Q.

Lemma first_failing_location {item : Type} (locations : list (Crawl.visit item)) :
  Exists (fun v => Crawl.failure v <> None) locations ->
  exists pre v e post,
    locations = pre ++ v :: post
    /\ Forall (fun v => Crawl.failure v = None) pre
    /\ Crawl.failure v = Some e.
Proof.
  induction locations as [|x rest IH]; intros H; [inversion H|].
  destruct (Crawl.failure x) as [e|] eqn:Ex.
  - exists [], x, e, rest. repeat split; auto.
  - inversion H as [? ? Hx | ? ? Hrest]; subst; [congruence|].
    destruct (IH Hrest) as (pre & v & e & post & -> & Hpre & Hv).
    exists (x :: pre), v, e, post. repeat split; auto.
Qed.

Lemma main_main_unfold (excel : list Raw.row)
    (locations : list (Crawl.visit MainEngine.Item.t)) (st : MainRun.state) :
  Server.main_main_scrape_and_map token_set_ratio (Ok excel) (Ok locations) st
  = MainRun.main_scrape_and_map token_set_ratio (MainEngine.load_csl_hotels excel)
      locations
      {| MainRun.table := MainRun.table st; MainRun.all_results := [];
         MainRun.snapshot := MainRun.snapshot st |}.
Proof. reflexivity. Qed.

Lemma main_run_all_ok (df_master : list Master.row)
    (locations : list (Crawl.visit MainEngine.Item.t)) (st : MainRun.state) :
  Forall (fun v => Crawl.failure v = None) locations ->
  exists st',
    MainRun.main_scrape_and_map token_set_ratio df_master locations st
    = (Ok (MainRun.all_results st
           ++ MainRun.run_outcomes token_set_ratio df_master locations), st').
Proof.
  intros Hall.
  destruct (main_for_each_location_ok token_set_ratio df_master locations Hall st)
    as (s' & E & Hres & _).
  unfold MainRun.main_scrape_and_map, bind at 1. rewrite E.
  unfold bind, MainRun.write_snapshot. cbn [MainRun.all_results].
  rewrite Hres. eexists. reflexivity.
Qed.

(** A run that cannot read its locations, or whose table lacks a column of
    the statement or the index, stores and returns nothing. *)
Lemma empty_run (locations_file : result (list (string * Crawl.visit MatchExcelEngine.Item.t)))
    (sch : Table.schema) (df_master : list Master.row)
    (table : list MatchExcelEngine.Out.t) :
  (exists e, locations_file = Raise e)
  \/ forallb (Table.has_column sch) Table.INSERT_COLUMNS = false
  \/ Table.unique_hotel_code_url sch = None ->
  let stored := MatchExcelStore.run_stored locations_file token_set_ratio sch df_master in
  MatchExcelRun.run_outcomes token_set_ratio df_master stored = []
  /\ MatchExcelStore.stored_table token_set_ratio sch df_master table stored = table.
Proof.
  intros H. cbv zeta. unfold MatchExcelStore.run_stored.
  destruct locations_file as [locations|e0]; [|split; reflexivity].
  destruct H as [(e & H) | H]; [discriminate|].
  now apply refused_run_is_empty.
Qed.

End ServerFacts.

(** X25.  The trigger of [match_EXCEL.py] never raises and always quits the
    browser.  It answers 500, with the exception's text, exactly when the
    table or the Excel file cannot be set up or the snapshot cannot be
    written; when the set-up fails nothing is stored or written.  In every
    other case it answers 200 "success": the count is the number of
    outcomes of the locations handled before the first batch that the table
    refuses, these outcomes are the snapshot, and their batches are what is
    stored.  So the count is 0, the snapshot empty and the table untouched
    when the file of locations cannot be read, and also when the table
    lacks a column that the statement of [save_to_db] names or the unique
    index on [(hotel_code, url)]: such is the table that the run itself
    creates when there was none. *)
Theorem excel_trigger_answers
    (ddl : result unit) (read_excel : result (list Raw.row))
    (locations_file : result (list (string * Crawl.visit MatchExcelEngine.Item.t)))
    (dump : result unit) (token_set_ratio : string -> string -> Q)
    (s : Server.excel_server) :
  let answer :=
    Server.excel_run_scrape_and_map ddl read_excel locations_file dump
      token_set_ratio s in
  let before := MatchExcelStore.run (Server.excel_store s) in
  let after := MatchExcelStore.run (Server.excel_store (snd answer)) in
  let sch :=
    Table.create_table_if_not_exists (MatchExcelStore.schema (Server.excel_store s)) in
  Server.excel_driver_quit (snd answer) = true
  /\ (Server.http_status (fst answer) = 500
      <-> (exists e, ddl = Raise e) \/ (exists e, read_excel = Raise e)
          \/ (exists e, dump = Raise e))
  /\ (Server.http_status (fst answer) = 500 ->
      exists e,
        fst answer = Server.mk_response "error" None (Some e) 500
        /\ (ddl = Raise e \/ read_excel = Raise e \/ dump = Raise e))
  /\ ((exists e, ddl = Raise e) \/ (exists e, read_excel = Raise e) ->
      MatchExcelRun.table after = MatchExcelRun.table before
      /\ MatchExcelRun.snapshot after = MatchExcelRun.snapshot before)
  /\ (forall excel,
         ddl = Ok tt -> read_excel = Ok excel -> dump = Ok tt ->
         let df_master := MatchExcelEngine.load_csl_hotels excel in
         let stored :=
           MatchExcelStore.run_stored locations_file token_set_ratio sch df_master in
         let results := MatchExcelRun.run_outcomes token_set_ratio df_master stored in
         fst answer
         = Server.mk_response "success" (Some (length results))
             (Some Server.success_message) 200
         /\ MatchExcelRun.snapshot after = Some results
         /\ MatchExcelRun.table after
            = MatchExcelStore.stored_table token_set_ratio sch df_master
                (MatchExcelRun.table before) stored)
  /\ (forall excel,
         ddl = Ok tt -> read_excel = Ok excel -> dump = Ok tt ->
         (exists e, locations_file = Raise e)
         \/ forallb (Table.has_column sch) Table.INSERT_COLUMNS = false
         \/ Table.unique_hotel_code_url sch = None
         \/ MatchExcelStore.schema (Server.excel_store s) = None ->
         fst answer
         = Server.mk_response "success" (Some 0) (Some Server.success_message) 200
         /\ MatchExcelRun.snapshot after = Some []
         /\ MatchExcelRun.table after = MatchExcelRun.table before).
Proof.
  cbv zeta. unfold Server.excel_run_scrape_and_map.
  pose proof (store_main_run token_set_ratio ddl read_excel locations_file dump
                (Server.excel_store s)) as Hrun.
  cbv zeta in Hrun.
  destruct ddl as [[]|e0]; [destruct read_excel as [excel|e1]|].
  - destruct Hrun as (c & ->).
    destruct dump as [[]|e2];
      cbn [fst snd Server.excel_driver_quit Server.excel_store Server.http_status
           MatchExcelStore.lift MatchExcelStore.run MatchExcelStore.schema
           MatchExcelRun.print MatchExcelRun.table MatchExcelRun.snapshot].
    + split; [reflexivity|].
      split; [split; [intros H; lia | intros [(e & H) | [(e & H) | (e & H)]]; discriminate]|].
      split; [intros H; lia|].
      split; [intros [(e & H) | (e & H)]; discriminate|].
      split.
      * intros excel' _ [= <-] _. repeat split.
      * intros excel' _ [= <-] _ Hempty.
        assert (Hempty' :
                  (exists e, locations_file = Raise e)
                  \/ forallb (Table.has_column
                                (Table.create_table_if_not_exists
                                   (MatchExcelStore.schema (Server.excel_store s))))
                       Table.INSERT_COLUMNS = false
                  \/ Table.unique_hotel_code_url
                       (Table.create_table_if_not_exists
                          (MatchExcelStore.schema (Server.excel_store s))) = None).
        { destruct Hempty as [H | [H | [H | H]]]; auto.
          right. left. rewrite H. exact has_column_created. }
        destruct (empty_run token_set_ratio locations_file _
                    (MatchExcelEngine.load_csl_hotels excel)
                    (MatchExcelRun.table (MatchExcelStore.run (Server.excel_store s)))
                    Hempty') as [-> ->].
        repeat split.
    + split; [reflexivity|].
      split; [split; [intros _; right; right; now exists e2 | reflexivity]|].
      split; [intros _; exists e2; split; [reflexivity | auto]|].
      split; [intros [(e & H) | (e & H)]; discriminate|].
      split; intros excel' _ _ H; discriminate H.
  - rewrite Hrun.
    cbn [fst snd Server.excel_driver_quit Server.excel_store Server.http_status
         MatchExcelStore.lift MatchExcelStore.run MatchExcelStore.schema
         MatchExcelRun.print MatchExcelRun.table MatchExcelRun.snapshot].
    split; [reflexivity|].
    split; [split; [intros _; right; left; now exists e1 | reflexivity]|].
    split; [intros _; exists e1; split; [reflexivity | auto]|].
    split; [intros _; split; reflexivity|].
    split; intros excel' _ H; discriminate H.
  - rewrite Hrun.
    cbn [fst snd Server.excel_driver_quit Server.excel_store Server.http_status
         MatchExcelStore.lift MatchExcelStore.run MatchExcelStore.schema
         MatchExcelRun.print MatchExcelRun.table MatchExcelRun.snapshot].
    split; [reflexivity|].
    split; [split; [intros _; left; now exists e0 | reflexivity]|].
    split; [intros _; exists e0; split; [reflexivity | auto]|].
    split; [intros _; split; reflexivity|].
    split; intros excel' H; discriminate H.
Qed.

Lemma excel_trigger_answers_witness :
  let answer :=
    Server.excel_run_scrape_and_map (Ok tt) (Ok Sample.excel) (Ok Sample.locations)
      (Ok tt) Sample.ratio (Server.mk_excel (Sample.store None []) false) in
  fst answer
  = Server.mk_response "success" (Some 0) (Some Server.success_message) 200
  /\ MatchExcelRun.table (MatchExcelStore.run (Server.excel_store (snd answer))) = [].
Proof.
  destruct (excel_trigger_answers (Ok tt) (Ok Sample.excel) (Ok Sample.locations)
              (Ok tt) Sample.ratio (Server.mk_excel (Sample.store None []) false))
    as (_ & _ & _ & _ & _ & Hempty).
  destruct (Hempty Sample.excel eq_refl eq_refl eq_refl) as (H1 & _ & H3).
  - right. right. right. reflexivity.
  - split; [exact H1 | exact H3].
Defined.

(** The same run on a prepared table returns and stores the two outcomes
    of the sample. *)
Example excel_trigger_on_prepared_table :
  let answer :=
    Server.excel_run_scrape_and_map (Ok tt) (Ok Sample.excel) (Ok Sample.locations)
      (Ok tt) Sample.ratio
      (Server.mk_excel (Sample.store (Some (Sample.prepared true)) []) false) in
  Server.count (fst answer) = Some 2
  /\ length (MatchExcelRun.table
               (MatchExcelStore.run (Server.excel_store (snd answer)))) = 2.
Proof. vm_compute. auto. Qed.

(** X26.  The trigger of [main.py] always quits the browser, and answers
    "success", with the number of outcomes of the run, exactly when
    everything went well: if the set-up, the reading of the locations or the
    scraping of any one location raises, the exception leaves the handler,
    and in the last case no snapshot is written although the outcomes of
    the earlier locations are already in the table. *)
Theorem main_trigger_answers
    (token_set_ratio : string -> string -> Q)
    (setup : result (list Raw.row))
    (locations_file : result (list (Crawl.visit MainEngine.Item.t)))
    (s : Server.main_server) :
  let answer := Server.main_run_scrape_and_map token_set_ratio setup locations_file s in
  Server.main_driver_quit (snd answer) = true
  /\ (forall e, setup = Raise e -> fst answer = Raise e)
  /\ (forall excel e, setup = Ok excel -> locations_file = Raise e -> fst answer = Raise e)
  /\ (forall excel locations, setup = Ok excel -> locations_file = Ok locations ->
        Exists (fun v => Crawl.failure v <> None) locations ->
        (exists e, fst answer = Raise e)
        /\ MainRun.snapshot (Server.main_run (snd answer))
           = MainRun.snapshot (Server.main_run s))
  /\ (forall excel locations, setup = Ok excel -> locations_file = Ok locations ->
        Forall (fun v => Crawl.failure v = None) locations ->
        fst answer
        = Ok (Server.mk_response "success"
                (Some (length (MainRun.run_outcomes token_set_ratio
                                 (MainEngine.load_csl_hotels excel) locations)))
                None 200)).
Proof.
  cbv zeta. unfold Server.main_run_scrape_and_map.
  destruct setup as [excel|e0]; [destruct locations_file as [locations|e1]|].
  - rewrite main_main_unfold.
    split; [|split; [|split; [|split]]]; try (intros; discriminate).
    + match goal with
      | |- context [match ?x with _ => _ end] => destruct x as [[?|?] ?]
      end; reflexivity.
    + intros excel' locations' [= <-] [= <-] Hex.
      destruct (first_failing_location locations Hex)
        as (pre & v & e & post & -> & Hpre & Hv).
      match goal with
      | |- context [MainRun.main_scrape_and_map _ _ _ ?s0] =>
          destruct (main_location_failure_aborts token_set_ratio
                      (MainEngine.load_csl_hotels excel) pre post e v s0 Hpre Hv)
            as (s' & E & Hsnap)
      end.
      rewrite E. cbn. split; [now exists e | exact Hsnap].
    + intros excel' locations' [= <-] [= <-] Hall.
      match goal with
      | |- context [MainRun.main_scrape_and_map _ _ _ ?s0] =>
          destruct (main_run_all_ok token_set_ratio (MainEngine.load_csl_hotels excel)
                      locations s0 Hall) as (s' & E)
      end.
      rewrite E. reflexivity.
  - cbn. repeat split; try discriminate.
    intros excel' e [= <-] [= <-]. reflexivity.
  - cbn. repeat split; try discriminate.
    intros e [= <-]. reflexivity.
Qed.

Lemma main_trigger_answers_witness :
  exists e,
    fst (Server.main_run_scrape_and_map Sample.ratio (Ok Sample.excel)
           (Ok Sample.main_locations)
           (Server.mk_main (MainRun.initial []) false))
    = Raise e.
Proof.
  destruct (main_trigger_answers Sample.ratio (Ok Sample.excel) (Ok Sample.main_locations)
              (Server.mk_main (MainRun.initial []) false))
    as (_ & _ & _ & Hfail & _).
  destruct (Hfail Sample.excel Sample.main_locations eq_refl eq_refl) as [H _].
  - right. left. discriminate.
  - exact H.
Defined.
